(** * A shallow embedding of the gopher client (gopherTESTING.py)

    The development follows the layout of the Python module:

    - [Py]: the fragment of Python's dynamic values, string methods and
      exceptions that the client relies on;
    - [Float64]: the binary64 product [len(lines) * 0.20] used by the menu
      heuristic, with round-to-nearest-even written out over [Z];
    - [Sys]: the objects the program owns (the history manager, the client,
      the shared default list), the world it talks to (keyboard, peers,
      files, the platform's check of an address, the trace of what it
      prints, logs, sends and writes) and the
      state-and-exception monad the methods run in;
    - [History]: class [ImprovedHistoryManager];
    - [Client]: class [GopherClient];
    - [Scenarios]: concrete worlds for the runs that are evaluated.

    Loops that wait for input and the recursion of [navigate] take fuel.
    Statements about the program come after the definitions. *)

From Stdlib Require Import ZArith Lia List Ascii String Bool.
From stdpp Require Import base gmap strings list pretty.

Set Warnings "-register-all".

(* ===================================================================== *)
(** ** Python values, strings and exceptions                              *)
(* ===================================================================== *)

Module Py.

(** Dynamic values.  [VOpaque] stands for objects whose structure the client
    never inspects (a logger, a bound method). *)
Inductive pyval : Type :=
| VNone
| VBool (b : bool)
| VInt (z : Z)
| VStr (s : string)
| VTuple (items : list pyval)
| VList (items : list pyval)
| VDict (items : list (string * pyval))
| VOpaque (descr : string).

(** The exception classes that occur in the module and in the library
    calls it makes.  [SystemExit] derives from [BaseException] only; every
    other class derives from [Exception]. *)
Inductive exn : Type :=
| Exception
| AttributeError
| IndexError
| KeyError
| TypeError
| ValueError
| JSONDecodeError
| UnicodeError
| OverflowError
| OSError
| EOFError
| UnboundLocalError
| SystemExit (code : Z).

Definition exn_name (e : exn) : string :=
  match e with
  | Exception => "Exception"
  | AttributeError => "AttributeError"
  | IndexError => "IndexError"
  | KeyError => "KeyError"
  | TypeError => "TypeError"
  | ValueError => "ValueError"
  | JSONDecodeError => "JSONDecodeError"
  | UnicodeError => "UnicodeError"
  | OverflowError => "OverflowError"
  | OSError => "OSError"
  | EOFError => "EOFError"
  | UnboundLocalError => "UnboundLocalError"
  | SystemExit _ => "SystemExit"
  end.

(** [isinstance e cls]: [socket.error] and [IOError] are aliases of
    [OSError]; [json.JSONDecodeError] and [UnicodeError] are subclasses of
    [ValueError]. *)
Definition isinstance (e cls : exn) : bool :=
  match cls, e with
  | Exception, SystemExit _ => false
  | Exception, _ => true
  | ValueError, JSONDecodeError => true
  | ValueError, UnicodeError => true
  | SystemExit _, SystemExit _ => true
  | _, _ => String.eqb (exn_name e) (exn_name cls)
  end.

Definition catches (classes : list exn) (e : exn) : bool :=
  existsb (isinstance e) classes.

(** *** Python's [==] on values *)

Fixpoint assoc {A : Type} (k : string) (l : list (string * A)) : option A :=
  match l with
  | [] => None
  | (k', v) :: l' => if String.eqb k k' then Some v else assoc k l'
  end.

Fixpoint py_eqb (a b : pyval) {struct a} : bool :=
  match a, b with
  | VNone, VNone => true
  | VBool x, VBool y => Bool.eqb x y
  | VBool x, VInt y => (y =? Z.b2z x)%Z
  | VInt x, VBool y => (x =? Z.b2z y)%Z
  | VInt x, VInt y => (x =? y)%Z
  | VStr x, VStr y => String.eqb x y
  | VTuple x, VTuple y | VList x, VList y =>
      (fix go (l1 l2 : list pyval) : bool :=
         match l1, l2 with
         | [], [] => true
         | u :: l1', v :: l2' => py_eqb u v && go l1' l2'
         | _, _ => false
         end) x y
  | VDict x, VDict y =>
      (fix go (l1 : list (string * pyval)) : bool :=
         match l1 with
         | [] => true
         | (k, u) :: l1' =>
             match assoc k y with
             | Some v => py_eqb u v && go l1'
             | None => false
             end
         end) x && (length x =? length y)%nat
  | VOpaque x, VOpaque y => String.eqb x y
  | _, _ => false
  end.

(** Truth value of an object, as [if x:] and [not x] test it. *)
Definition truthy (v : pyval) : bool :=
  match v with
  | VNone => false
  | VBool b => b
  | VInt z => negb (z =? 0)%Z
  | VStr s => negb (String.eqb s "")
  | VTuple l | VList l => negb (length l =? 0)%nat
  | VDict l => negb (length l =? 0)%nat
  | VOpaque _ => true
  end.

(** [x or y] *)
Definition py_or (x y : pyval) : pyval := if truthy x then x else y.

(** *** String methods *)

(** [s.split(sep)] for a one-character separator: never empty. *)
Fixpoint split (sep : ascii) (s : string) : list string :=
  match s with
  | EmptyString => [EmptyString]
  | String c s' =>
      if Ascii.eqb c sep then EmptyString :: split sep s'
      else match split sep s' with
           | [] => [String c EmptyString]
           | h :: t => String c h :: t
           end
  end.

(** [s.count(c)] for a one-character needle. *)
Fixpoint count (c : ascii) (s : string) : nat :=
  match s with
  | EmptyString => 0
  | String c' s' => (if Ascii.eqb c' c then 1 else 0) + count c s'
  end.

(** [c in s] *)
Definition contains (c : ascii) (s : string) : bool :=
  negb (count c s =? 0)%nat.

Definition TAB : ascii := "009"%char.
Definition LF : ascii := "010"%char.
Definition CR : ascii := "013"%char.

(** Characters are code points below 256.  [str.isspace] holds there for
    tab..carriage return, the separators 28..31, space, NEL and NBSP. *)
Definition isspace (c : ascii) : bool :=
  let n := nat_of_ascii c in
  ((9 <=? n) && (n <=? 13) || (28 <=? n) && (n <=? 32)
   || (n =? 133) || (n =? 160))%nat.

Fixpoint lstrip (s : string) : string :=
  match s with
  | EmptyString => EmptyString
  | String c s' => if isspace c then lstrip s' else s
  end.

Fixpoint rstrip (s : string) : string :=
  match s with
  | EmptyString => EmptyString
  | String c s' =>
      match rstrip s' with
      | EmptyString => if isspace c then EmptyString else String c EmptyString
      | r => String c r
      end
  end.

(** [s.strip()] *)
Definition strip (s : string) : string := rstrip (lstrip s).

Definition lower_char (c : ascii) : ascii :=
  let n := nat_of_ascii c in
  if ((65 <=? n) && (n <=? 90)
      || (192 <=? n) && (n <=? 222) && negb (n =? 215))%nat
  then ascii_of_nat (n + 32) else c.

(** [s.lower()] *)
Fixpoint lower (s : string) : string :=
  match s with
  | EmptyString => EmptyString
  | String c s' => String (lower_char c) (lower s')
  end.

Definition is_ascii_digit (c : ascii) : bool :=
  let n := nat_of_ascii c in ((48 <=? n) && (n <=? 57))%nat.

(** [str.isdigit] also accepts the superscripts 178, 179 and 185, which
    [int] rejects. *)
Definition isdigit_char (c : ascii) : bool :=
  let n := nat_of_ascii c in
  (is_ascii_digit c || (n =? 178) || (n =? 179) || (n =? 185))%nat.

(** [str.isalnum] on a code point below 256: letters, decimal digits and
    the numeric signs (superscripts, fractions). *)
Definition isalnum_char (c : ascii) : bool :=
  let n := nat_of_ascii c in
  ((48 <=? n) && (n <=? 57) || (65 <=? n) && (n <=? 90)
   || (97 <=? n) && (n <=? 122)
   || (n =? 170) || (n =? 178) || (n =? 179) || (n =? 181) || (n =? 185)
   || (n =? 186) || (188 <=? n) && (n <=? 190)
   || (192 <=? n) && (n <=? 214) || (216 <=? n) && (n <=? 246)
   || (248 <=? n) && (n <=? 255))%nat.

Fixpoint all_chars (p : ascii -> bool) (s : string) : bool :=
  match s with
  | EmptyString => true
  | String c s' => p c && all_chars p s'
  end.

(** [s.isdigit()] *)
Definition isdigit (s : string) : bool :=
  negb (String.eqb s "") && all_chars isdigit_char s.

(** Digits of an integer literal: single underscores may separate digits.
    [acc] is the value read so far, [prev_digit] tells whether the previous
    character was a digit. *)
Fixpoint int_digits (s : string) (acc : Z) (prev_digit : bool) : option Z :=
  match s with
  | EmptyString => if prev_digit then Some acc else None
  | String c s' =>
      if is_ascii_digit c
      then int_digits s' (10 * acc + Z.of_nat (nat_of_ascii c - 48)) true
      else if Ascii.eqb c "_" && prev_digit then int_digits s' acc false
      else None
  end.

(** [int(s)] for a string: [None] stands for [ValueError]. *)
Definition int_of_string (s : string) : option Z :=
  match strip s with
  | String "+" d => int_digits d 0 false
  | String "-" d => option_map Z.opp (int_digits d 0 false)
  | d => int_digits d 0 false
  end.

(** *** Results of running a piece of code *)

Inductive res (A : Type) : Type :=
| Ret (a : A)
| Raise (e : exn)
| OutOfFuel.

Arguments Ret {A} a.
Arguments Raise {A} e.
Arguments OutOfFuel {A}.

End Py.

Export Py.

(* ===================================================================== *)
(** ** Binary64 arithmetic of the menu heuristic                          *)
(* ===================================================================== *)

Module Float64.

(** A finite non-negative double is [mant * 2^expo] with [mant < 2^53].
    The heuristic multiplies a list length by the literal [0.20]; lengths
    are far below [2^1024], so neither overflow nor subnormals arise. *)
Record float : Type := mk_float { mant : Z; expo : Z }.

(** Round [p * 2^q] ([0 <= p]) to 53 significant bits, ties to even. *)
Definition round53 (p q : Z) : float :=
  if (p <? 2 ^ 53)%Z then mk_float p q
  else
    let s := (Z.log2 p - 52)%Z in
    let m := (p / 2 ^ s)%Z in
    let r := (p mod 2 ^ s)%Z in
    let half := (2 ^ (s - 1))%Z in
    let up := (half <? r)%Z || ((r =? half)%Z && Z.odd m) in
    mk_float (if up then m + 1 else m)%Z (q + s)%Z.

(** [float(n)] for a non-negative [int]. *)
Definition of_int (n : Z) : float := round53 n 0.

(** [x * y] *)
Definition mul (x y : float) : float :=
  round53 (mant x * mant y) (expo x + expo y).

(** The literal [0.20]: the double nearest to 1/5, 0x3FC999999999999A. *)
Definition lit_0_20 : float := mk_float 7205759403792794 (-55).

(** [c > x] for an [int] c and a float x; Python compares them exactly. *)
Definition int_gt (c : Z) (x : float) : bool :=
  if (0 <=? expo x)%Z then (mant x * 2 ^ expo x <? c)%Z
  else (mant x <? c * 2 ^ (- expo x))%Z.

End Float64.

(* ===================================================================== *)
(** ** Objects, the outside world and the monad of effects                *)
(* ===================================================================== *)

Module Sys.

(** *** List methods on dynamic values

    Each returns the mutated receiver together with the method's result, or
    the exception Python raises for a receiver of another type. *)

(** [l.append(x)] *)
Definition list_append (l x : pyval) : res pyval :=
  match l with
  | VList xs => Ret (VList (xs ++ [x]))
  | _ => Raise AttributeError
  end.

(** [l.pop()] *)
Definition list_pop (l : pyval) : res (pyval * pyval) :=
  match l with
  | VList xs =>
      match last xs with
      | Some x => Ret (VList (removelast xs), x)
      | None => Raise IndexError
      end
  | VDict _ => Raise TypeError
  | _ => Raise AttributeError
  end.

(** [l.pop(0)] *)
Definition list_pop0 (l : pyval) : res (pyval * pyval) :=
  match l with
  | VList (x :: xs) => Ret (VList xs, x)
  | VList [] => Raise IndexError
  | VDict _ => Raise KeyError
  | _ => Raise AttributeError
  end.

(** [l.clear()] *)
Definition list_clear (l : pyval) : res pyval :=
  match l with
  | VList _ => Ret (VList [])
  | VDict _ => Ret (VDict [])
  | _ => Raise AttributeError
  end.

(** [len(l)] *)
Definition py_len (l : pyval) : res Z :=
  match l with
  | VStr s => Ret (Z.of_nat (String.length s))
  | VTuple xs | VList xs => Ret (Z.of_nat (length xs))
  | VDict xs => Ret (Z.of_nat (length xs))
  | _ => Raise TypeError
  end.

(** [l[-1]] *)
Definition index_last (l : pyval) : res pyval :=
  match l with
  | VTuple xs | VList xs =>
      match last xs with
      | Some x => Ret x
      | None => Raise IndexError
      end
  | VStr s =>
      match last (list_ascii_of_string s) with
      | Some c => Ret (VStr (String c EmptyString))
      | None => Raise IndexError
      end
  | VDict _ => Raise KeyError
  | _ => Raise TypeError
  end.

(** *** The world *)

Inductive loglevel : Type := DEBUG | INFO | WARNING | ERROR.

Definition level_no (l : loglevel) : Z :=
  match l with DEBUG => 10 | INFO => 20 | WARNING => 30 | ERROR => 40 end.

(** What the program does to the outside, in order.  [EvPrint text args] is
    the [print] of an f-string: [text] is its literal text with [{}] for
    each interpolated expression, [args] the interpolated values.  [EvLog]
    is such a message in a record that the logger let through,
    [EvConnect] a connection that [socket.create_connection] attempts,
    [EvSend] the bytes
    given to [sendall]; the last four are the file operations, with their
    success. *)
Inductive event : Type :=
| EvPrint (text : string) (args : list pyval)
| EvLog (level : loglevel) (text : string) (args : list pyval)
| EvConnect (host port : pyval) (ok : bool)
| EvSend (data : string)
| EvRead (name : string) (ok : bool)
| EvWrite (name : string) (ok : bool)
| EvCopy (src dst : string) (ok : bool)
| EvRemove (name : string) (ok : bool).

(** The peer's script for one connection: the pending [SO_ERROR], whether
    [sendall] goes through, the chunks [recv] hands out, and whether the
    stream then ends in an error instead of end-of-file. *)
Record Conn : Type := mk_conn {
  so_error : Z;
  send_ok : bool;
  chunks : list string;
  recv_fails : bool
}.

Record Socket : Type := mk_socket {
  sock_closed : bool;
  sock_conn : Conn
}.

(** A file holds a JSON document or text that [json.load] rejects. *)
Inductive file : Type :=
| JsonDoc (doc : pyval)
| Garbage (raw : string).

(** The fate of one file operation: it goes through, or fails with
    [OSError] leaving its target untouched ([None]) or with the given
    content. *)
Inductive fault : Type :=
| NoFault
| Fault (residue : option file).

(** What the platform settles for [getaddrinfo]: the host names that the
    IDNA codec refuses to encode (a label that is empty or too long, a
    prohibited character), and the largest value of a C [long]. *)
Record Platform : Type := mk_platform {
  idna_rejects : string -> bool;
  long_max : Z
}.

Record World : Type := mk_world {
  stdin : list string;
  net : list (option Conn);
  fs : gmap string file;
  fs_faults : list fault;
  trace : list event;
  platform : Platform
}.

(** *** The two objects of the program *)

(** A reference to a list object.  The default of [_load_from_file]'s
    second parameter is one list, created when the function is defined and
    handed out by every call that returns its default: [Shared] refers to
    that list, [Own] to a list of its own. *)
Inductive listref : Type :=
| Shared
| Own (v : pyval).

Record ImprovedHistoryManager : Type := mk_hm {
  backward_history : pyval;
  forward_history : pyval;
  max_history : Z;
  history_file : option string
}.

(** [root_level] is the level [logging.basicConfig] gave the root logger,
    [logger_level] the level set on the client's own logger, if any.
    [other_attrs] holds instance attributes beyond those [__init__]
    assigns. *)
Record GopherClient : Type := mk_client {
  host : pyval;
  port : pyval;
  timeout : Z;
  debug : bool;
  socket : option Socket;
  bookmarks : listref;
  search_engines : listref;
  history_manager : ImprovedHistoryManager;
  is_navigating_back : bool;
  root_level : loglevel;
  logger_level : option loglevel;
  other_attrs : gmap string pyval
}.

(** [default_value] is the shared default list of [_load_from_file]. *)
Record State : Type := mk_state {
  self : GopherClient;
  world : World;
  default_value : pyval
}.

(** Field updates. *)
Definition set_backward_history (v : pyval) (h : ImprovedHistoryManager) :=
  mk_hm v (forward_history h) (max_history h) (history_file h).
Definition set_forward_history (v : pyval) (h : ImprovedHistoryManager) :=
  mk_hm (backward_history h) v (max_history h) (history_file h).

Definition set_host (v : pyval) (c : GopherClient) :=
  mk_client v (port c) (timeout c) (debug c) (socket c) (bookmarks c)
    (search_engines c) (history_manager c) (is_navigating_back c)
    (root_level c) (logger_level c) (other_attrs c).
Definition set_port (v : pyval) (c : GopherClient) :=
  mk_client (host c) v (timeout c) (debug c) (socket c) (bookmarks c)
    (search_engines c) (history_manager c) (is_navigating_back c)
    (root_level c) (logger_level c) (other_attrs c).
Definition set_debug (v : bool) (c : GopherClient) :=
  mk_client (host c) (port c) (timeout c) v (socket c) (bookmarks c)
    (search_engines c) (history_manager c) (is_navigating_back c)
    (root_level c) (logger_level c) (other_attrs c).
Definition set_socket (v : option Socket) (c : GopherClient) :=
  mk_client (host c) (port c) (timeout c) (debug c) v (bookmarks c)
    (search_engines c) (history_manager c) (is_navigating_back c)
    (root_level c) (logger_level c) (other_attrs c).
Definition set_bookmarks (v : listref) (c : GopherClient) :=
  mk_client (host c) (port c) (timeout c) (debug c) (socket c) v
    (search_engines c) (history_manager c) (is_navigating_back c)
    (root_level c) (logger_level c) (other_attrs c).
Definition set_history_manager (v : ImprovedHistoryManager) (c : GopherClient) :=
  mk_client (host c) (port c) (timeout c) (debug c) (socket c) (bookmarks c)
    (search_engines c) v (is_navigating_back c)
    (root_level c) (logger_level c) (other_attrs c).
Definition set_logger_level (v : option loglevel) (c : GopherClient) :=
  mk_client (host c) (port c) (timeout c) (debug c) (socket c) (bookmarks c)
    (search_engines c) (history_manager c) (is_navigating_back c)
    (root_level c) v (other_attrs c).
Definition set_other_attrs (v : gmap string pyval) (c : GopherClient) :=
  mk_client (host c) (port c) (timeout c) (debug c) (socket c) (bookmarks c)
    (search_engines c) (history_manager c) (is_navigating_back c)
    (root_level c) (logger_level c) v.

Definition set_stdin (v : list string) (w : World) :=
  mk_world v (net w) (fs w) (fs_faults w) (trace w) (platform w).
Definition set_net (v : list (option Conn)) (w : World) :=
  mk_world (stdin w) v (fs w) (fs_faults w) (trace w) (platform w).
Definition set_fs (v : gmap string file) (w : World) :=
  mk_world (stdin w) (net w) v (fs_faults w) (trace w) (platform w).
Definition set_fs_faults (v : list fault) (w : World) :=
  mk_world (stdin w) (net w) (fs w) v (trace w) (platform w).
Definition set_trace (v : list event) (w : World) :=
  mk_world (stdin w) (net w) (fs w) (fs_faults w) v (platform w).

Definition upd_self (f : GopherClient -> GopherClient) (st : State) : State :=
  mk_state (f (self st)) (world st) (default_value st).
Definition upd_world (f : World -> World) (st : State) : State :=
  mk_state (self st) (f (world st)) (default_value st).
Definition set_default_value (v : pyval) (st : State) : State :=
  mk_state (self st) (world st) v.

(** The same program in another world. *)
Definition in_world (w : World) (st : State) : State :=
  mk_state (self st) w (default_value st).

(** The list a reference stands for. *)
Definition deref (r : listref) (st : State) : pyval :=
  match r with
  | Shared => default_value st
  | Own v => v
  end.

Definition upd_hm (f : ImprovedHistoryManager -> ImprovedHistoryManager)
    (st : State) : State :=
  upd_self (fun c => set_history_manager (f (history_manager c)) c) st.

(** *** The monad: state passing with exceptions *)

Definition M (A : Type) : Type := State -> res A * State.

Definition ret {A : Type} (a : A) : M A := fun st => (Ret a, st).

Definition bind {A B : Type} (m : M A) (k : A -> M B) : M B :=
  fun st =>
    match m st with
    | (Ret a, st') => k a st'
    | (Raise e, st') => (Raise e, st')
    | (OutOfFuel, st') => (OutOfFuel, st')
    end.

Definition raise {A : Type} (e : exn) : M A := fun st => (Raise e, st).

Definition out_of_fuel {A : Type} : M A := fun st => (OutOfFuel, st).

Definition lift {A : Type} (r : res A) : M A := fun st => (r, st).

Definition gets {A : Type} (f : State -> A) : M A := fun st => (Ret (f st), st).

Definition modify (f : State -> State) : M unit := fun st => (Ret tt, f st).

(** [try: body  except classes as e: handler e] *)
Definition try_except {A : Type} (body : M A) (classes : list exn)
    (handler : exn -> M A) : M A :=
  fun st =>
    match body st with
    | (Raise e, st') =>
        if catches classes e then handler e st' else (Raise e, st')
    | r => r
    end.

#[export] Instance M_ret : MRet M := @ret.
#[export] Instance M_bind : MBind M := fun A B k m => bind m k.

(** *** Standard streams and logging *)

Definition emit (e : event) : M unit :=
  modify (upd_world (fun w => set_trace (trace w ++ [e]) w)).

(** [print(f"...")] *)
Definition print (text : string) (args : list pyval) : M unit :=
  emit (EvPrint text args).

(** [input(prompt)]: end of input raises [EOFError]. *)
Definition input (prompt : string) : M string :=
  print prompt [] ;;
  ls ← gets (fun st => stdin (world st));
  match ls with
  | [] => raise EOFError
  | l :: ls' => modify (upd_world (set_stdin ls')) ;; ret l
  end.

Definition effective_level (c : GopherClient) : loglevel :=
  match logger_level c with
  | Some l => l
  | None => root_level c
  end.

(** [self.logging.<level>(f"...")] on the client's logger. *)
Definition log (lvl : loglevel) (text : string) (args : list pyval) : M unit :=
  c ← gets self;
  if (level_no (effective_level c) <=? level_no lvl)%Z
  then emit (EvLog lvl text args)
  else ret tt.

(** The events one call of the logger adds to the trace. *)
Definition log_events (c : GopherClient) (lvl : loglevel) (text : string)
    (args : list pyval) : list event :=
  if (level_no (effective_level c) <=? level_no lvl)%Z
  then [EvLog lvl text args] else [].

(** The client's logger as a value, and [<obj>.debug(...)] on a value. *)
Definition the_logger : pyval := VOpaque "Logger".

Definition call_debug (obj : pyval) (text : string) (args : list pyval)
    : M unit :=
  if py_eqb obj the_logger then log DEBUG text args else raise AttributeError.

(** *** Files

    [json.dump] followed by [json.load] gives back lists for tuples and
    fails on objects that are not JSON data. *)
Fixpoint to_json (v : pyval) : option pyval :=
  match v with
  | VNone | VBool _ | VInt _ | VStr _ => Some v
  | VTuple l | VList l =>
      option_map VList
        ((fix go (l : list pyval) : option (list pyval) :=
            match l with
            | [] => Some []
            | x :: l' =>
                match to_json x, go l' with
                | Some y, Some ys => Some (y :: ys)
                | _, _ => None
                end
            end) l)
  | VDict l =>
      option_map VDict
        ((fix go (l : list (string * pyval)) : option (list (string * pyval)) :=
            match l with
            | [] => Some []
            | (k, x) :: l' =>
                match to_json x, go l' with
                | Some y, Some ys => Some ((k, y) :: ys)
                | _, _ => None
                end
            end) l)
  | VOpaque _ => None
  end.

Definition next_fault : M fault :=
  fs_ ← gets (fun st => fs_faults (world st));
  match fs_ with
  | [] => ret NoFault
  | f :: rest => modify (upd_world (set_fs_faults rest)) ;; ret f
  end.

Definition put_file (name : string) (residue : option file) : M unit :=
  match residue with
  | Some f => modify (upd_world (fun w => set_fs (<[name := f]> (fs w)) w))
  | None => ret tt
  end.

(** [os.path.exists(name)] *)
Definition path_exists (name : string) : M bool :=
  gets (fun st => bool_decide (is_Some (fs (world st) !! name))).

(** [with open(name, 'w') as f: json.dump(data, f)].  A data value that
    is not JSON raises [TypeError] after the file was opened, and so
    truncated. *)
Definition write_json (name : string) (data : pyval) : M unit :=
  flt ← next_fault;
  match flt with
  | Fault residue =>
      put_file name residue ;; emit (EvWrite name false) ;; raise OSError
  | NoFault =>
      match to_json data with
      | Some doc => put_file name (Some (JsonDoc doc)) ;; emit (EvWrite name true)
      | None =>
          put_file name (Some (Garbage "")) ;; emit (EvWrite name false) ;;
          raise TypeError
      end
  end.

(** [with open(name, 'r') as f: return json.load(f)] *)
Definition read_json (name : string) : M pyval :=
  flt ← next_fault;
  files ← gets (fun st => fs (world st));
  match flt, files !! name with
  | NoFault, Some (JsonDoc doc) => emit (EvRead name true) ;; ret doc
  | NoFault, Some (Garbage _) => emit (EvRead name true) ;; raise JSONDecodeError
  | _, _ => emit (EvRead name false) ;; raise OSError
  end.

(** [shutil.copy2(src, dst)] *)
Definition copy2 (src dst : string) : M unit :=
  flt ← next_fault;
  files ← gets (fun st => fs (world st));
  match flt, files !! src with
  | NoFault, Some f => put_file dst (Some f) ;; emit (EvCopy src dst true)
  | NoFault, None => emit (EvCopy src dst false) ;; raise OSError
  | Fault residue, _ =>
      put_file dst residue ;; emit (EvCopy src dst false) ;; raise OSError
  end.

(** [os.remove(name)] *)
Definition remove (name : string) : M unit :=
  flt ← next_fault;
  files ← gets (fun st => fs (world st));
  match flt, files !! name with
  | NoFault, Some _ =>
      modify (upd_world (fun w => set_fs (delete name (fs w)) w)) ;;
      emit (EvRemove name true)
  | _, _ => emit (EvRemove name false) ;; raise OSError
  end.

(** The file operations among the events. *)
Definition is_file_event (e : event) : bool :=
  match e with
  | EvRead _ _ | EvWrite _ _ | EvCopy _ _ _ | EvRemove _ _ => true
  | _ => false
  end.

Definition file_events (st : State) : list event :=
  List.filter is_file_event (trace (world st)).

(** *** Properties of computations *)

(** [m] never changes the part [f] of the state, however it ends. *)
Definition preserves {X A : Type} (f : State -> X) (m : M A) : Prop :=
  forall st, f (m st).2 = f st.

(** [m] never ends by raising [e]. *)
Definition never_raises {A : Type} (e : exn) (m : M A) : Prop :=
  forall st, (m st).1 <> Raise e.

(** Every value [m] returns satisfies [P]. *)
Definition returns {A : Type} (P : A -> Prop) (m : M A) : Prop :=
  forall st a st', m st = (Ret a, st') -> P a.

(** [m] takes every state to one that [R] relates to it, however [m]
    ends. *)
Definition relates {A : Type} (R : State -> State -> Prop) (m : M A) : Prop :=
  forall st, R st (m st).2.

End Sys.

Export Sys.

(* ===================================================================== *)
(** ** class ImprovedHistoryManager                                       *)
(* ===================================================================== *)

Module History.

(** [ImprovedHistoryManager(history_file=...)]: [max_history] defaults
    to 5. *)
Definition __init__ (history_file : option string) : ImprovedHistoryManager :=
  mk_hm (VList []) (VList []) 5 history_file.

(** The instance dictionary: exactly the attributes [__init__] assigns; no
    method of the class assigns any other. *)
Definition instance_dict (h : ImprovedHistoryManager) : gmap string pyval :=
  <["backward_history" := backward_history h]>
  (<["forward_history" := forward_history h]>
  (<["max_history" := VInt (max_history h)]>
  (<["history_file" := match history_file h with
                         | Some f => VStr f
                         | None => VNone
                         end]> ∅))).

Definition methods : list string :=
  ["__init__"; "record"; "add_page"; "go_back"; "go_forward";
   "_debug_history"; "_save_history"].

(** [self.<name>] inside a method of the manager. *)
Definition getattr (name : string) : M pyval :=
  h ← gets (fun st => history_manager (self st));
  match instance_dict h !! name with
  | Some v => ret v
  | None =>
      if bool_decide (name ∈ methods) then ret (VOpaque "bound method")
      else raise AttributeError
  end.

Definition get_backward : M pyval :=
  gets (fun st => backward_history (history_manager (self st))).
Definition get_forward : M pyval :=
  gets (fun st => forward_history (history_manager (self st))).
Definition put_backward (v : pyval) : M unit :=
  modify (upd_hm (set_backward_history v)).
Definition put_forward (v : pyval) : M unit :=
  modify (upd_hm (set_forward_history v)).

Definition _debug_history : M unit :=
  print "------ History Debug Info ------" [] ;;
  bh ← get_backward;
  print "Backward History: {}" [bh] ;;
  fh ← get_forward;
  print "Forward History: {}" [fh] ;;
  print "--------------------------------" [].

Definition _save_history : M unit :=
  hf ← gets (fun st => history_file (history_manager (self st)));
  match hf with
  | Some name =>
      if negb (String.eqb name "") then
        bh ← get_backward;
        fh ← get_forward;
        write_json name (VDict [("backward", bh); ("forward", fh)]) ;;
        print "History saved." []
      else ret tt
  | None => ret tt
  end.

Definition record (address : pyval) : M unit :=
  bh ← get_backward;
  bh' ← lift (list_append bh address);
  put_backward bh' ;;
  put_forward (VList []).

(** Successive recordings, one per recorded navigation. *)
Fixpoint record_all (addresses : list pyval) : M unit :=
  match addresses with
  | [] => ret tt
  | address :: rest => record address ;; record_all rest
  end.

Definition add_page (page : pyval) : M unit :=
  print "Attempting to add: {}" [page] ;;
  bh ← get_backward;
  differs ← (if negb (truthy bh) then ret true
             else top ← lift (index_last bh); ret (negb (py_eqb top page)));
  (if differs : bool then
     n ← lift (py_len bh);
     mx ← gets (fun st => max_history (history_manager (self st)));
     (if (n =? mx)%Z then
        '(bh', _) ← lift (list_pop0 bh);
        put_backward bh'
      else ret tt) ;;
     bh1 ← get_backward;
     bh2 ← lift (list_append bh1 page);
     put_backward bh2 ;;
     fh ← get_forward;
     fh' ← lift (list_clear fh);
     put_forward fh'
   else print "Page already exists in history. Not adding." []) ;;
  _debug_history.

(** Successive calls of [add_page]. *)
Fixpoint add_pages (pages : list pyval) : M unit :=
  match pages with
  | [] => ret tt
  | page :: rest => add_page page ;; add_pages rest
  end.

Definition go_back : M pyval :=
  bh ← get_backward;
  if negb (truthy bh) then ret VNone
  else
    '(bh', last_address) ← lift (list_pop bh);
    put_backward bh' ;;
    fh ← get_forward;
    fh' ← lift (list_append fh last_address);
    put_forward fh' ;;
    logger ← getattr "logging";
    bh1 ← get_backward;
    call_debug logger "History after going back: {}" [bh1] ;;
    bh2 ← get_backward;
    if truthy bh2 then lift (index_last bh2) else ret VNone.

Definition go_forward : M pyval :=
  fh ← get_forward;
  if negb (truthy fh) then ret VNone
  else
    '(fh', next_page) ← lift (list_pop fh);
    put_forward fh' ;;
    bh ← get_backward;
    bh' ← lift (list_append bh next_page);
    put_backward bh' ;;
    _save_history ;;
    _debug_history ;;
    ret next_page.

(** The manager of a state, and a state whose manager holds the given
    backward and forward lists. *)
Definition hm_of (st : State) : ImprovedHistoryManager :=
  history_manager (self st).

Definition with_history (bw fw : list pyval) (st : State) : State :=
  upd_hm (fun h => set_forward_history (VList fw)
                     (set_backward_history (VList bw) h)) st.

(** The backward list [add_page] leaves, given the limit, the list before
    and the page. *)
Definition pushed (mx : Z) (bw : list pyval) (page : pyval) : list pyval :=
  match last bw with
  | Some top =>
      if py_eqb top page then bw
      else (if (Z.of_nat (length bw) =? mx)%Z then tail bw else bw) ++ [page]
  | None => [page]
  end.

End History.

(* ===================================================================== *)
(** ** class GopherClient                                                 *)
(* ===================================================================== *)

Module Client.

Definition CONFIG_FILE : string := "config.json".
Definition BOOKMARKS_FILE : string := "bookmarks.json".
Definition SEARCH_ENGINES_FILE : string := "search_engines.json".
Definition HISTORY_FILE : string := "navigation_history.json".

(** A parsed menu line:
    [(entry_type, display_string, selector, server, port)]. *)
Definition entry : Type := (string * string * string * string * string)%type.

(** What [_get_user_choice] returns: the chosen 5-tuple, or the 3-tuple
    [(None, None, None)] after a "back".  Both are non-empty tuples, hence
    true in a condition; their lengths tell them apart. *)
Inductive selection : Type :=
| Chosen (e : entry)
| NoneTriple.

(** *** Operators on dynamic values used by the client *)

(** [int(v)] *)
Definition py_int (v : pyval) : res Z :=
  match v with
  | VInt z => Ret z
  | VBool b => Ret (Z.b2z b)
  | VStr s => match int_of_string s with
              | Some z => Ret z
              | None => Raise ValueError
              end
  | _ => Raise TypeError
  end.

(** [a < b] where [b] is an [int] *)
Definition py_lt_int (a : pyval) (b : Z) : res bool :=
  match a with
  | VInt z => Ret (z <? b)%Z
  | VBool x => Ret (Z.b2z x <? b)%Z
  | _ => Raise TypeError
  end.

(** [a + 1] *)
Definition py_succ (a : pyval) : res pyval :=
  match a with
  | VInt z => Ret (VInt (z + 1))
  | VBool x => Ret (VInt (Z.b2z x + 1))
  | _ => Raise TypeError
  end.

(** [seq[i]] with Python's negative indices *)
Definition index_list (xs : list pyval) (i : Z) : res pyval :=
  let n := Z.of_nat (length xs) in
  let j := (if i <? 0 then i + n else i)%Z in
  if ((0 <=? j) && (j <? n))%Z
  then match xs !! Z.to_nat j with
       | Some x => Ret x
       | None => Raise IndexError
       end
  else Raise IndexError.

Definition py_getitem (c i : pyval) : res pyval :=
  match c, i with
  | VList xs, VInt z | VTuple xs, VInt z => index_list xs z
  | VList xs, VBool b | VTuple xs, VBool b => index_list xs (Z.b2z b)
  | VStr s, VInt z =>
      index_list (map (fun ch => VStr (String ch EmptyString))
                    (list_ascii_of_string s)) z
  | VDict d, VStr k => match assoc k d with
                       | Some v => Ret v
                       | None => Raise KeyError
                       end
  | VDict _, _ => Raise KeyError
  | _, _ => Raise TypeError
  end.

(** The position a Python index stands for in a list of the given
    length. *)
Definition position (n : nat) (i : Z) : option nat :=
  let j := (if i <? 0 then i + Z.of_nat n else i)%Z in
  if ((0 <=? j) && (j <? Z.of_nat n))%Z then Some (Z.to_nat j) else None.

(** [l.pop(i)] *)
Definition list_pop_at (l : pyval) (i : Z) : res (pyval * pyval) :=
  match l with
  | VList xs =>
      match position (length xs) i with
      | Some j => match xs !! j with
                  | Some x => Ret (VList (delete j xs), x)
                  | None => Raise IndexError
                  end
      | None => Raise IndexError
      end
  | VDict _ => Raise KeyError
  | _ => Raise AttributeError
  end.

(** [d[key] = v] on a dictionary given by its items. *)
Fixpoint dict_set (key : string) (v : pyval) (items : list (string * pyval))
    : list (string * pyval) :=
  match items with
  | [] => [(key, v)]
  | (k, u) :: items' =>
      if String.eqb k key then (k, v) :: items'
      else (k, u) :: dict_set key v items'
  end.

(** [obj[key] = v] for a [str] key *)
Definition py_setitem (obj : pyval) (key : string) (v : pyval) : res pyval :=
  match obj with
  | VDict items => Ret (VDict (dict_set key v items))
  | _ => Raise TypeError
  end.

(** [d.get(key, default)] *)
Definition dict_get (d : pyval) (key : string) (default : pyval) : res pyval :=
  match d with
  | VDict items => match assoc key items with
                   | Some v => Ret v
                   | None => Ret default
                   end
  | _ => Raise AttributeError
  end.

(** [for x in v]: the items a value yields when iterated. *)
Definition py_iter (v : pyval) : res (list pyval) :=
  match v with
  | VList xs | VTuple xs => Ret xs
  | VStr s => Ret (map (fun ch => VStr (String ch EmptyString))
                     (list_ascii_of_string s))
  | VDict d => Ret (map (fun kv => VStr kv.1) d)
  | _ => Raise TypeError
  end.

(** [v + q] for a [str] q *)
Definition py_concat (v : pyval) (q : string) : res pyval :=
  match v with
  | VStr s => Ret (VStr (s +:+ q))
  | _ => Raise TypeError
  end.

Fixpoint for_each {A : Type} (xs : list A) (body : A -> M unit) : M unit :=
  match xs with
  | [] => ret tt
  | x :: xs' => body x ;; for_each xs' body
  end.

(** [[f(x) for x in xs]] *)
Fixpoint collect {A B : Type} (xs : list A) (f : A -> M B) : M (list B) :=
  match xs with
  | [] => ret []
  | x :: xs' => y ← f x; ys ← collect xs' f; ret (y :: ys)
  end.

(** [selector + "\r\n"] *)
Definition request_line (selector : pyval) : res string :=
  match selector with
  | VStr s => Ret (s +:+ String CR (String LF EmptyString))
  | _ => Raise TypeError
  end.

(** [s.startswith(p)] and the slice [s[len(p):]] *)
Fixpoint strip_prefix (p s : string) : option string :=
  match p, s with
  | EmptyString, _ => Some s
  | String a p', String b s' =>
      if Ascii.eqb a b then strip_prefix p' s' else None
  | String _ _, EmptyString => None
  end.

(** [s.split(sep, 1)]: the part before the first separator and, if there
    is one, the part after it. *)
Fixpoint split1 (sep : ascii) (s : string) : string * option string :=
  match s with
  | EmptyString => (EmptyString, None)
  | String c s' =>
      if Ascii.eqb c sep then (EmptyString, Some s')
      else let '(h, t) := split1 sep s' in (String c h, t)
  end.

(** *** The menu heuristic and the menu parser *)

(** [sum(1 for line in lines if line.count('\t') >= 3)] *)
Definition menu_line_count (lines : list string) : nat :=
  length (filter (fun line => 3 <= count TAB line) lines).

(** The test [menu_line_count > len(lines) * 0.20] of
    [_display_gopher_menu]. *)
Definition classify (data : string) : bool :=
  let lines := split LF data in
  Float64.int_gt (Z.of_nat (menu_line_count lines))
    (Float64.mul (Float64.of_int (Z.of_nat (length lines)))
       Float64.lit_0_20).

(** The specification's reading of the heuristic, to compare with
    [classify].  A text is its lines joined by line feeds; a menu line is
    a line with at least three tab characters; the answer is "menu"
    exactly when the menu lines are strictly more than 20% of the lines,
    that is when five times their number exceeds the number of lines. *)
Fixpoint join_lines (lines : list string) : string :=
  match lines with
  | [] => EmptyString
  | line :: rest =>
      match rest with
      | [] => line
      | _ => line +:+ String LF (join_lines rest)
      end
  end.

Definition tab_count (line : string) : nat :=
  length (List.filter (Ascii.eqb TAB) (list_ascii_of_string line)).

Definition dense_lines (lines : list string) : nat :=
  length (List.filter (fun line => 3 <=? tab_count line) lines).

Definition exceeds_fifth (lines : list string) : bool :=
  length lines <? 5 * dense_lines lines.

Definition one_line (line : string) : Prop :=
  ~ In LF (list_ascii_of_string line).

Definition classifies_by_density : Prop :=
  forall lines : list string,
    lines <> [] -> Forall one_line lines ->
    classify (join_lines lines) = exceeds_fifth lines.

(** The loop of [_parse_gopher_menu]; [parts[0][0]] raises [IndexError] on
    an empty first field. *)
Fixpoint parse_lines (lines : list string) (entries : list entry)
    : res (list entry) :=
  match lines with
  | [] => Ret entries
  | line :: rest =>
      let parts := split TAB line in
      if (4 <=? length parts)%nat then
        match parts with
        | p0 :: p1 :: p2 :: p3 :: _ =>
            match p0 with
            | EmptyString => Raise IndexError
            | String entry_type display_string =>
                parse_lines rest
                  (entries ++ [(String entry_type EmptyString,
                                display_string, p1, p2, p3)])
            end
        | _ => parse_lines rest entries
        end
      else parse_lines rest entries
  end.

Definition _parse_gopher_menu (menu_data : string) : M (list entry) :=
  log DEBUG "Parsing gopher menu: {}..." [VStr (substring 0 100 menu_data)] ;;
  lift (parse_lines (split LF menu_data) []).

Definition _split_address (address : pyval)
    : res (string * string * string) :=
  match address with
  | VStr a =>
      let a := match strip_prefix "gopher://" a with
               | Some rest => rest
               | None => a
               end in
      let '(server_port, tail) := split1 "/" a in
      let selector := match tail with
                      | Some t => t
                      | None => EmptyString
                      end in
      if contains ":" server_port then
        match split1 ":" server_port with
        | (server, Some port) => Ret (server, port, selector)
        | (server, None) => Raise ValueError
        end
      else Ret (server_port, "70", selector)
  | _ => Raise AttributeError
  end.

(** *** Host names *)

(** The test of one label in [valid_hostname]: [true] when the label is
    refused.  The disjunction is evaluated from the left, so [label[-1]] and
    [label[0]] are only reached for a label that is not empty. *)
Definition refused_label (label : string) : res bool :=
  let n := String.length label in
  if negb ((1 <=? n) && (n <=? 63))%nat then Ret true
  else
    match last (list_ascii_of_string label) with
    | None => Raise IndexError
    | Some l =>
        if negb (isalnum_char l) then Ret true
        else
          match label with
          | EmptyString => Raise IndexError
          | String f _ =>
              Ret (negb (isalnum_char f) || Ascii.eqb f "-" || Ascii.eqb l "-")
          end
    end.

Fixpoint labels_valid (labels : list string) : res bool :=
  match labels with
  | [] => Ret true
  | label :: rest =>
      match refused_label label with
      | Ret true => Ret false
      | Ret false => labels_valid rest
      | Raise e => Raise e
      | OutOfFuel => OutOfFuel
      end
  end.

(** The static method [valid_hostname]. *)
Definition valid_hostname (hostname : string) : res bool :=
  let n := String.length hostname in
  if negb ((1 <? n) && (n <? 253))%nat then Ret false
  else labels_valid (split "." hostname).

(** *** Logging and the connection *)

Definition _debug_print (text : string) (args : list pyval) : M unit :=
  c ← gets self;
  if debug c then log DEBUG text args else ret tt.

Definition _error_handler (error_message : string) (args : list pyval)
    : M unit :=
  log ERROR ("General Error: " +:+ error_message) args.

(** [self.socket.getsockopt(socket.SOL_SOCKET, socket.SO_ERROR)] *)
Definition getsockopt_so_error : M Z :=
  c ← gets self;
  match socket c with
  | None => raise AttributeError
  | Some s => if sock_closed s then raise OSError
              else ret (so_error (sock_conn s))
  end.

Definition _is_connected : M bool :=
  try_except (e ← getsockopt_so_error; ret (e =? 0)%Z)
    [OSError; AttributeError] (fun _ => ret false).

(** [self.socket.close()] *)
Definition socket_close : M unit :=
  c ← gets self;
  match socket c with
  | None => raise AttributeError
  | Some s =>
      modify (upd_self (set_socket (Some (mk_socket true (sock_conn s)))))
  end.

(** What [getaddrinfo] raises for an address before it resolves anything.
    The host comes first: [None] passes, a [str] is encoded with the IDNA
    codec, whose [UnicodeError] is the platform's, and a host of any other
    type raises [TypeError].  Then the port: an [int] has to fit a C
    [long], a [str] and [None] pass, and any other type, [bool] included,
    raises [OSError]. *)
Definition port_error (pf : Platform) (p : pyval) : option exn :=
  match p with
  | VInt z =>
      if ((- long_max pf - 1 <=? z) && (z <=? long_max pf))%Z then None
      else Some OverflowError
  | VStr _ | VNone => None
  | _ => Some OSError
  end.

Definition address_error (pf : Platform) (h p : pyval) : option exn :=
  match h with
  | VNone => port_error pf p
  | VStr name =>
      if idna_rejects pf name then Some UnicodeError else port_error pf p
  | _ => Some TypeError
  end.

(** [socket.create_connection((host, port), timeout)]: [getaddrinfo]
    checks the address; for one that passes, the resolver and the peer
    decide. *)
Definition create_connection (h p : pyval) : M Socket :=
  pf ← gets (fun st => platform (world st));
  match address_error pf h p with
  | Some e => raise e
  | None =>
      peers ← gets (fun st => net (world st));
      modify (upd_world (set_net (tail peers))) ;;
      match peers with
      | Some c :: _ => emit (EvConnect h p true) ;; ret (mk_socket false c)
      | _ => emit (EvConnect h p false) ;; raise OSError
      end
  end.

Definition _establish_connection (server port_ : pyval) : M unit :=
  try_except
    (c ← gets self;
     (if bool_decide (is_Some (socket c)) then socket_close else ret tt) ;;
     c ← gets self;
     log DEBUG "Attempting to establish connection to {}:{}"
       [py_or server (host c); py_or port_ (port c)] ;;
     s ← create_connection (py_or server (host c)) (py_or port_ (port c));
     modify (upd_self (set_socket (Some s))) ;;
     log DEBUG "Connection established to {}:{}"
       [py_or server (host c); py_or port_ (port c)])
    [OSError]
    (fun e => _error_handler "Error establishing connection: {}"
                [VStr (exn_name e)]).

Definition connect (host_ port_ : pyval) : M unit :=
  (if truthy host_ then modify (upd_self (set_host host_)) else ret tt) ;;
  (if truthy port_ then modify (upd_self (set_port port_)) else ret tt) ;;
  _establish_connection VNone VNone.

Definition _ensure_connection : M unit :=
  ok ← _is_connected;
  if negb ok then
    log DEBUG "Connection lost. Reconnecting..." [] ;;
    c ← gets self;
    connect (host c) (port c)
  else ret tt.

(** [self.socket.sendall(data)] *)
Definition sendall (data : string) : M unit :=
  c ← gets self;
  match socket c with
  | None => raise AttributeError
  | Some s =>
      if sock_closed s then raise OSError
      else if send_ok (sock_conn s) then emit (EvSend data)
      else raise OSError
  end.

(** The receive loop: [recv] hands out the peer's chunks; an empty chunk
    or the end of the script is end-of-file, unless the stream fails. *)
Fixpoint recv_loop (cs : list string) (fails : bool) (response : string)
    : res string :=
  match cs with
  | [] => if fails then Raise OSError else Ret response
  | chunk :: cs' =>
      if String.eqb chunk "" then Ret response
      else recv_loop cs' fails (response +:+ chunk)
  end.

Definition recv_all : M string :=
  c ← gets self;
  match socket c with
  | None => raise AttributeError
  | Some s =>
      if sock_closed s then raise OSError
      else lift (recv_loop (chunks (sock_conn s)) (recv_fails (sock_conn s))
                   EmptyString)
  end.

(** *** Persistence *)

(** [_load_from_file(filename)]: no caller passes a second argument, so
    the value returned when the file is missing or unreadable is always the
    shared default list. *)
Definition _load_from_file (filename : string) : M listref :=
  present ← path_exists filename;
  if negb present then ret Shared
  else
    try_except (doc ← read_json filename; ret (Own doc))
      [OSError; JSONDecodeError; Exception]
      (fun e =>
         (if isinstance e OSError then
            log ERROR "Error opening or reading from {}: {}"
              [VStr filename; VStr (exn_name e)]
          else if isinstance e JSONDecodeError then
            log ERROR "Error decoding JSON from {}: {}"
              [VStr filename; VStr (exn_name e)]
          else
            log ERROR "Unexpected error reading from {}: {}"
              [VStr filename; VStr (exn_name e)]) ;;
         ret Shared).

(** The name [shutil] is local to [_save_to_file] and bound by the import
    in the backup branch only: [shutil_bound] tells whether that branch
    ran.  Python's [return]s are the branches that end in [ret false]. *)
Definition _save_to_file (filename : string) (data : pyval) : M unit :=
  log DEBUG "Saving data to {}" [VStr filename] ;;
  let backup_filename := filename +:+ ".bak" in
  shutil_bound ← path_exists filename;
  backed_up ←
    (if shutil_bound : bool then
       try_except (copy2 filename backup_filename ;; ret true)
         [Exception]
         (fun e => log ERROR "Error while creating a backup: {}"
                     [VStr (exn_name e)] ;; ret false)
     else ret true);
  if negb backed_up then ret tt
  else
    written ←
      try_except (write_json filename data ;; ret true)
        [OSError; JSONDecodeError]
        (fun e =>
           log ERROR "Error while saving data to {}: {}"
             [VStr filename; VStr (exn_name e)] ;;
           has_backup ← path_exists backup_filename;
           (if has_backup : bool then
              try_except
                (if shutil_bound : bool then copy2 backup_filename filename
                 else raise UnboundLocalError)
                [Exception]
                (fun e' => log ERROR "Error while restoring from backup: {}"
                             [VStr (exn_name e')])
            else ret tt) ;;
           ret false);
    if negb written then ret tt
    else
      has_backup ← path_exists backup_filename;
      if has_backup : bool then
        try_except (remove backup_filename) [Exception]
          (fun e => log ERROR "Error while removing backup: {}"
                      [VStr (exn_name e)])
      else ret tt.

(** The specification's reading of the restore step, to compare with
    [_save_to_file]: whenever the backup was made and the write fails, the
    file holds its previous content afterwards. *)
Definition restored_after_failed_write : Prop :=
  forall (st : State) (filename : string) (data : pyval) (old : file)
         (r : option file) (rest : list fault),
    fs (world st) !! filename = Some old ->
    fs_faults (world st) = NoFault :: Fault r :: rest ->
    fs (world (_save_to_file filename data st).2) !! filename = Some old.

Definition load_bookmarks : M listref := _load_from_file BOOKMARKS_FILE.

Definition load_search_engines : M listref :=
  _load_from_file SEARCH_ENGINES_FILE.

(** [self.bookmarks] and [self.search_engines] as values, and the update of
    the list [self.bookmarks] refers to. *)
Definition get_bookmarks : M pyval :=
  gets (fun st => deref (bookmarks (self st)) st).
Definition get_search_engines : M pyval :=
  gets (fun st => deref (search_engines (self st)) st).
Definition put_bookmarks (v : pyval) : M unit :=
  c ← gets self;
  match bookmarks c with
  | Shared => modify (set_default_value v)
  | Own _ => modify (upd_self (set_bookmarks (Own v)))
  end.

Definition save_config : M unit :=
  c ← gets self;
  let config :=
    VDict [("hostname", host c);
           ("port", port c);
           ("backward_history", backward_history (history_manager c));
           ("forward_history", forward_history (history_manager c))] in
  _save_to_file CONFIG_FILE config ;;
  print "Configuration saved to {}." [VStr CONFIG_FILE].

Definition load_config : M unit :=
  loaded ← _load_from_file CONFIG_FILE;
  config ← gets (deref loaded);
  c ← gets self;
  h ← lift (dict_get config "hostname" (host c));
  modify (upd_self (set_host h)) ;;
  c ← gets self;
  p ← lift (dict_get config "port" (port c));
  modify (upd_self (set_port p)) ;;
  bh ← History.get_backward;
  bh' ← lift (dict_get config "backward" bh);
  History.put_backward bh' ;;
  fh ← History.get_forward;
  fh' ← lift (dict_get config "forward" fh);
  History.put_forward fh'.

(** *** Construction and attribute access *)

(** [GopherClient(host, port, timeout, debug)] in a given world, with the
    shared default list as it is at that time; the two list attributes are
    placeholders until the loads assign them. *)
Definition __init__ (host_ port_ : pyval) (timeout_ : Z) (debug_ : bool)
    (w : World) (shared : pyval) : res unit * State :=
  let c0 := mk_client host_ port_ timeout_ debug_ None (Own VNone) (Own VNone)
              (History.__init__ None) false
              (if debug_ then DEBUG else WARNING) None ∅ in
  (b ← load_bookmarks;
   modify (upd_self (set_bookmarks b)) ;;
   e ← load_search_engines;
   modify (upd_self (fun c =>
     mk_client (host c) (port c) (timeout c) (debug c) (socket c)
       (bookmarks c) e (History.__init__ (Some HISTORY_FILE)) false
       (root_level c) (logger_level c) (other_attrs c))))
    (mk_state c0 w shared).

(** The defaults, [GopherClient()], as the first thing a process does. *)
Definition new (w : World) : res unit * State :=
  __init__ (VStr "1436.ninja") (VInt 70) 10 false w (VList []).

(** The instance dictionary: the attributes [__init__] assigns, then any
    attribute assigned afterwards under another name. *)
Definition instance_dict (st : State) : gmap string pyval :=
  let c := self st in
  <["logging" := the_logger]>
  (<["host" := host c]>
  (<["port" := port c]>
  (<["timeout" := VInt (timeout c)]>
  (<["debug" := VBool (debug c)]>
  (<["socket" := match socket c with
                   | Some _ => VOpaque "socket"
                   | None => VNone
                   end]>
  (<["bookmarks" := deref (bookmarks c) st]>
  (<["search_engines" := deref (search_engines c) st]>
  (<["history_manager" := VOpaque "ImprovedHistoryManager"]>
  (<["is_navigating_back" := VBool (is_navigating_back c)]>
  (other_attrs c)))))))))).

Definition methods : list string :=
  ["__init__"; "_debug_print"; "valid_hostname"; "connect_to_server";
   "list_search_engines"; "search_gopherspace"; "quit_client";
   "toggle_debug_mode"; "run"; "connect"; "navigate"; "_handle_user_choice";
   "go_forward"; "load_search_engines"; "search"; "save_bookmark";
   "delete_bookmark"; "modify_bookmark"; "list_bookmarks"; "visit_bookmark";
   "load_bookmarks"; "save_config"; "load_config"; "display_help";
   "navigate_to_bookmark"; "_split_address"; "_go_back"; "_error_handler";
   "_is_connected"; "_establish_connection"; "_ensure_connection";
   "_send_request"; "_parse_gopher_menu"; "_get_user_choice";
   "_display_gopher_menu"; "_print_gopher_menu"; "_load_from_file";
   "_save_to_file"].

(** The attributes of the client beyond those of [__init__]. *)
Definition attrs_of (st : State) : gmap string pyval := other_attrs (self st).

(** [self.<name>] inside a method of the client. *)
Definition getattr (name : string) : M pyval :=
  d ← gets instance_dict;
  match d !! name with
  | Some v => ret v
  | None =>
      if bool_decide (name ∈ methods) then ret (VOpaque "bound method")
      else raise AttributeError
  end.

(** [self.history_index = v]: the one attribute a method assigns that
    [__init__] does not. *)
Definition set_history_index (v : pyval) : M unit :=
  modify (upd_self (fun c =>
    set_other_attrs (<["history_index" := v]> (other_attrs c)) c)).

Definition toggle_debug_mode : M unit :=
  c ← gets self;
  modify (upd_self (set_debug (negb (debug c)))) ;;
  c ← gets self;
  (if debug c then modify (upd_self (set_logger_level (Some DEBUG)))
   else modify (upd_self (set_logger_level (Some WARNING)))) ;;
  print "Debug mode {}" [VStr (if debug c then "ON" else "OFF")].

(** *** Listings *)

Definition list_search_engines : M unit :=
  es ← get_search_engines;
  engines ← lift (py_iter es);
  for_each engines (fun engine =>
    name ← lift (py_getitem engine (VStr "name"));
    print "{}" [name]).

Definition list_bookmarks : M unit :=
  bs ← get_bookmarks;
  if negb (truthy bs) then print "No bookmarks saved." []
  else
    items ← lift (py_iter bs);
    (fix each (index : Z) (bs : list pyval) : M unit :=
       match bs with
       | [] => ret tt
       | bookmark :: bs' =>
           title ← lift (py_getitem bookmark (VStr "title"));
           selector ← lift (py_getitem bookmark (VStr "selector"));
           print "{}. {} ({})" [VInt index; title; selector] ;;
           each (index + 1)%Z bs'
       end) 0%Z items.

(** *** Bookmarks *)

Definition save_bookmark (title selector : pyval) : M unit :=
  bs ← get_bookmarks;
  items ← lift (py_iter bs);
  existing ←
    (fix each (bs : list pyval) : M (list pyval) :=
       match bs with
       | [] => ret []
       | bookmark :: bs' =>
           sel ← lift (py_getitem bookmark (VStr "selector"));
           rest ← each bs';
           ret (if py_eqb sel selector then bookmark :: rest else rest)
       end) items;
  if negb (length existing =? 0)%nat then
    print "'{}' is already bookmarked." [title]
  else
    bs ← get_bookmarks;
    bs' ← lift (list_append bs
                  (VDict [("title", title); ("selector", selector)]));
    put_bookmarks bs' ;;
    bs ← get_bookmarks;
    _save_to_file BOOKMARKS_FILE bs ;;
    print "Saved '{}' as a bookmark." [title].

Definition delete_bookmark (index : Z) : M unit :=
  try_except
    (bs ← get_bookmarks;
     '(bs', deleted_bookmark) ← lift (list_pop_at bs index);
     put_bookmarks bs' ;;
     bs ← get_bookmarks;
     _save_to_file BOOKMARKS_FILE bs ;;
     title ← lift (py_getitem deleted_bookmark (VStr "title"));
     print "Deleted bookmark '{}'." [title])
    [IndexError]
    (fun _ => print "Invalid bookmark index." []).

(** [bookmark[key] = v] for the bookmark at [index]: the dictionary is an
    element of the list, so the list sees the change. *)
Definition set_bookmark_key (index : Z) (key : string) (v : pyval) : M unit :=
  bs ← get_bookmarks;
  bookmark ← lift (py_getitem bs (VInt index));
  bookmark' ← lift (py_setitem bookmark key v);
  match bs with
  | VList xs =>
      match position (length xs) index with
      | Some j => put_bookmarks (VList (<[j := bookmark']> xs))
      | None => raise IndexError
      end
  | _ => raise TypeError
  end.

Definition modify_bookmark (index : Z) (new_title new_selector : pyval)
    : M unit :=
  try_except
    (bs ← get_bookmarks;
     _ ← lift (py_getitem bs (VInt index));
     (if truthy new_title then set_bookmark_key index "title" new_title
      else ret tt) ;;
     (if truthy new_selector
      then set_bookmark_key index "selector" new_selector
      else ret tt) ;;
     bs ← get_bookmarks;
     _save_to_file BOOKMARKS_FILE bs ;;
     bs ← get_bookmarks;
     bookmark ← lift (py_getitem bs (VInt index));
     title ← lift (py_getitem bookmark (VStr "title"));
     selector ← lift (py_getitem bookmark (VStr "selector"));
     print "Modified bookmark to '{}' - '{}'." [title; selector])
    [IndexError]
    (fun _ => print "Invalid bookmark index." []).

Definition help_text : list string :=
  [String LF "Gopher Client Help:";
   "---------------------";
   "1. Connect to a Gopher server: Connect to a specified Gopher server using the provided hostname.";
   "2. Search Gopherspace: Search the Gopherspace using a chosen search engine and query.";
   "3. List bookmarks: Display all saved bookmarks with their titles and selectors.";
   "4. Navigate to a bookmarked server: Navigate to a bookmarked Gopher server using its selector.";
   "5. Save configuration: Save the current configuration (connected server, port, backward and forward history) to a file.";
   "6. Load configuration: Load the saved configuration from a file.";
   "7. Quit: Exit the Gopher client application.";
   String LF "Navigation Help:";
   "---------------------";
   "While viewing a Gopher menu:";
   "- Enter the number corresponding to a menu item to select it.";
   "- Enter 'b' to go back to the previous menu or content.";
   "- Enter 'q' to quit the application.";
   String LF "Note: Always ensure you're connected to a server before attempting to navigate or search."].

Definition display_help : M unit :=
  for_each help_text (fun line => print line []).

Section WithLibraries.

(** [bytes.decode('utf-8', errors='replace')], and [urlparse] on a [str]
    giving [(path, hostname, port)]: library code, left abstract. *)
Variable decode : string -> string.
Variable urlparse_str : string -> res (pyval * pyval * pyval).

(** [urlparse(v)]: an argument that is not a [str] is sent [.decode]. *)
Definition urlparse (v : pyval) : res (pyval * pyval * pyval) :=
  match v with
  | VStr s => urlparse_str s
  | _ => Raise AttributeError
  end.

(** Returns [Some text], or [None] for Python's [None]. *)
Definition _send_request (selector server port_ : pyval)
    : M (option string) :=
  _debug_print "Sending request with selector: {}" [selector] ;;
  try_except
    (c ← gets self;
     let server := if negb (truthy server) then host c else server in
     let port_ := if negb (truthy port_) then port c else port_ in
     _establish_connection server port_ ;;
     line ← lift (request_line selector);
     sendall line ;;
     response ← recv_all;
     socket_close ;;
     let decoded_response := decode response in
     log DEBUG "Received response: {}..."
       [VStr (substring 0 100 decoded_response)] ;;
     log DEBUG "_send_request took ... seconds to execute" [] ;;
     ret (Some decoded_response))
    [OSError; Exception]
    (fun e => _error_handler "Error: {}" [VStr (exn_name e)] ;; ret None).

Definition quit_client : M unit :=
  c ← gets self;
  (if bool_decide (is_Some (socket c)) then socket_close else ret tt) ;;
  raise (SystemExit 0).

Definition _print_gopher_menu (entries : list entry) : M unit :=
  (fix each (index : nat) (es : list entry) : M unit :=
     match es with
     | [] => ret tt
     | (entry_type, display_string, _, _, _) :: es' =>
         let prefix := if String.eqb entry_type "1" then "[LINK]"
                       else if String.eqb entry_type "0" then "[TEXT]"
                       else "" in
         print (pretty index +:+ ". " +:+ prefix +:+ " " +:+ display_string)
           [] ;;
         each (S index) es'
     end) 0%nat entries ;;
  print "q. Quit" [] ;;
  print "b. Go back" [].

(** The signature of [navigate], for the methods that call back into it. *)
Definition navigate_t : Type := pyval -> bool -> pyval -> pyval -> M unit.

Definition at_beginning : string :=
  "You're at the beginning of your navigation history.".

Definition _go_back (navigate : navigate_t) : M unit :=
  print "Attempting to go back..." [] ;;
  bh ← History.get_backward;
  if negb (truthy bh) then print at_beginning []
  else
    prev_page ← History.go_back;
    if negb (truthy prev_page) then print at_beginning []
    else
      '(server, port_, selector) ← lift (_split_address prev_page);
      log DEBUG "Going back to: {}:{}/{}" [VStr server; VStr port_; VStr selector] ;;
      navigate (VStr selector) false (VStr server) (VStr port_).

Definition invalid_choice : string := "Invalid choice. Please try again.".

Definition back_prompt : string :=
  String LF "Press 'b' to go back or 'q' to quit:" +:+ String LF "> ".

Fixpoint _get_user_choice (navigate : navigate_t) (fuel : nat)
    (entries : list entry) : M selection :=
  match fuel with
  | O => out_of_fuel
  | S fuel' =>
      choice ← input "Select an option: ";
      log DEBUG "User selected choice: {}" [VStr choice] ;;
      in_range ← (if isdigit choice then
                    n ← lift (py_int (VStr choice));
                    ret ((0 <=? n)%Z && (n <? Z.of_nat (length entries))%Z)
                  else ret false);
      if in_range : bool then
        n ← lift (py_int (VStr choice));
        match entries !! Z.to_nat n with
        | Some e => ret (Chosen e)
        | None => raise IndexError
        end
      else if String.eqb choice "b" then
        _go_back navigate ;; ret NoneTriple
      else
        (if String.eqb choice "q" then quit_client else ret tt) ;;
        print invalid_choice [] ;;
        _get_user_choice navigate fuel' entries
  end.

Definition _display_gopher_menu (navigate : navigate_t) (fuel : nat)
    (data : string) : M (option string * option string * pyval) :=
  if classify data then
    entries ← _parse_gopher_menu data;
    _print_gopher_menu entries ;;
    selected_item ← _get_user_choice navigate fuel entries;
    match selected_item with
    | Chosen (_, _, selector, server, port_) =>
        if negb (String.eqb port_ "") then
          p ← lift (py_int (VStr (strip port_)));
          ret (Some selector, Some server, VInt p)
        else ret (Some selector, Some server, VStr port_)
    | NoneTriple => ret (None, None, VNone)
    end
  else
    print data [] ;;
    print (String LF "Press 'b' to go back or 'q' to quit:") [] ;;
    ret (None, None, VNone).

Fixpoint _handle_user_choice_loop (navigate : navigate_t) (fuel : nat)
    : M string :=
  match fuel with
  | O => out_of_fuel
  | S fuel' =>
      line ← input back_prompt;
      let choice := lower (strip line) in
      if String.eqb choice "b" then
        previous_page ← History.go_back;
        if truthy previous_page then
          '(path, hostname, port_) ← lift (urlparse previous_page);
          navigate path false hostname port_ ;;
          ret "BACK"
        else
          print at_beginning [] ;;
          _handle_user_choice_loop navigate fuel'
      else if String.eqb choice "q" then raise (SystemExit 0)
      else
        print invalid_choice [] ;;
        _handle_user_choice_loop navigate fuel'
  end.

Definition _handle_user_choice (navigate : navigate_t) (fuel : nat)
    (data : string) : M string :=
  log DEBUG "Handling user choice for non-menu data." [] ;;
  print data [] ;;
  _handle_user_choice_loop navigate fuel.

(** What [navigate] does with a non-empty response, up to the recording
    step: the answer tells whether control falls through to that step
    ([true]) or the method has returned ([false]). *)
Definition navigate_dispatch (navigate : navigate_t) (fuel : nat)
    (data : string) : M bool :=
  if contains TAB data then
    '(selected_selector, new_server, new_port) ←
      _display_gopher_menu navigate fuel data;
    match selected_selector with
    | Some sel =>
        c ← gets self;
        let navigate_server :=
          match new_server with
          | Some s => if truthy (VStr s) then VStr s else host c
          | None => host c
          end in
        navigate_port ←
          (if truthy new_port then
             p ← lift (py_int new_port); ret (VInt p)
           else ret (port c));
        navigate (VStr sel) false navigate_server navigate_port ;;
        ret false
    | None =>
        action ← _handle_user_choice navigate fuel data;
        ret (negb (String.eqb action "BACK"))
    end
  else
    action ← _handle_user_choice navigate fuel data;
    ret (negb (String.eqb action "BACK")).

(** The body of the [try] block of [navigate]. *)
Definition navigate_body (navigate : navigate_t) (fuel : nat)
    (selector : pyval) (record_history : bool) (server port_ : pyval)
    : M unit :=
  data ← _send_request selector server port_;
  match data with
  | None => ret tt
  | Some data =>
      if String.eqb data "" then ret tt
      else
        falls_through ← navigate_dispatch navigate fuel data;
        if (falls_through : bool) && record_history then
          History.record (VTuple [server; port_]) ;;
          bh ← History.get_backward;
          log DEBUG "History after navigation: {}" [bh]
        else ret tt
  end.

(** What [navigate] does before it enters the [try] block. *)
Definition navigate_prologue (selector : pyval) : M unit :=
  _ensure_connection ;;
  log DEBUG "Navigating with selector: {}" [selector] ;;
  bh ← History.get_backward;
  log DEBUG "Current history state: {}" [bh].

Fixpoint navigate (fuel : nat) (selector : pyval) (record_history : bool)
    (server port_ : pyval) : M unit :=
  match fuel with
  | O => out_of_fuel
  | S fuel' =>
      navigate_prologue selector ;;
      try_except
        (navigate_body (navigate fuel') fuel' selector record_history
           server port_)
        [Exception]
        (fun e => _error_handler "Error while navigating: {}"
                    [VStr (exn_name e)])
  end.


Definition go_forward (navigate : navigate_t) : M unit :=
  history_index ← getattr "history_index";
  history ← getattr "history";
  n ← lift (py_len history);
  before_end ← lift (py_lt_int history_index (n - 1));
  if before_end : bool then
    i ← getattr "history_index";
    i' ← lift (py_succ i);
    set_history_index i' ;;
    history ← getattr "history";
    i ← getattr "history_index";
    selector ← lift (py_getitem history i);
    navigate selector true VNone (VInt 70)
  else print "You're at the end of your navigation history." [].

Definition connect_to_server (navigate : navigate_t) : M unit :=
  line ← input "Enter Gopher server hostname: ";
  let host_ := strip line in
  if String.eqb host_ "" then ret tt
  else
    modify (upd_self (set_host (VStr host_))) ;;
    modify (upd_self (set_port (VInt 70))) ;;
    _establish_connection VNone VNone ;;
    c ← gets self;
    navigate (VStr "") true (host c) (port c).


Definition search (navigate : navigate_t) (query engine : string) : M unit :=
  es ← get_search_engines;
  engines ← lift (py_iter es);
  search_engine ←
    (fix next (es : list pyval) : M pyval :=
       match es with
       | [] => ret VNone
       | e :: es' =>
           name ← lift (py_getitem e (VStr "name"));
           if py_eqb name (VStr engine) then ret e else next es'
       end) engines;
  if negb (truthy search_engine) then
    print "Search engine {} not found." [VStr engine]
  else
    hostname ← lift (py_getitem search_engine (VStr "hostname"));
    port_ ← lift (dict_get search_engine "port" (VInt 70));
    prefix ← lift (py_getitem search_engine (VStr "selector"));
    selector ← lift (py_concat prefix query);
    modify (upd_self (set_host hostname)) ;;
    modify (upd_self (set_port port_)) ;;
    connect VNone VNone ;;
    data ← _send_request selector VNone VNone;
    match data with
    | Some text =>
        if negb (String.eqb text "") then navigate selector false VNone (VInt 70)
        else ret tt
    | None => ret tt
    end.

Definition search_gopherspace (navigate : navigate_t) : M unit :=
  line ← input "Choose a search engine (e.g., 'Veronica-2', 'Contrition - All Types'): ";
  let engine := strip line in
  es ← get_search_engines;
  engines ← lift (py_iter es);
  names ← collect engines (fun e => lift (py_getitem e (VStr "name")));
  if existsb (fun name => py_eqb (VStr engine) name) names then
    line ← input "Enter search query: ";
    search navigate (strip line) engine
  else print "Search engine {} not found." [VStr engine].

Definition navigate_to_bookmark (navigate : navigate_t) : M unit :=
  list_bookmarks ;;
  try_except
    (line ← input "Enter the number of the bookmark you want to navigate to: ";
     choice ← lift (py_int (VStr line));
     bs ← get_bookmarks;
     bookmark ← lift (py_getitem bs (VInt choice));
     selector ← lift (py_getitem bookmark (VStr "selector"));
     navigate selector true VNone (VInt 70))
    [ValueError; IndexError]
    (fun _ => print "Invalid choice. Please select a valid bookmark number." []).

Definition visit_bookmark (navigate : navigate_t) (index : Z) : M unit :=
  try_except
    (bs ← get_bookmarks;
     bookmark ← lift (py_getitem bs (VInt index));
     selector ← lift (py_getitem bookmark (VStr "selector"));
     navigate selector true VNone (VInt 70))
    [IndexError]
    (fun _ => print "Invalid bookmark index." []).

(** The options of the main loop, in the order of the dictionary. *)
Definition options : list (string * string) :=
  [("1", "Connect to a Gopher server");
   ("2", "Search Gopherspace");
   ("3", "List bookmarks");
   ("4", "Navigate to a bookmarked server");
   ("5", "Save configuration");
   ("6", "Load configuration");
   ("7", "Quit");
   ("8", "Help");
   ("9", "Toggle Debug Mode")].

Definition action (navigate : navigate_t) (choice : string) : option (M unit) :=
  if String.eqb choice "1" then Some (connect_to_server navigate)
  else if String.eqb choice "2" then Some (search_gopherspace navigate)
  else if String.eqb choice "3" then Some list_bookmarks
  else if String.eqb choice "4" then Some (navigate_to_bookmark navigate)
  else if String.eqb choice "5" then Some save_config
  else if String.eqb choice "6" then Some load_config
  else if String.eqb choice "7" then Some quit_client
  else if String.eqb choice "8" then Some display_help
  else if String.eqb choice "9" then Some toggle_debug_mode
  else None.

Fixpoint run (fuel : nat) : M unit :=
  match fuel with
  | O => out_of_fuel
  | S fuel' =>
      print (String LF "Options:") [] ;;
      for_each options (fun kv => print (kv.1 +:+ ". " +:+ kv.2) []) ;;
      line ← input "> ";
      match action (navigate fuel') (strip line) with
      | Some act => act
      | None => print invalid_choice []
      end ;;
      run fuel'
  end.

(** [main()], started in the directory [cwd] of a world. *)
Definition main (fuel : nat) (cwd : string) (w : World) : res unit * State :=
  let w := set_trace (trace w ++ [EvPrint "Current working directory: {}"
                                     [VStr cwd]]) w in
  match new w with
  | (Ret _, st) =>
      (log DEBUG "This is a debug log entry." [] ;; run fuel) st
  | r => r
  end.

(** *** The client as its callers see it *)

Inductive operation : Type :=
| Run
| Connect_to_server
| Search_gopherspace
| Search (query engine : string)
| List_search_engines
| List_bookmarks
| Load_bookmarks
| Load_search_engines
| Save_bookmark (title selector : pyval)
| Delete_bookmark (index : Z)
| Modify_bookmark (index : Z) (new_title new_selector : pyval)
| Visit_bookmark (index : Z)
| Navigate_to_bookmark
| Save_config
| Load_config
| Quit_client
| Display_help
| Toggle_debug_mode
| Connect (host_ port_ : pyval)
| Navigate (selector : pyval) (record_history : bool) (server port_ : pyval)
| Go_forward.

Definition perform (fuel : nat) (op : operation) : M unit :=
  match op with
  | Run => run fuel
  | Connect_to_server => connect_to_server (navigate fuel)
  | Search_gopherspace => search_gopherspace (navigate fuel)
  | Search query engine => search (navigate fuel) query engine
  | List_search_engines => list_search_engines
  | List_bookmarks => list_bookmarks
  | Load_bookmarks => load_bookmarks ;; ret tt
  | Load_search_engines => load_search_engines ;; ret tt
  | Save_bookmark title selector => save_bookmark title selector
  | Delete_bookmark index => delete_bookmark index
  | Modify_bookmark index new_title new_selector =>
      modify_bookmark index new_title new_selector
  | Visit_bookmark index => visit_bookmark (navigate fuel) index
  | Navigate_to_bookmark => navigate_to_bookmark (navigate fuel)
  | Save_config => save_config
  | Load_config => load_config
  | Quit_client => quit_client
  | Display_help => display_help
  | Toggle_debug_mode => toggle_debug_mode
  | Connect h p => connect h p
  | Navigate selector record_history server port_ =>
      navigate fuel selector record_history server port_
  | Go_forward => go_forward (navigate fuel)
  end.

(** The states a client can be in: it is constructed in some world, its
    operations are performed one after another, however each one ends, and
    the world may change in between. *)
Inductive reachable : State -> Prop :=
| reachable_init (h p : pyval) (t : Z) (d : bool) (w : World)
    (shared : pyval) :
    reachable (__init__ h p t d w shared).2
| reachable_perform (fuel : nat) (op : operation) (st : State) :
    reachable st -> reachable (perform fuel op st).2
| reachable_world (st : State) (w : World) :
    reachable st -> reachable (in_world w st).

End WithLibraries.

End Client.

(* ===================================================================== *)
(** ** Concrete worlds                                                    *)
(* ===================================================================== *)

Module Scenarios.

(** Responses in plain ASCII decode to themselves. *)
Definition decode_ascii (response : string) : string := response.

(** None of the runs below hands a [str] to [urlparse]. *)
Definition urlparse_unused (url : string) : res (pyval * pyval * pyval) :=
  Raise ValueError.

(** A peer that accepts the connection and answers with one chunk, and one
    that refuses it. *)
Definition answering (text : string) : option Conn :=
  Some (mk_conn 0 true [text] false).
Definition refusing : option Conn := None.

(** The IDNA codec on a name in ASCII: it refuses a name that has an empty
    or over-long label before the last one, or 64 characters or more in
    the last one.  The runs below use names in ASCII only. *)
Fixpoint ascii_name_rejected (label : nat) (name : string) : bool :=
  match name with
  | EmptyString => 63 <? label
  | String a rest =>
      if Ascii.eqb a "."
      then (label =? 0) || (63 <? label) || ascii_name_rejected 0 rest
      else ascii_name_rejected (S label) rest
  end.

(** A platform whose C [long] has 64 bits. *)
Definition lp64 : Platform :=
  mk_platform (ascii_name_rejected 0) (2 ^ 63 - 1).

(** A world with the given keyboard input and peers, no files and no
    failing file operation. *)
Definition quiet_world (keys : list string) (peers : list (option Conn))
    : World :=
  mk_world keys peers ∅ [] [] lp64.

(** [GopherClient()] in a world. *)
Definition client_in (w : World) : State := (Client.new w).2.

(** The address [(host, port)] that [navigate] records. *)
Definition address (h : string) (p : Z) : pyval := VTuple [VStr h; VInt p].

(** A menu of two directories, as a server sends it. *)
Definition two_dirs : string :=
  "1Dir A" +:+ String TAB ("/a" +:+ String TAB ("host" +:+ String TAB
    ("70" +:+ String CR (String LF
  ("1Dir B" +:+ String TAB ("/b" +:+ String TAB ("host" +:+ String TAB
    ("70" +:+ String CR (String LF EmptyString))))))))).

(** A line of four fields whose first field is empty. *)
Definition no_type_line : string :=
  String TAB ("/sel" +:+ String TAB ("host" +:+ String TAB "70")).

(** An old configuration file and the data of a new one. *)
Definition old_config : file :=
  JsonDoc (VDict [("hostname", VStr "old.example"); ("port", VInt 70)]).
Definition new_config : pyval :=
  VDict [("hostname", VStr "new.example"); ("port", VInt 7070)].
Definition config_world (faults : list fault) : World :=
  mk_world [] [] (<["config.json" := old_config]> ∅) faults [] lp64.

(** A client whose manager holds one address backward and one forward. *)
Definition saved_state : State :=
  History.with_history [address "h" 70] [address "g" 70]
    (client_in (quiet_world [] [])).

End Scenarios.

(* ===================================================================== *)
(** * Properties                                                          *)
(* ===================================================================== *)

(** Unfolding one monadic step. *)
Ltac munfold :=
  unfold mbind, mret, M_bind, M_ret, bind, ret, lift, gets, modify, raise in *.

(** ** The history manager *)

Module HistoryFacts.

Import History.

Lemma with_history_idem (bw fw bw' fw' : list pyval) (st : State) :
  with_history bw fw (with_history bw' fw' st) = with_history bw fw st.
Proof. reflexivity. Qed.

Lemma hm_of_with_history (bw fw : list pyval) (st : State) :
  hm_of (with_history bw fw st)
  = mk_hm (VList bw) (VList fw) (max_history (hm_of st))
      (history_file (hm_of st)).
Proof. reflexivity. Qed.

Lemma getattr_logging (st : State) :
  getattr "logging" st = (Raise AttributeError, st).
Proof. reflexivity. Qed.

Lemma go_back_empty (fw : list pyval) (st : State) :
  go_back (with_history [] fw st) = (Ret VNone, with_history [] fw st).
Proof. reflexivity. Qed.

Lemma go_back_pops_then_raises (bw fw : list pyval) (x : pyval) (st : State) :
  backward_history (hm_of st) = VList (bw ++ [x]) ->
  forward_history (hm_of st) = VList fw ->
  go_back st = (Raise AttributeError, with_history bw (fw ++ [x]) st).
Proof.
  intros Hb Hf. unfold hm_of in *.
  unfold go_back, get_backward, get_forward, put_backward, put_forward.
  munfold. cbn. rewrite Hb. cbn.
  rewrite length_app, last_snoc, removelast_last, Nat.add_1_r. cbn.
  rewrite Hf. reflexivity.
Qed.

(** C3.  With a non-empty backward list, [go_back] pops the top, appends it
    to the forward list and then raises [AttributeError]: the manager has no
    attribute [logging].  It never gets to return the new top. *)
Theorem go_back_nonempty_raises (bw fw : list pyval) (x : pyval) (st : State) :
  go_back (with_history (bw ++ [x]) fw st)
  = (Raise AttributeError, with_history bw (fw ++ [x]) st).
Proof.
  rewrite (go_back_pops_then_raises bw fw x) by reflexivity. reflexivity.
Qed.

Lemma record_appends (bw fw : list pyval) (a : pyval) (st : State) :
  record a (with_history bw fw st) = (Ret tt, with_history (bw ++ [a]) [] st).
Proof. reflexivity. Qed.

Lemma record_all_appends (addrs bw fw : list pyval) (a : pyval) (st : State) :
  record_all (a :: addrs) (with_history bw fw st)
  = (Ret tt, with_history (bw ++ a :: addrs) [] st).
Proof.
  revert bw fw a. induction addrs as [|b addrs IH]; intros bw fw a.
  - reflexivity.
  - change (record_all (a :: b :: addrs))
      with (bind (record a) (fun _ => record_all (b :: addrs))).
    unfold bind. rewrite record_appends, IH, <- app_assoc. reflexivity.
Qed.

(** C4.  [record], the push that [navigate] uses, never evicts: recording
    any addresses on an empty history leaves all of them in the backward
    list, whatever [max_history] is. *)
Theorem record_all_unbounded (addrs : list pyval) (st : State) :
  record_all addrs (with_history [] [] st)
  = (Ret tt, with_history addrs [] st).
Proof.
  destruct addrs as [|a addrs]; [reflexivity|].
  apply record_all_appends.
Qed.

(** C5.  [record] appends an address that equals the current top once
    more. *)
Theorem record_duplicates_top (bw fw : list pyval) (a : pyval) (st : State) :
  record a (with_history (bw ++ [a]) fw st)
  = (Ret tt, with_history (bw ++ [a; a]) [] st).
Proof. rewrite record_appends, <- app_assoc. reflexivity. Qed.

(** [add_page], the sibling of [record] that nothing calls, does what the
    specification asks of a push: it skips a page equal to the top and
    drops the oldest entry when the list is full. *)
Lemma add_page_pushes (bw fw : list pyval) (page : pyval) (st : State) :
  (0 < max_history (hm_of st))%Z ->
  (add_page page (with_history bw fw st)).1 = Ret tt
  /\ backward_history (hm_of (add_page page (with_history bw fw st)).2)
     = VList (pushed (max_history (hm_of st)) bw page).
Proof.
  intros Hmx. unfold hm_of in *.
  destruct st as [c w]. destruct c as [? ? ? ? ? ? ? [b f mx hf] ? ? ? ?].
  cbn in Hmx.
  unfold add_page, _debug_history, print, emit, get_backward, get_forward,
    put_backward, put_forward, pushed.
  munfold. cbn.
  destruct bw as [|x bw' _] using rev_ind.
  - cbn. destruct (Z.of_nat 0 =? mx)%Z eqn:E;
      [apply Z.eqb_eq in E; cbn in E; lia|].
    cbn. split; reflexivity.
  - rewrite length_app, last_snoc, Nat.add_1_r. cbn.
    destruct (py_eqb x page); cbn; [split; reflexivity|].
    destruct (Z.of_nat (S (length bw')) =? mx)%Z; cbn.
    + destruct bw' as [|y bw'']; cbn; split; reflexivity.
    + split; reflexivity.
Qed.

Lemma pushed_bounded (mx : Z) (bw : list pyval) (page : pyval) :
  (0 < mx)%Z -> (Z.of_nat (length bw) <= mx)%Z ->
  (Z.of_nat (length (pushed mx bw page)) <= mx)%Z.
Proof.
  intros Hmx Hlen. unfold pushed.
  destruct (last bw) as [top|]; [|cbn; lia].
  destruct (py_eqb top page); [assumption|].
  rewrite length_app. cbn.
  destruct (Z.eqb_spec (Z.of_nat (length bw)) mx).
  - destruct bw; cbn in *; lia.
  - lia.
Qed.

Lemma pushed_same_top (mx : Z) (bw : list pyval) (top page : pyval) :
  py_eqb top page = true -> pushed mx (bw ++ [top]) page = bw ++ [top].
Proof. intros H. unfold pushed. rewrite last_snoc, H. reflexivity. Qed.

(** Six recorded navigations on a new client: six entries, one more than
    [max_history]. *)
Example six_recordings :
  let st := (record_all (map (fun n => Scenarios.address "h" n)
                           [1; 2; 3; 4; 5; 6]%Z)
               (Scenarios.client_in (Scenarios.quiet_world [] []))).2 in
  max_history (hm_of st) = 5%Z
  /\ py_len (backward_history (hm_of st)) = Ret 6%Z.
Proof. vm_compute. split; reflexivity. Qed.

(** The same six pages through [add_page]: the oldest one is gone. *)
Example six_pages :
  let st := (add_pages (map (fun n => Scenarios.address "h" n)
                          [1; 2; 3; 4; 5; 6]%Z)
               (Scenarios.client_in (Scenarios.quiet_world [] []))).2 in
  backward_history (hm_of st)
  = VList (map (fun n => Scenarios.address "h" n) [2; 3; 4; 5; 6]%Z).
Proof. vm_compute. reflexivity. Qed.


End HistoryFacts.

(** ** The binary64 threshold *)

Module Float64Facts.

Import Float64.
Local Open Scope Z_scope.

Lemma round53_small (p q : Z) : p < 2 ^ 53 -> round53 p q = mk_float p q.
Proof.
  intros H. unfold round53.
  destruct (Z.ltb_spec p (2 ^ 53)); [reflexivity | lia].
Qed.

(** The literal is the double nearest to 1/5: it is off by 2/5 of the last
    place. *)
Lemma lit_0_20_nearest : 5 * mant lit_0_20 = 2 ^ 55 + 2 /\ expo lit_0_20 = -55.
Proof. split; reflexivity. Qed.

(** For a length below [2^52], comparing a count with the rounded product
    [n * 0.20] is comparing it with the exact fifth of [n]. *)
Lemma int_gt_fifth (n c : Z) :
  0 <= n < 2 ^ 52 -> 0 <= c ->
  int_gt c (mul (of_int n) lit_0_20) = (n <? 5 * c).
Proof.
  intros Hn Hc.
  unfold of_int. rewrite round53_small by lia.
  unfold mul. cbn [mant expo lit_0_20].
  set (p := n * 7205759403792794).
  replace (0 + -55) with (-55) by reflexivity.
  assert (Hp5 : 5 * p = n * (2 ^ 55 + 2)) by (unfold p; lia).
  unfold round53.
  destruct (Z.ltb_spec p (2 ^ 53)) as [Hsmall | Hlarge].
  - unfold int_gt. cbn [mant expo].
    replace (0 <=? -55) with false by reflexivity.
    replace (2 ^ (- -55)) with (2 ^ 55) by reflexivity.
    destruct (Z.ltb_spec p (c * 2 ^ 55)); destruct (Z.ltb_spec n (5 * c));
      try reflexivity; exfalso; lia.
  - assert (Hppos : 0 < p) by lia.
    destruct (Z.log2_spec p Hppos) as [Hlo Hhi].
    assert (HL53 : 53 <= Z.log2 p) by (apply Z.log2_le_pow2; lia).
    assert (HL105 : Z.log2 p < 105).
    { apply Z.log2_lt_pow2; [lia|]. unfold p.
      assert (2 ^ 105 = 2 ^ 52 * 2 ^ 53) by reflexivity. nia. }
    set (s := Z.log2 p - 52) in *.
    assert (Hs : 1 <= s <= 52) by (unfold s; lia).
    set (P := 2 ^ s). set (H := 2 ^ (s - 1)).
    assert (HP : P = 2 * H).
    { unfold P, H. replace s with (1 + (s - 1)) at 1 by lia.
      rewrite Z.pow_add_r by lia. reflexivity. }
    assert (HHpos : 0 < H) by (unfold H; apply Z.pow_pos_nonneg; lia).
    set (Q := 2 ^ (55 - s)).
    assert (HPQ : P * Q = 2 ^ 55).
    { unfold P, Q. rewrite <- Z.pow_add_r by lia. f_equal. lia. }
    assert (HQpos : 0 < Q) by (unfold Q; apply Z.pow_pos_nonneg; lia).
    assert (HPlo : P * 2 ^ 52 <= p).
    { unfold P. rewrite <- Z.pow_add_r by lia.
      replace (s + 52) with (Z.log2 p) by (unfold s; lia). exact Hlo. }
    assert (Hdm : p = P * (p / P) + p mod P) by (apply Z.div_mod; lia).
    assert (Hr : 0 <= p mod P < P) by (apply Z.mod_pos_bound; lia).
    set (m := p / P) in *. set (r := p mod P) in *.
    unfold int_gt. cbn [mant expo].
    replace (0 <=? -55 + s) with false
      by (symmetry; apply Z.leb_gt; lia).
    replace (- (-55 + s)) with (55 - s) by lia. fold Q.
    assert (H5P : 5 * H <= 2 ^ 54).
    { assert (5 * (P * 2 ^ 52) <= n * (2 ^ 55 + 2)) by lia.
      assert (n * (2 ^ 55 + 2) < 2 ^ 52 * (2 ^ 55 + 2)) by nia.
      assert (5 * P < 2 ^ 55 + 2) by nia. lia. }
    assert (HcQP : c * Q * P = c * 2 ^ 55) by (rewrite <- HPQ; ring).
    assert (Hdown : 5 * c <= n -> c * Q <= m).
    { intros Hle.
      assert (c * 2 ^ 55 <= p) by nia.
      assert (c * Q * P < P * (m + 1)) by lia.
      nia. }
    destruct ((H <? r) || (r =? H) && Z.odd m) eqn:Hup.
    + assert (HrH : H <= r).
      { apply orb_true_iff in Hup as [Hlt | Heq].
        - apply Z.ltb_lt in Hlt. lia.
        - apply andb_true_iff in Heq as [Heq _]. apply Z.eqb_eq in Heq. lia. }
      destruct (Z.ltb_spec (m + 1) (c * Q)); destruct (Z.ltb_spec n (5 * c));
        try reflexivity; exfalso.
      * specialize (Hdown ltac:(lia)). lia.
      * assert (c * Q * P <= (m + 1) * P) by nia.
        assert ((m + 1) * P <= p + H) by nia.
        assert ((n + 1) * 2 ^ 55 <= 5 * c * 2 ^ 55) by nia.
        lia.
    + destruct (Z.ltb_spec m (c * Q)); destruct (Z.ltb_spec n (5 * c));
        try reflexivity; exfalso.
      * specialize (Hdown ltac:(lia)). lia.
      * assert (c * Q * P <= m * P) by nia.
        assert ((n + 1) * 2 ^ 55 <= 5 * c * 2 ^ 55) by nia.
        nia.
Qed.

End Float64Facts.

(** ** Frame properties: what an operation leaves alone *)

Section Frame.

Context {X : Type} (f : State -> X).

Lemma preserves_ret {A : Type} (a : A) : preserves f (ret a).
Proof. intros st. reflexivity. Qed.

Lemma preserves_mret {A : Type} (a : A) : preserves f (mret a : M A).
Proof. intros st. reflexivity. Qed.

Lemma preserves_raise {A : Type} (e : exn) : preserves f (raise e : M A).
Proof. intros st. reflexivity. Qed.

Lemma preserves_out_of_fuel {A : Type} : preserves f (out_of_fuel : M A).
Proof. intros st. reflexivity. Qed.

Lemma preserves_lift {A : Type} (r : res A) : preserves f (lift r).
Proof. intros st. reflexivity. Qed.

Lemma preserves_gets {A : Type} (g : State -> A) : preserves f (gets g).
Proof. intros st. reflexivity. Qed.

Lemma preserves_modify (g : State -> State) :
  (forall st, f (g st) = f st) -> preserves f (modify g).
Proof. intros H st. apply H. Qed.

Lemma preserves_bind {A B : Type} (m : M A) (k : A -> M B) :
  preserves f m -> (forall a, preserves f (k a)) -> preserves f (m ≫= k).
Proof.
  intros Hm Hk st. unfold mbind, M_bind, bind.
  specialize (Hm st). destruct (m st) as [[a | e |] st']; cbn in *;
    try assumption.
  rewrite Hk. assumption.
Qed.

Lemma preserves_try_except {A : Type} (body : M A) (classes : list exn)
    (handler : exn -> M A) :
  preserves f body -> (forall e, preserves f (handler e)) ->
  preserves f (try_except body classes handler).
Proof.
  intros Hb Hh st. unfold try_except.
  specialize (Hb st). destruct (body st) as [[a | e |] st']; cbn in *;
    try assumption.
  destruct (catches classes e); cbn; [rewrite Hh|]; assumption.
Qed.

Lemma preserves_inv {A : Type} (m : M A) (st : State) (v : X) :
  preserves f m -> f st = v -> f (m st).2 = v.
Proof. intros Hm <-. apply Hm. Qed.

End Frame.

(** Decomposing a frame goal along the structure of the code. *)
Ltac frame_step :=
  match goal with
  | |- preserves _ (mbind _ _) => apply preserves_bind; [| intros ?]
  | |- preserves _ (_ ≫= _) => apply preserves_bind; [| intros ?]
  | |- preserves _ (try_except _ _ _) =>
      apply preserves_try_except; [| intros ?]
  | |- preserves _ (ret _) => apply preserves_ret
  | |- preserves _ (mret _) => apply preserves_mret
  | |- preserves _ (raise _) => apply preserves_raise
  | |- preserves _ out_of_fuel => apply preserves_out_of_fuel
  | |- preserves _ (lift _) => apply preserves_lift
  | |- preserves _ (gets _) => apply preserves_gets
  | |- preserves _ (modify _) =>
      apply preserves_modify; intros ?; reflexivity
  | |- preserves _ (if ?b then _ else _) => destruct b
  | |- preserves _ (match ?x with _ => _ end) => destruct x
  | |- preserves _ (let '(_, _) := ?x in _) => destruct x
  end.

Ltac frame := repeat frame_step; eauto with frame.

Create HintDb frame discriminated.

Module ClientFrames.

Import History Client.

(** *** The history manager is left alone by the transport *)

Lemma emit_hm e : preserves hm_of (emit e).
Proof. unfold emit. frame. Qed.
Lemma print_hm t a : preserves hm_of (print t a).
Proof. unfold print. apply emit_hm. Qed.
#[export] Hint Resolve emit_hm print_hm : frame.

Lemma log_hm l t a : preserves hm_of (log l t a).
Proof. unfold log. frame. Qed.
#[export] Hint Resolve log_hm : frame.

Lemma input_hm p : preserves hm_of (input p).
Proof. unfold input. frame. Qed.
#[export] Hint Resolve input_hm : frame.

Lemma error_handler_hm t a : preserves hm_of (_error_handler t a).
Proof. unfold _error_handler. frame. Qed.
Lemma debug_print_hm t a : preserves hm_of (_debug_print t a).
Proof. unfold _debug_print. frame. Qed.
#[export] Hint Resolve error_handler_hm debug_print_hm : frame.

Lemma is_connected_hm : preserves hm_of _is_connected.
Proof. unfold _is_connected, getsockopt_so_error. frame. Qed.
Lemma socket_close_hm : preserves hm_of socket_close.
Proof. unfold socket_close. frame. Qed.
Lemma create_connection_hm h p : preserves hm_of (create_connection h p).
Proof. unfold create_connection. frame. Qed.
#[export] Hint Resolve is_connected_hm socket_close_hm create_connection_hm : frame.

Lemma establish_connection_hm s p : preserves hm_of (_establish_connection s p).
Proof. unfold _establish_connection. frame. Qed.
#[export] Hint Resolve establish_connection_hm : frame.

Lemma connect_hm h p : preserves hm_of (connect h p).
Proof. unfold connect. frame. Qed.
#[export] Hint Resolve connect_hm : frame.

Lemma ensure_connection_hm : preserves hm_of _ensure_connection.
Proof. unfold _ensure_connection. frame. Qed.
Lemma sendall_hm d : preserves hm_of (sendall d).
Proof. unfold sendall. frame. Qed.
Lemma recv_all_hm : preserves hm_of recv_all.
Proof. unfold recv_all. frame. Qed.
#[export] Hint Resolve ensure_connection_hm sendall_hm recv_all_hm : frame.

Lemma send_request_hm decode sel s p :
  preserves hm_of (_send_request decode sel s p).
Proof. unfold _send_request. frame. Qed.
#[export] Hint Resolve send_request_hm : frame.

End ClientFrames.

(** ** Which exceptions an operation can raise, and what it returns *)

Section Outcomes.

Lemma never_raises_ret {A : Type} e (a : A) : never_raises e (ret a).
Proof. intros st. discriminate. Qed.

Lemma never_raises_mret {A : Type} e (a : A) : never_raises e (mret a : M A).
Proof. intros st. discriminate. Qed.

Lemma never_raises_gets {A : Type} e (g : State -> A) : never_raises e (gets g).
Proof. intros st. discriminate. Qed.

Lemma never_raises_modify e (g : State -> State) : never_raises e (modify g).
Proof. intros st. discriminate. Qed.

Lemma never_raises_out_of_fuel {A : Type} e : never_raises e (out_of_fuel : M A).
Proof. intros st. discriminate. Qed.

Lemma never_raises_raise {A : Type} e e' :
  e' <> e -> never_raises e (raise e' : M A).
Proof. intros H st. cbn. congruence. Qed.

Lemma never_raises_bind {A B : Type} e (m : M A) (k : A -> M B) :
  never_raises e m -> (forall a, never_raises e (k a)) ->
  never_raises e (m ≫= k).
Proof.
  intros Hm Hk st. unfold mbind, M_bind, bind.
  specialize (Hm st). destruct (m st) as [[a | e' |] st'];
    [apply Hk | cbn in *; congruence | discriminate].
Qed.

(** A handler that catches [e] and does not raise it again. *)
Lemma never_raises_try_except {A : Type} e (body : M A) classes handler :
  catches classes e = true -> (forall e', never_raises e (handler e')) ->
  never_raises e (try_except body classes handler).
Proof.
  intros Hc Hh st. unfold try_except.
  destruct (body st) as [[a | e' |] st']; cbn; try discriminate.
  destruct (catches classes e') eqn:Hc'; [apply Hh|].
  cbn. congruence.
Qed.

Lemma bind_ext {A B : Type} (m : M A) (k1 k2 : A -> M B) (st : State) :
  (forall a s, k1 a s = k2 a s) -> (m ≫= k1) st = (m ≫= k2) st.
Proof.
  intros H. unfold mbind, M_bind, bind.
  destruct (m st) as [[a | e |] s1]; [apply H | reflexivity | reflexivity].
Qed.

Lemma try_except_ext {A : Type} (body1 body2 : M A) classes handler
    (st : State) :
  body1 st = body2 st ->
  try_except body1 classes handler st = try_except body2 classes handler st.
Proof. intros H. unfold try_except. rewrite H. reflexivity. Qed.

Lemma returns_bind {A B : Type} (P : B -> Prop) (m : M A) (k : A -> M B) :
  (forall a, returns P (k a)) -> returns P (m ≫= k).
Proof.
  intros Hk st b st'. unfold mbind, M_bind, bind.
  destruct (m st) as [[a | e |] s1]; try discriminate. apply Hk.
Qed.

Lemma returns_bind_with {A B : Type} (Q : A -> Prop) (P : B -> Prop)
    (m : M A) (k : A -> M B) :
  returns Q m -> (forall a, Q a -> returns P (k a)) -> returns P (m ≫= k).
Proof.
  intros Hm Hk st b st'. unfold mbind, M_bind, bind.
  destruct (m st) as [[a | e |] s1] eqn:E; try discriminate.
  apply Hk. exact (Hm st a s1 E).
Qed.

Lemma returns_ret {A : Type} (P : A -> Prop) (a : A) : P a -> returns P (ret a).
Proof. intros H st b st' [= <- _]. exact H. Qed.

End Outcomes.

Ltac never_raises_step :=
  match goal with
  | |- never_raises _ (_ ≫= _) => apply never_raises_bind; [| intros ?]
  | |- never_raises _ (ret _) => apply never_raises_ret
  | |- never_raises _ (mret _) => apply never_raises_mret
  | |- never_raises _ (gets _) => apply never_raises_gets
  | |- never_raises _ (modify _) => apply never_raises_modify
  | |- never_raises _ out_of_fuel => apply never_raises_out_of_fuel
  | |- never_raises _ (raise _) => apply never_raises_raise; discriminate
  | |- never_raises _ (try_except _ _ _) =>
      apply never_raises_try_except; [reflexivity | intros ?]
  | |- never_raises _ (if ?b then _ else _) => destruct b
  | |- never_raises _ (match ?x with _ => _ end) => destruct x
  end.

Ltac never_raises := repeat never_raises_step; eauto with never_raises.

Create HintDb never_raises discriminated.

(** ** Navigation *)

Module NavigateFacts.

Import History Client ClientFrames.

Lemma emit_never e ev : never_raises e (emit ev).
Proof. unfold emit. never_raises. Qed.
#[export] Hint Resolve emit_never : never_raises.

Lemma log_never e l t a : never_raises e (log l t a).
Proof. unfold log. never_raises. Qed.
#[export] Hint Resolve log_never : never_raises.

Lemma error_handler_never e t a : never_raises e (_error_handler t a).
Proof. unfold _error_handler. never_raises. Qed.
#[export] Hint Resolve error_handler_never : never_raises.

Lemma is_connected_never_OSError : never_raises OSError _is_connected.
Proof. unfold _is_connected. never_raises. Qed.

Lemma establish_connection_never_OSError s p :
  never_raises OSError (_establish_connection s p).
Proof. unfold _establish_connection. never_raises. Qed.
#[export] Hint Resolve is_connected_never_OSError
  establish_connection_never_OSError : never_raises.

Lemma ensure_connection_never_OSError : never_raises OSError _ensure_connection.
Proof. unfold _ensure_connection, connect. never_raises. Qed.
#[export] Hint Resolve ensure_connection_never_OSError : never_raises.

Lemma navigate_prologue_never_OSError sel :
  never_raises OSError (navigate_prologue sel).
Proof. unfold navigate_prologue, get_backward. never_raises. Qed.
#[export] Hint Resolve navigate_prologue_never_OSError : never_raises.

Lemma navigate_prologue_hm sel : preserves hm_of (navigate_prologue sel).
Proof. unfold navigate_prologue, get_backward. frame. Qed.

(** An error record always passes the logger: [ERROR] is the highest
    level a logger of the client is ever set to. *)
Lemma log_error_emits (text : string) (args : list pyval) (st : State) :
  log ERROR text args st
  = (Ret tt, upd_world (fun w => set_trace (trace w ++ [EvLog ERROR text args]) w) st).
Proof.
  unfold log. munfold. cbn.
  destruct (effective_level (self st)); reflexivity.
Qed.

Section WithLibraries.

Variable decode : string -> string.
Variable urlparse_str : string -> res (pyval * pyval * pyval).

(** No socket error leaves [navigate]: those of the prologue are caught in
    [_establish_connection] and [_is_connected], those of the request in
    [_send_request], and the [try] block catches the rest. *)
Lemma navigate_never_OSError fuel sel rh server port_ :
  never_raises OSError (navigate decode urlparse_str fuel sel rh server port_).
Proof. destruct fuel; cbn [navigate]; never_raises. Qed.

(** [_send_request] itself never raises an [Exception]. *)
Lemma send_request_never e sel server port_ :
  isinstance e Exception = true ->
  never_raises e (_send_request decode sel server port_).
Proof.
  intros He. unfold _send_request.
  apply never_raises_bind; [unfold _debug_print; never_raises | intros _].
  apply never_raises_try_except.
  - unfold catches. cbn [existsb]. rewrite He. apply orb_true_r.
  - intros e'. never_raises.
Qed.

(** When [_send_request] answers [None], the last thing it did was to log
    the error. *)
Lemma send_request_None sel server port_ st st' :
  _send_request decode sel server port_ st = (Ret None, st') ->
  exists e, last (trace (world st'))
            = Some (EvLog ERROR "General Error: Error: {}" [VStr (exn_name e)]).
Proof.
  unfold _send_request.
  unfold mbind at 1. unfold M_bind, bind.
  destruct (_debug_print _ _ st) as [[[] | e0 |] s1]; try discriminate.
  unfold try_except.
  match goal with |- context [match ?b s1 with _ => _ end] =>
    destruct (b s1) as [[a | e |] s2] eqn:Hbody end.
  - intros [= -> <-]. exfalso.
    revert Hbody.
    repeat (unfold mbind at 1; unfold M_bind, bind;
            match goal with
            | |- context [match ?m ?s with _ => _ end] =>
                destruct (m s) as [[? | ? |] ?]; try discriminate
            end).
  - destruct (catches _ e); [|discriminate].
    unfold mbind, M_bind, bind, _error_handler. rewrite log_error_emits.
    cbn. intros [= <-]. exists e. cbn. apply last_snoc.
  - discriminate.
Qed.

(** C8.  When the transport request of a [navigate] call fails, that is,
    [_send_request] answers [None], [navigate] returns normally, the history
    manager is as it was before the call, and the error has been logged.
    Moreover no [OSError] ever leaves [_send_request] or [navigate]. *)
Theorem navigate_transport_error (fuel : nat) (sel : pyval) (rh : bool)
    (server port_ : pyval) (st sa sb : State) :
  navigate_prologue sel st = (Ret tt, sa) ->
  _send_request decode sel server port_ sa = (Ret None, sb) ->
  navigate decode urlparse_str (S fuel) sel rh server port_ st = (Ret tt, sb)
  /\ hm_of sb = hm_of st
  /\ (exists e, last (trace (world sb))
                = Some (EvLog ERROR "General Error: Error: {}"
                          [VStr (exn_name e)]))
  /\ never_raises OSError (_send_request decode sel server port_)
  /\ never_raises OSError
       (navigate decode urlparse_str (S fuel) sel rh server port_).
Proof.
  intros Hpro Hreq. repeat split.
  - cbn [navigate]. unfold mbind, M_bind, bind. rewrite Hpro.
    unfold try_except, navigate_body. unfold mbind, M_bind, bind.
    rewrite Hreq. reflexivity.
  - pose proof (send_request_hm decode sel server port_ sa) as H1.
    pose proof (navigate_prologue_hm sel st) as H2.
    rewrite Hreq in H1. rewrite Hpro in H2. cbn in H1, H2. congruence.
  - eapply send_request_None. exact Hreq.
  - apply send_request_never. reflexivity.
  - apply navigate_never_OSError.
Qed.

End WithLibraries.

(** A refused connection: no peer answers. *)
Lemma navigate_transport_error_witness :
  let st := Scenarios.client_in (Scenarios.quiet_world [] []) in
  let sa := (navigate_prologue (VStr "") st).2 in
  let sb := (_send_request Scenarios.decode_ascii (VStr "") (VStr "h")
               (VInt 70) sa).2 in
  navigate Scenarios.decode_ascii Scenarios.urlparse_unused 1 (VStr "") true
    (VStr "h") (VInt 70) st = (Ret tt, sb)
  /\ hm_of sb = hm_of st
  /\ (exists e, last (trace (world sb))
                = Some (EvLog ERROR "General Error: Error: {}"
                          [VStr (exn_name e)]))
  /\ never_raises OSError
       (_send_request Scenarios.decode_ascii (VStr "") (VStr "h") (VInt 70))
  /\ never_raises OSError
       (navigate Scenarios.decode_ascii Scenarios.urlparse_unused 1 (VStr "")
          true (VStr "h") (VInt 70)).
Proof.
  intros st sa sb.
  apply (navigate_transport_error Scenarios.decode_ascii
           Scenarios.urlparse_unused 0 (VStr "") true (VStr "h") (VInt 70)
           st sa sb); vm_compute; reflexivity.
Defined.

End NavigateFacts.

Module BackFacts.

Import History Client Scenarios.

Section WithLibraries.

Variable decode : string -> string.
Variable urlparse_str : string -> res (pyval * pyval * pyval).

(** The content prompt is left in one way only, with ["BACK"]: the other
    branches loop, exit or raise. *)
Lemma handle_user_choice_loop_BACK (navigate : navigate_t) (fuel : nat) :
  returns (fun action => action = "BACK")
    (_handle_user_choice_loop urlparse_str navigate fuel).
Proof.
  induction fuel as [|fuel IH]; cbn [_handle_user_choice_loop].
  - intros st a st'. discriminate.
  - apply returns_bind. intros line.
    destruct (String.eqb (lower (strip line)) "b").
    + apply returns_bind. intros previous_page.
      destruct (truthy previous_page).
      * apply returns_bind. intros [[path hostname] port_].
        apply returns_bind. intros _. apply returns_ret. reflexivity.
      * apply returns_bind. intros _. exact IH.
    + destruct (String.eqb (lower (strip line)) "q").
      * intros st a st'. discriminate.
      * apply returns_bind. intros _. exact IH.
Qed.

Lemma handle_user_choice_BACK (navigate : navigate_t) (fuel : nat)
    (data : string) :
  returns (fun action => action = "BACK")
    (_handle_user_choice urlparse_str navigate fuel data).
Proof.
  unfold _handle_user_choice.
  apply returns_bind. intros _. apply returns_bind. intros _.
  apply handle_user_choice_loop_BACK.
Qed.

(** Hence control never falls through to the recording step of
    [navigate]: whatever the response and the input, [navigate] does not
    call [record]. *)
Lemma navigate_dispatch_returns_false (navigate : navigate_t) (fuel : nat)
    (data : string) :
  returns (fun falls_through => falls_through = false)
    (navigate_dispatch urlparse_str navigate fuel data).
Proof.
  assert (Hcontent : returns (fun b => b = false)
            (action ← _handle_user_choice urlparse_str navigate fuel data;
             ret (negb (String.eqb action "BACK")))).
  { apply (returns_bind_with (fun action => action = "BACK")).
    - apply handle_user_choice_BACK.
    - intros action ->. apply returns_ret. reflexivity. }
  unfold navigate_dispatch. destruct (contains TAB data); [|exact Hcontent].
  apply returns_bind. intros [[[sel|] new_server] new_port];
    [|exact Hcontent].
  apply returns_bind. intros c. apply returns_bind. intros navigate_port.
  apply returns_bind. intros _. apply returns_ret. reflexivity.
Qed.

(** So the flag [record_history] has no effect: a call that asks for its
    address to be recorded behaves as one that does not, and the history
    only ever changes through "back". *)
Lemma navigate_ignores_record_history (fuel : nat) (sel : pyval) (rh : bool)
    (server port_ : pyval) (st : State) :
  navigate decode urlparse_str fuel sel rh server port_ st
  = navigate decode urlparse_str fuel sel false server port_ st.
Proof.
  destruct fuel as [|fuel]; [reflexivity|]. cbn [navigate].
  apply bind_ext. intros [] s1. apply try_except_ext.
  unfold navigate_body. apply bind_ext. intros [data|] s2; [|reflexivity].
  destruct (String.eqb data ""); [reflexivity|].
  unfold mbind, M_bind, bind.
  destruct (navigate_dispatch urlparse_str
              (navigate decode urlparse_str fuel) fuel data s2)
    as [[b | e |] s3] eqn:Hd; try reflexivity.
  rewrite (navigate_dispatch_returns_false _ _ _ _ _ _ Hd). reflexivity.
Qed.

Lemma input_step (prompt line : string) (rest : list string) (st : State) :
  stdin (world st) = line :: rest ->
  input prompt st
  = (Ret line,
     upd_world (fun w => set_trace (trace w ++ [EvPrint prompt []])
                           (set_stdin rest w)) st).
Proof.
  intros H. unfold input, print, emit. munfold. cbn. rewrite H. reflexivity.
Qed.

Lemma b_is_back : String.eqb (lower (strip "b")) "b" = true.
Proof. reflexivity. Qed.

(** With an empty backward list, "back" tells the user so and asks again;
    [navigate] is not called. *)
Lemma back_at_beginning (navigate : navigate_t) (fuel : nat)
    (fw : list pyval) (rest : list string) (st : State) :
  _handle_user_choice_loop urlparse_str navigate (S fuel)
    (with_history [] fw (upd_world (set_stdin ("b" :: rest)) st))
  = _handle_user_choice_loop urlparse_str navigate fuel
      (with_history [] fw
         (upd_world (fun w => set_trace (trace w ++ [EvPrint back_prompt [];
                                                      EvPrint at_beginning []])
                                (set_stdin rest w)) st)).
Proof.
  cbn [_handle_user_choice_loop].
  unfold mbind at 1. unfold M_bind, bind.
  rewrite (input_step _ "b" rest) by reflexivity.
  rewrite b_is_back.
  unfold mbind at 1. unfold M_bind, bind.
  change (go_back ?s) with (Ret VNone, s).
  cbn [truthy]. unfold print, emit. munfold. cbn. f_equal.
  unfold upd_world, with_history, upd_hm, upd_self, set_trace, set_stdin. cbn.
  rewrite <- app_assoc. reflexivity.
Qed.

(** C1.  With a non-empty backward list, "back" never re-navigates, from
    the content prompt as from a menu: [go_back] pops the top entry and
    raises [AttributeError] before either caller can use its result.  No
    call of [navigate] is made, whatever [navigate] is. *)
Theorem back_raises_before_renavigating (navigate : navigate_t) (fuel : nat)
    (bw fw : list pyval) (x : pyval) (rest : list string) (st : State) :
  _handle_user_choice_loop urlparse_str navigate (S fuel)
    (with_history (bw ++ [x]) fw (upd_world (set_stdin ("b" :: rest)) st))
  = (Raise AttributeError,
     with_history bw (fw ++ [x])
       (upd_world (fun w => set_trace (trace w ++ [EvPrint back_prompt []])
                              (set_stdin rest w)) st))
  /\ _go_back navigate (with_history (bw ++ [x]) fw st)
     = (Raise AttributeError,
        with_history bw (fw ++ [x])
          (upd_world (fun w => set_trace
                        (trace w ++ [EvPrint "Attempting to go back..." []]) w)
             st)).
Proof.
  split.
  - cbn [_handle_user_choice_loop].
    unfold mbind at 1. unfold M_bind, bind.
    rewrite (input_step _ "b" rest) by reflexivity.
    rewrite b_is_back.
    unfold mbind at 1. unfold M_bind, bind.
    rewrite (HistoryFacts.go_back_pops_then_raises bw fw x) by reflexivity.
    reflexivity.
  - unfold _go_back.
    unfold mbind at 1. unfold M_bind, bind. cbn [print emit modify].
    unfold mbind at 1. unfold M_bind, bind. cbn [get_backward gets].
    cbn [upd_world with_history upd_hm upd_self self history_manager
         set_history_manager backward_history set_forward_history
         set_backward_history truthy].
    rewrite length_app, Nat.add_1_r. cbn [Nat.eqb negb].
    unfold mbind at 1. unfold M_bind, bind.
    rewrite (HistoryFacts.go_back_pops_then_raises bw fw x) by reflexivity.
    reflexivity.
Qed.

End WithLibraries.

(** The same, end to end: the history holds [(a, 70)] and [(b, 70)], the
    server answers with plain text and the user presses [b].  The top entry
    moves to the forward list, the error is logged, and no request for
    [(a, 70)] follows: the third peer is never contacted. *)
Example back_from_content :
  let st := with_history [address "a" 70; address "b" 70] []
              (client_in (quiet_world ["b"]
                 [answering ""; answering "hello world"; answering "unused"])) in
  let '(r, st') := navigate decode_ascii urlparse_unused 5 (VStr "")
                     true (VStr "b") (VInt 70) st in
  r = Ret tt
  /\ backward_history (hm_of st') = VList [address "a" 70]
  /\ forward_history (hm_of st') = VList [address "b" 70]
  /\ net (world st') = [answering "unused"]
  /\ trace (world st')
     = [EvConnect (VStr "1436.ninja") (VInt 70) true;
        EvConnect (VStr "b") (VInt 70) true;
        EvSend (String CR (String LF EmptyString));
        EvPrint "hello world" [];
        EvPrint back_prompt [];
        EvLog ERROR "General Error: Error while navigating: {}"
          [VStr "AttributeError"]].
Proof. vm_compute. repeat split. Qed.

(** From a menu, [b] goes through [_go_back] and ends the same way. *)
Example back_from_menu :
  let st := with_history [address "a" 70; address "b" 70] []
              (client_in (quiet_world ["b"]
                 [answering ""; answering two_dirs; answering "unused"])) in
  let '(r, st') := navigate decode_ascii urlparse_unused 5 (VStr "")
                     true (VStr "b") (VInt 70) st in
  r = Ret tt
  /\ backward_history (hm_of st') = VList [address "a" 70]
  /\ forward_history (hm_of st') = VList [address "b" 70]
  /\ net (world st') = [answering "unused"]
  /\ last (trace (world st'))
     = Some (EvLog ERROR "General Error: Error while navigating: {}"
               [VStr "AttributeError"]).
Proof. vm_compute. repeat split. Qed.

End BackFacts.

(** ** The menu heuristic and the menu parser *)

Module MenuFacts.

Import Client Scenarios.

#[local] Arguments append _ _ : simpl nomatch.

Lemma split_nonempty (sep : ascii) (s : string) : split sep s <> [].
Proof.
  destruct s as [|c s]; cbn; [discriminate|].
  destruct (Ascii.eqb c sep); [discriminate|].
  destruct (split sep s); discriminate.
Qed.

(** A string has one more field than it has separators. *)
Lemma length_split (sep : ascii) (s : string) :
  length (split sep s) = S (count sep s).
Proof.
  induction s as [|c s IH]; [reflexivity|]. cbn.
  destruct (Ascii.eqb c sep); cbn; [now rewrite IH|].
  destruct (split sep s) eqn:E; cbn in *; [discriminate | assumption].
Qed.

(** No line has more tabs than the whole text. *)
Lemma count_split_le (c sep : ascii) (s : string) :
  Forall (fun line => count c line <= count c s) (split sep s).
Proof.
  induction s as [|a s IH]; cbn.
  - repeat constructor.
  - destruct (Ascii.eqb a sep).
    + constructor; [cbn; lia|].
      eapply Forall_impl; [exact IH|]. cbn. intros; lia.
    + destruct (split sep s) as [|h t] eqn:E.
      * repeat constructor. cbn. lia.
      * inversion IH as [|? ? Hh Ht]; subst. constructor.
        -- cbn. lia.
        -- eapply Forall_impl; [exact Ht|]. cbn. intros; lia.
Qed.

Lemma menu_line_count_no_tab (data : string) :
  contains TAB data = false -> menu_line_count (split LF data) = 0.
Proof.
  unfold contains. intros H. apply negb_false_iff, Nat.eqb_eq in H.
  pose proof (count_split_le TAB LF data) as Hall. rewrite H in Hall.
  unfold menu_line_count.
  induction Hall as [|line lines Hline _ IH]; [reflexivity|].
  rewrite filter_cons. destruct (decide (3 <= count TAB line)); [lia|].
  exact IH.
Qed.

(** The text made of given lines splits into these lines. *)
Lemma split_one_line (line : string) :
  one_line line -> split LF line = [line].
Proof.
  unfold one_line. induction line as [|a line IH]; cbn; [reflexivity|].
  intros H. destruct (Ascii.eqb_spec a LF) as [-> | _].
  - exfalso. apply H. now left.
  - rewrite IH; [reflexivity|]. intros Hin. apply H. now right.
Qed.

Lemma split_append_line (line rest : string) :
  one_line line ->
  split LF (line +:+ String LF rest) = line :: split LF rest.
Proof.
  unfold one_line. induction line as [|a line IH]; cbn.
  - reflexivity.
  - intros H. destruct (Ascii.eqb_spec a LF) as [-> | _].
    + exfalso. apply H. now left.
    + rewrite IH; [reflexivity|]. intros Hin. apply H. now right.
Qed.

Lemma join_lines_cons (line : string) (rest : list string) :
  rest <> [] ->
  join_lines (line :: rest) = line +:+ String LF (join_lines rest).
Proof. destruct rest; [congruence | reflexivity]. Qed.

Lemma split_join_lines (lines : list string) :
  lines <> [] -> Forall one_line lines ->
  split LF (join_lines lines) = lines.
Proof.
  intros Hne Hall. induction Hall as [|line rest Hline Hrest IH];
    [congruence|].
  destruct rest as [|line' rest'].
  - cbn. apply split_one_line, Hline.
  - rewrite join_lines_cons by discriminate.
    rewrite split_append_line by exact Hline.
    rewrite IH by discriminate. reflexivity.
Qed.

(** Every text is made of its lines. *)
Lemma join_lines_split (data : string) :
  join_lines (split LF data) = data
  /\ Forall one_line (split LF data).
Proof.
  induction data as [|a data IH].
  - split; [reflexivity|]. repeat constructor. intros [].
  - destruct IH as [IHj IHo]. pose proof (split_nonempty LF data) as Hne.
    cbn [split]. destruct (Ascii.eqb_spec a LF) as [-> | Ha].
    + split.
      * rewrite join_lines_cons by exact Hne. rewrite IHj. reflexivity.
      * constructor; [intros [] | exact IHo].
    + destruct (split LF data) as [|h t]; [congruence|].
      pose proof (Forall_inv IHo) as Hh.
      pose proof (Forall_inv_tail IHo) as Ht. split.
      * destruct t as [|h' t'].
        -- cbn in IHj. cbn. now rewrite IHj.
        -- rewrite join_lines_cons in * by discriminate.
           rewrite <- IHj. reflexivity.
      * constructor; [|exact Ht].
        unfold one_line in *. cbn. intros [Heq | Hin]; auto.
Qed.

Lemma count_tab_count (line : string) : count TAB line = tab_count line.
Proof.
  unfold tab_count. induction line as [|a line IH]; [reflexivity|].
  cbn [count list_ascii_of_string List.filter].
  rewrite IH, (Ascii.eqb_sym a TAB).
  destruct (Ascii.eqb TAB a); reflexivity.
Qed.

Lemma menu_line_count_dense (lines : list string) :
  menu_line_count lines = dense_lines lines.
Proof.
  unfold menu_line_count, dense_lines.
  induction lines as [|line lines IH]; [reflexivity|].
  rewrite filter_cons. cbn [List.filter]. rewrite <- count_tab_count.
  destruct (decide (3 <= count TAB line)) as [Hge | Hlt].
  - replace (3 <=? count TAB line) with true
      by (symmetry; apply Nat.leb_le; exact Hge).
    cbn [length]. now rewrite IH.
  - replace (3 <=? count TAB line) with false
      by (symmetry; apply Nat.leb_gt; lia).
    exact IH.
Qed.

(** The test of the code on a text given by its lines. *)
Lemma classify_join_lines (lines : list string) :
  lines <> [] -> Forall one_line lines ->
  classify (join_lines lines)
  = Float64.int_gt (Z.of_nat (dense_lines lines))
      (Float64.mul (Float64.of_int (Z.of_nat (length lines)))
         Float64.lit_0_20).
Proof.
  intros Hne Hall. unfold classify.
  rewrite split_join_lines by assumption.
  now rewrite menu_line_count_dense.
Qed.

Lemma dense_lines_app (l1 l2 : list string) :
  dense_lines (l1 ++ l2) = dense_lines l1 + dense_lines l2.
Proof. unfold dense_lines. now rewrite List.filter_app, length_app. Qed.

Lemma dense_lines_repeat (line : string) (n : nat) :
  dense_lines (repeat line n)
  = if 3 <=? tab_count line then n else 0.
Proof.
  unfold dense_lines. induction n as [|n IH]; cbn [repeat List.filter].
  - now destruct (3 <=? tab_count line).
  - destruct (3 <=? tab_count line); cbn [length]; now rewrite IH.
Qed.

(** A text of [5 * 2^51 + 4] lines, [2^51 + 1] of them menu lines: more
    than a fifth, but the rounded product [len(lines) * 0.20] is
    [2^51 + 1] itself, so the test [>] fails. *)
Lemma classifier_not_exact : ~ classifies_by_density.
Proof.
  intros H.
  set (menu_line := String TAB (String TAB (String TAB EmptyString))).
  assert (Hgen : forall a b : nat,
            0 < a ->
            Float64.int_gt (Z.of_nat a)
              (Float64.mul (Float64.of_int (Z.of_nat (a + b)))
                 Float64.lit_0_20)
            = (a + b <? 5 * a)).
  { intros a b Ha.
    assert (Hne : repeat menu_line a ++ repeat EmptyString b <> []).
    { destruct a; [lia | discriminate]. }
    assert (Hall : Forall one_line
                     (repeat menu_line a ++ repeat EmptyString b)).
    { apply Forall_app. split; apply List.Forall_forall; intros x Hx;
        apply repeat_spec in Hx; subst x; unfold one_line; cbn.
      - intros [Hx | [Hx | [Hx | []]]]; discriminate Hx.
      - intros []. }
    specialize (H _ Hne Hall).
    rewrite classify_join_lines in H by assumption.
    unfold exceeds_fifth in H.
    rewrite dense_lines_app, !dense_lines_repeat, length_app,
      !repeat_length in H.
    cbn [tab_count] in H.
    replace (3 <=? tab_count menu_line) with true in H by reflexivity.
    replace (3 <=? tab_count EmptyString) with false in H by reflexivity.
    rewrite Nat.add_0_r in H. exact H. }
  specialize (Hgen (Z.to_nat 2251799813685249) (Z.to_nat 9007199254740995)
                ltac:(lia)).
  rewrite Nat2Z.inj_add, !Z2Nat.id in Hgen by lia.
  replace (Z.to_nat 2251799813685249 + Z.to_nat 9007199254740995
           <? 5 * Z.to_nat 2251799813685249) with true in Hgen
    by (symmetry; apply Nat.ltb_lt; lia).
  vm_compute in Hgen. discriminate Hgen.
Qed.

(** C6.  For a text of fewer than [2^52] lines, the heuristic answers
    "menu" exactly when the lines with at least three tabs are strictly
    more than a fifth of all lines; with exactly a fifth it answers
    "content", and so it does for a text without any tab, which [navigate]
    does not even pass to the heuristic.  The lines, their tabs and the
    fifth are counted as the specification words them, apart from the
    code. *)
Theorem classify_strict_fifth (lines : list string) :
  lines <> [] -> Forall one_line lines ->
  (Z.of_nat (length lines) < 2 ^ 52)%Z ->
  classify (join_lines lines) = exceeds_fifth lines
  /\ (5 * dense_lines lines = length lines ->
      classify (join_lines lines) = false)
  /\ (contains TAB (join_lines lines) = false ->
      classify (join_lines lines) = false).
Proof.
  intros Hne Hall Hlen.
  assert (Hc : classify (join_lines lines) = exceeds_fifth lines).
  { rewrite classify_join_lines by assumption.
    rewrite Float64Facts.int_gt_fifth by lia.
    unfold exceeds_fifth.
    destruct (Z.ltb_spec (Z.of_nat (length lines))
                (5 * Z.of_nat (dense_lines lines)));
      destruct (Nat.ltb_spec (length lines) (5 * dense_lines lines));
      try reflexivity; lia. }
  split; [exact Hc|]. split.
  - intros Heq. rewrite Hc. unfold exceeds_fifth. apply Nat.ltb_ge. lia.
  - intros Hno. rewrite Hc. unfold exceeds_fifth. apply Nat.ltb_ge.
    pose proof (menu_line_count_no_tab _ Hno) as H0.
    rewrite split_join_lines, menu_line_count_dense in H0 by assumption.
    lia.
Qed.

(** Five lines.  One menu line among them is exactly a fifth: content.
    Two are more than a fifth: a menu. *)
Lemma classify_strict_fifth_witness :
  let menu_line := "1Dir A" +:+ String TAB ("/a" +:+ String TAB ("host" +:+
                     String TAB "70")) in
  let lines := [menu_line; "a"; "b"; "c"; "d"] in
  let lines' := [menu_line; "a"; menu_line; "c"; "d"] in
  (classify (join_lines lines) = false
   /\ (5 * dense_lines lines = length lines ->
       classify (join_lines lines) = false)
   /\ (contains TAB (join_lines lines) = false ->
       classify (join_lines lines) = false))
  /\ classify (join_lines lines') = true.
Proof.
  intros menu_line lines lines'.
  assert (Hall : Forall one_line lines /\ Forall one_line lines').
  { split; repeat constructor; unfold one_line; vm_compute;
      intuition discriminate. }
  destruct Hall as [Hall Hall'].
  assert (Hlen : (Z.of_nat 5 < 2 ^ 52)%Z) by (vm_compute; reflexivity).
  pose proof (classify_strict_fifth lines ltac:(discriminate) Hall Hlen) as H.
  pose proof (classify_strict_fifth lines' ltac:(discriminate) Hall' Hlen)
    as [H' _].
  change (exceeds_fifth lines) with false in H.
  change (exceeds_fifth lines') with true in H'.
  split; [exact H | exact H'].
Defined.

Example one_line_in_five_is_content :
  classify ("1Dir A" +:+ String TAB ("/a" +:+ String TAB ("host" +:+
              String TAB ("70" +:+ String LF ("a" +:+ String LF ("b" +:+
              String LF ("c" +:+ String LF "d"))))))) = false.
Proof. vm_compute. reflexivity. Qed.

Example two_lines_in_five_is_menu :
  classify (two_dirs +:+ "a" +:+ String LF "b") = true
  /\ length (split LF (two_dirs +:+ "a" +:+ String LF "b")) = 4
  /\ classify two_dirs = true.
Proof. vm_compute. repeat split. Qed.

(** A line of fewer than four fields adds no entry and raises nothing. *)
Lemma parse_short_line (line : string) (rest : list string)
    (entries : list entry) :
  length (split TAB line) < 4 ->
  parse_lines (line :: rest) entries = parse_lines rest entries.
Proof.
  intros H. cbn [parse_lines].
  destruct (Nat.leb_spec 4 (length (split TAB line))); [lia | reflexivity].
Qed.

(** A line of four fields or more whose first field is not empty adds
    exactly one entry, made of the first character of field 0, the rest of
    field 0 and fields 1 to 3. *)
Lemma parse_full_line (line : string) (rest : list string)
    (entries : list entry) (t : ascii) (label p1 p2 p3 : string)
    (more : list string) :
  split TAB line = String t label :: p1 :: p2 :: p3 :: more ->
  parse_lines (line :: rest) entries
  = parse_lines rest (entries ++ [(String t EmptyString, label, p1, p2, p3)]).
Proof. intros H. cbn [parse_lines]. rewrite H. reflexivity. Qed.

(** C7.  On a line of four fields or more whose first field is empty, the
    parser produces no entry: [parts[0][0]] raises [IndexError], and the
    lines after it are not parsed. *)
Theorem parse_empty_type_raises (line : string) (rest : list string)
    (entries : list entry) (p1 p2 p3 : string) (more : list string) :
  split TAB line = EmptyString :: p1 :: p2 :: p3 :: more ->
  parse_lines (line :: rest) entries = Raise IndexError.
Proof. intros H. cbn [parse_lines]. rewrite H. reflexivity. Qed.

Lemma parse_empty_type_raises_witness :
  parse_lines [no_type_line; "1Dir A"] [] = Raise IndexError.
Proof.
  apply (parse_empty_type_raises no_type_line ["1Dir A"] [] "/sel" "host" "70" []).
  reflexivity.
Defined.

(** The whole parser on that line alone, in any state. *)
Example parse_menu_no_type_line (st : State) :
  (_parse_gopher_menu no_type_line st).1 = Raise IndexError.
Proof.
  unfold _parse_gopher_menu, log. munfold. cbn.
  destruct (level_no (effective_level (self st)) <=? 10)%Z; reflexivity.
Qed.

(** One such line in a menu: nothing is shown, [navigate] logs the error. *)
Example menu_with_no_type_line :
  let st := client_in (quiet_world ["0"]
              [answering ""; answering (two_dirs +:+ no_type_line)]) in
  let '(r, st') := navigate decode_ascii urlparse_unused 5 (VStr "")
                     true (VStr "host") (VInt 70) st in
  r = Ret tt
  /\ stdin (world st') = ["0"]
  /\ last (trace (world st'))
     = Some (EvLog ERROR "General Error: Error while navigating: {}"
               [VStr "IndexError"]).
Proof. vm_compute. repeat split. Qed.

End MenuFacts.

(** ** Persistence *)

Module PersistenceFacts.

Import History Client Scenarios.

(** The write breaks off and the copy back from the backup fails too: the
    file is left with what the write got to. *)
Lemma restore_can_fail : ~ restored_after_failed_write.
Proof.
  intros H.
  specialize (H (in_world (config_world [NoFault; Fault (Some (Garbage "{"));
                                          Fault None])
                   (client_in (quiet_world [] [])))
                "config.json" new_config old_config (Some (Garbage "{"))
                [Fault None] eq_refl eq_refl).
  vm_compute in H. discriminate H.
Qed.

Lemma bak_ne (filename : string) : filename +:+ ".bak" <> filename.
Proof.
  induction filename as [|c s IH]; cbn; [discriminate|].
  intros [= H]. exact (IH H).
Qed.

Lemma bak_ne' (filename : string) : filename <> filename +:+ ".bak".
Proof. intros H. symmetry in H. exact (bak_ne filename H). Qed.

(** A call of the logger adds its events and nothing else. *)
Lemma log_eq (lvl : loglevel) (text : string) (args : list pyval) (st : State) :
  log lvl text args st
  = (Ret tt,
     upd_world (fun w => set_trace
                  (trace w ++ log_events (self st) lvl text args) w) st).
Proof.
  unfold log, log_events, emit. munfold. cbn.
  destruct (level_no (effective_level (self st)) <=? level_no lvl)%Z.
  - reflexivity.
  - destruct st as [c [? ? ? ? tr] ?]. unfold upd_world, set_trace. cbn.
    rewrite app_nil_r. reflexivity.
Qed.

Lemma log_events_ERROR c text args :
  log_events c ERROR text args = [EvLog ERROR text args].
Proof. unfold log_events. destruct (effective_level c); reflexivity. Qed.

Lemma log_events_no_file c lvl text args :
  List.filter is_file_event (log_events c lvl text args) = [].
Proof.
  unfold log_events.
  destruct (level_no (effective_level c) <=? level_no lvl)%Z; reflexivity.
Qed.

#[local] Arguments log : simpl never.
#[local] Arguments log_events : simpl never.

(** Running the file operations on a state given by its parts: look-ups
    and logger calls are resolved one at a time. *)
Ltac run_file_ops :=
  unfold _save_to_file, copy2, write_json, remove, path_exists, next_fault,
    put_file, emit, try_except;
  munfold; cbn.

Ltac file_steps Hold :=
  repeat (progress (cbn;
    rewrite ?log_eq, ?Hold, ?lookup_insert_eq,
      ?(lookup_insert_ne _ _ _ _ (bak_ne _)),
      ?(lookup_insert_ne _ _ _ _ (bak_ne' _)))).

Ltac file_lookups :=
  cbn;
  rewrite ?lookup_delete_eq, ?(lookup_delete_ne _ _ _ (bak_ne _)),
    ?lookup_insert_eq,
    ?(lookup_insert_ne _ _ _ _ (bak_ne _)),
    ?(lookup_insert_ne _ _ _ _ (bak_ne' _)), ?lookup_insert_eq.

Ltac file_done :=
  repeat apply conj;
  first
    [ reflexivity
    | assumption
    | rewrite ?log_events_ERROR; apply last_snoc
    | rewrite ?List.filter_app, ?log_events_no_file; cbn;
      rewrite ?app_nil_r, <- ?app_assoc; reflexivity
    | file_lookups; first [assumption | reflexivity] ].

(** The backup copy fails: nothing is written. *)
Lemma save_without_backup (filename : string) (data : pyval) (old : file)
    (r : option file) (tl : list fault) (st : State) :
  fs (world st) !! filename = Some old ->
  fs_faults (world st) = Fault r :: tl ->
  let bak := filename +:+ ".bak" in
  let st' := (_save_to_file filename data st).2 in
  (_save_to_file filename data st).1 = Ret tt
  /\ file_events st' = file_events st ++ [EvCopy filename bak false]
  /\ fs (world st') !! filename = Some old.
Proof.
  destruct st as [c [keys peers files faults tr] shared]. cbn.
  intros Hold ->. unfold file_events. run_file_ops.
  destruct r as [f|]; file_steps Hold; file_done.
Qed.

(** When the backup copy goes through, the write comes after it, whatever
    happens then. *)
Lemma save_backs_up_first (filename : string) (data : pyval) (old : file)
    (st : State) :
  fs (world st) !! filename = Some old ->
  hd NoFault (fs_faults (world st)) = NoFault ->
  let bak := filename +:+ ".bak" in
  let st' := (_save_to_file filename data st).2 in
  exists ok rest,
    file_events st'
    = file_events st ++ EvCopy filename bak true :: EvWrite filename ok :: rest.
Proof.
  destruct st as [c [keys peers files faults tr] shared]. cbn.
  intros Hold Hflt. unfold file_events. run_file_ops.
  destruct faults as [|[|] [|[|r] [|[|r'] faults']]];
    try discriminate Hflt;
    destruct (to_json data) as [doc|]; try destruct r; try destruct r';
    file_steps Hold;
    eexists; eexists;
    rewrite ?List.filter_app, ?log_events_no_file; cbn;
    rewrite ?app_nil_r, <- ?app_assoc; cbn; reflexivity.
Qed.

(** The write fails and the copy back succeeds. *)
Lemma save_restores (filename : string) (data : pyval) (old : file)
    (r : option file) (tl : list fault) (st : State) :
  fs (world st) !! filename = Some old ->
  fs_faults (world st) = NoFault :: Fault r :: tl ->
  hd NoFault tl = NoFault ->
  let bak := filename +:+ ".bak" in
  let st' := (_save_to_file filename data st).2 in
  (_save_to_file filename data st).1 = Ret tt
  /\ file_events st'
     = file_events st ++ [EvCopy filename bak true; EvWrite filename false;
                          EvCopy bak filename true]
  /\ fs (world st') !! filename = Some old.
Proof.
  destruct st as [c [keys peers files faults tr] shared]. cbn.
  intros Hold -> Htl. unfold file_events. run_file_ops.
  destruct r as [f|]; destruct tl as [|[|] tl']; try discriminate Htl;
    file_steps Hold; file_done.
Qed.

(** The write fails and the copy back fails too: the file keeps what the
    two failures left in it, the backup keeps the previous content, and
    the last thing done is to log the failed restoration. *)
Lemma save_restore_fails (filename : string) (data : pyval) (old : file)
    (r r' : option file) (tl : list fault) (st : State) :
  fs (world st) !! filename = Some old ->
  fs_faults (world st) = NoFault :: Fault r :: Fault r' :: tl ->
  let bak := filename +:+ ".bak" in
  let st' := (_save_to_file filename data st).2 in
  (_save_to_file filename data st).1 = Ret tt
  /\ file_events st'
     = file_events st ++ [EvCopy filename bak true; EvWrite filename false;
                          EvCopy bak filename false]
  /\ fs (world st') !! filename
     = Some (default (default old r) r')
  /\ fs (world st') !! bak = Some old
  /\ last (trace (world st'))
     = Some (EvLog ERROR "Error while restoring from backup: {}"
               [VStr "OSError"]).
Proof.
  destruct st as [c [keys peers files faults tr] shared]. cbn.
  intros Hold ->. unfold file_events. run_file_ops.
  destruct r as [f|]; destruct r' as [f'|]; file_steps Hold; file_done.
Qed.

(** Nothing fails: the file holds the new document and the backup is
    gone. *)
Lemma save_succeeds (filename : string) (data doc : pyval) (old : file)
    (st : State) :
  fs (world st) !! filename = Some old ->
  fs_faults (world st) = [] ->
  to_json data = Some doc ->
  let bak := filename +:+ ".bak" in
  let st' := (_save_to_file filename data st).2 in
  (_save_to_file filename data st).1 = Ret tt
  /\ file_events st'
     = file_events st ++ [EvCopy filename bak true; EvWrite filename true;
                          EvRemove bak true]
  /\ fs (world st') !! filename = Some (JsonDoc doc)
  /\ fs (world st') !! bak = None.
Proof.
  destruct st as [c [keys peers files faults tr] shared]. cbn.
  intros Hold -> Hdoc. unfold file_events. run_file_ops.
  rewrite ?Hdoc; file_steps Hold; file_done.
Qed.

(** C9, as amended.  When the file exists, [_save_to_file] first copies it
    to the backup, writes only after that copy went through, and writes
    nothing if it fails.  If the write then fails with an I/O error, the
    file is copied back from the backup: when that copy succeeds the file
    holds its previous content again; when it fails as well, the failure is
    logged and the previous content is still in the backup file. *)
Theorem save_to_file_backup_restore (filename : string) (data : pyval)
    (old : file) (st : State) :
  fs (world st) !! filename = Some old ->
  let bak := filename +:+ ".bak" in
  let st' := (_save_to_file filename data st).2 in
  (hd NoFault (fs_faults (world st)) = NoFault ->
     exists ok rest,
       file_events st'
       = file_events st
         ++ EvCopy filename bak true :: EvWrite filename ok :: rest)
  /\ (forall r tl, fs_faults (world st) = Fault r :: tl ->
        (_save_to_file filename data st).1 = Ret tt
        /\ file_events st' = file_events st ++ [EvCopy filename bak false]
        /\ fs (world st') !! filename = Some old)
  /\ (forall r tl, fs_faults (world st) = NoFault :: Fault r :: tl ->
        hd NoFault tl = NoFault ->
        (_save_to_file filename data st).1 = Ret tt
        /\ file_events st'
           = file_events st ++ [EvCopy filename bak true;
                                EvWrite filename false;
                                EvCopy bak filename true]
        /\ fs (world st') !! filename = Some old)
  /\ (forall r r' tl,
        fs_faults (world st) = NoFault :: Fault r :: Fault r' :: tl ->
        (_save_to_file filename data st).1 = Ret tt
        /\ file_events st'
           = file_events st ++ [EvCopy filename bak true;
                                EvWrite filename false;
                                EvCopy bak filename false]
        /\ fs (world st') !! filename = Some (default (default old r) r')
        /\ fs (world st') !! bak = Some old
        /\ last (trace (world st'))
           = Some (EvLog ERROR "Error while restoring from backup: {}"
                     [VStr "OSError"])).
Proof.
  intros Hold bak st'. repeat apply conj.
  - intros Hflt. exact (save_backs_up_first _ data old st Hold Hflt).
  - intros r tl Hf. exact (save_without_backup _ data old r tl st Hold Hf).
  - intros r tl Hf Htl. exact (save_restores _ data old r tl st Hold Hf Htl).
  - intros r r' tl Hf.
    exact (save_restore_fails _ data old r r' tl st Hold Hf).
Qed.

Lemma save_to_file_backup_restore_witness :
  let st := in_world
              (config_world [NoFault; Fault (Some (Garbage "{")); NoFault])
              (client_in (quiet_world [] [])) in
  fs (world (_save_to_file "config.json" new_config st).2) !! "config.json"
  = Some old_config.
Proof.
  intros st.
  destruct (save_to_file_backup_restore "config.json" new_config old_config
              st eq_refl) as (_ & _ & Hrestore & _).
  destruct (Hrestore (Some (Garbage "{")) [NoFault] eq_refl eq_refl)
    as (_ & _ & H).
  exact H.
Defined.

(** The history manager's own [_save_history], which only the manager's
    [go_forward] calls, writes the history file directly: a failed write
    leaves the file as it got, and no copy is made before or after. *)
Example save_history_has_no_backup :
  let st := in_world
              (mk_world [] [] (<[HISTORY_FILE := old_config]> ∅)
                 [Fault (Some (Garbage "{"))] [] lp64)
              (with_history [] [address "g" 70]
                 (client_in (quiet_world [] []))) in
  let '(r, st') := History.go_forward st in
  r = Raise OSError
  /\ fs (world st') !! HISTORY_FILE = Some (Garbage "{")
  /\ file_events st' = [EvWrite HISTORY_FILE false].
Proof. vm_compute. repeat split. Qed.

(** *** Saving and loading the configuration *)

(** [load_config] looks the history up under the keys [backward] and
    [forward]: a document without them leaves the history manager as it
    is. *)
Lemma load_config_without_keys (items : list (string * pyval)) (st : State) :
  fs (world st) !! CONFIG_FILE = Some (JsonDoc (VDict items)) ->
  hd NoFault (fs_faults (world st)) = NoFault ->
  assoc "backward" items = None ->
  assoc "forward" items = None ->
  (load_config st).1 = Ret tt /\ hm_of (load_config st).2 = hm_of st.
Proof.
  destruct st as [c [keys peers files faults tr] shared]. cbn.
  intros Hfile Hflt Hb Hf.
  unfold load_config, _load_from_file, read_json, path_exists, next_fault,
    try_except, emit, get_backward, get_forward, put_backward, put_forward,
    dict_get, hm_of.
  munfold. cbn. rewrite Hfile. cbn.
  destruct faults as [|[|] faults']; try discriminate Hflt; cbn;
    rewrite Hfile; cbn; rewrite Hb, Hf; cbn;
    destruct (assoc "hostname" items), (assoc "port" items); cbn;
    destruct c as [? ? ? ? ? ? ? []]; split; reflexivity.
Qed.

(** C2.  A manager holding [(h, 70)] backward and [(g, 70)] forward is saved
    with [save_config]; the file then holds both lists, under the keys
    [backward_history] and [forward_history].  [load_config] on a new client
    in that world reads the keys [backward] and [forward], finds neither,
    and leaves the new client's history empty. *)
Theorem config_round_trip_loses_history :
  let saved := save_config saved_state in
  let restored := load_config (client_in (world saved.2)) in
  saved.1 = Ret tt
  /\ fs (world saved.2) !! CONFIG_FILE
     = Some (JsonDoc (VDict
         [("hostname", VStr "1436.ninja");
          ("port", VInt 70);
          ("backward_history", VList [VList [VStr "h"; VInt 70]]);
          ("forward_history", VList [VList [VStr "g"; VInt 70]])]))
  /\ restored.1 = Ret tt
  /\ backward_history (hm_of saved_state) = VList [address "h" 70]
  /\ forward_history (hm_of saved_state) = VList [address "g" 70]
  /\ backward_history (hm_of restored.2) = VList []
  /\ forward_history (hm_of restored.2) = VList [].
Proof. vm_compute. repeat split. Qed.

End PersistenceFacts.

(** ** Forward navigation *)

Module ForwardFacts.

Import History Client Scenarios.

(** *** Nothing but [go_forward] touches them *)

Lemma emit_attrs e : preserves attrs_of (emit e).
Proof. unfold emit. frame. Qed.
Lemma print_attrs t a : preserves attrs_of (print t a).
Proof. unfold print. apply emit_attrs. Qed.
#[export] Hint Resolve emit_attrs print_attrs : frame.

Lemma log_attrs l t a : preserves attrs_of (log l t a).
Proof. unfold log. frame. Qed.
Lemma input_attrs p : preserves attrs_of (input p).
Proof. unfold input. frame. Qed.
#[export] Hint Resolve log_attrs input_attrs : frame.

Lemma error_handler_attrs t a : preserves attrs_of (_error_handler t a).
Proof. unfold _error_handler. frame. Qed.
Lemma debug_print_attrs t a : preserves attrs_of (_debug_print t a).
Proof. unfold _debug_print. frame. Qed.
#[export] Hint Resolve error_handler_attrs debug_print_attrs : frame.

Lemma is_connected_attrs : preserves attrs_of _is_connected.
Proof. unfold _is_connected, getsockopt_so_error. frame. Qed.
Lemma socket_close_attrs : preserves attrs_of socket_close.
Proof. unfold socket_close. frame. Qed.
Lemma create_connection_attrs h p : preserves attrs_of (create_connection h p).
Proof. unfold create_connection. frame. Qed.
#[export] Hint Resolve is_connected_attrs socket_close_attrs
  create_connection_attrs : frame.

Lemma establish_connection_attrs s p :
  preserves attrs_of (_establish_connection s p).
Proof. unfold _establish_connection. frame. Qed.
#[export] Hint Resolve establish_connection_attrs : frame.

Lemma connect_attrs h p : preserves attrs_of (connect h p).
Proof. unfold connect. frame. Qed.
#[export] Hint Resolve connect_attrs : frame.

Lemma ensure_connection_attrs : preserves attrs_of _ensure_connection.
Proof. unfold _ensure_connection. frame. Qed.
Lemma sendall_attrs d : preserves attrs_of (sendall d).
Proof. unfold sendall. frame. Qed.
Lemma recv_all_attrs : preserves attrs_of recv_all.
Proof. unfold recv_all. frame. Qed.
Lemma quit_client_attrs : preserves attrs_of quit_client.
Proof. unfold quit_client. frame. Qed.
#[export] Hint Resolve ensure_connection_attrs sendall_attrs recv_all_attrs
  quit_client_attrs : frame.

Lemma send_request_attrs decode sel s p :
  preserves attrs_of (_send_request decode sel s p).
Proof. unfold _send_request. frame. Qed.
#[export] Hint Resolve send_request_attrs : frame.

Lemma for_each_attrs {A : Type} (xs : list A) (body : A -> M unit) :
  (forall x, preserves attrs_of (body x)) ->
  preserves attrs_of (for_each xs body).
Proof. intros H. induction xs; cbn [for_each]; frame. Qed.

Lemma collect_attrs {A B : Type} (xs : list A) (f : A -> M B) :
  (forall x, preserves attrs_of (f x)) -> preserves attrs_of (collect xs f).
Proof. intros H. induction xs; cbn [collect]; frame. Qed.

(** The history manager. *)
Lemma hm_getattr_attrs n : preserves attrs_of (History.getattr n).
Proof. unfold History.getattr. frame. Qed.
Lemma call_debug_attrs o t a : preserves attrs_of (call_debug o t a).
Proof. unfold call_debug. frame. Qed.
#[export] Hint Resolve hm_getattr_attrs call_debug_attrs : frame.

Lemma go_back_attrs : preserves attrs_of go_back.
Proof.
  unfold go_back, get_backward, get_forward, put_backward, put_forward. frame.
Qed.
Lemma record_attrs a : preserves attrs_of (record a).
Proof.
  unfold record, get_backward, get_forward, put_backward, put_forward. frame.
Qed.
#[export] Hint Resolve go_back_attrs record_attrs : frame.

(** Files. *)
Lemma next_fault_attrs : preserves attrs_of next_fault.
Proof. unfold next_fault. frame. Qed.
Lemma put_file_attrs n r : preserves attrs_of (put_file n r).
Proof. unfold put_file. frame. Qed.
Lemma path_exists_attrs n : preserves attrs_of (path_exists n).
Proof. unfold path_exists. frame. Qed.
#[export] Hint Resolve next_fault_attrs put_file_attrs path_exists_attrs : frame.

Lemma write_json_attrs n d : preserves attrs_of (write_json n d).
Proof. unfold write_json. frame. Qed.
Lemma read_json_attrs n : preserves attrs_of (read_json n).
Proof. unfold read_json. frame. Qed.
Lemma copy2_attrs a b : preserves attrs_of (copy2 a b).
Proof. unfold copy2. frame. Qed.
Lemma remove_attrs n : preserves attrs_of (remove n).
Proof. unfold remove. frame. Qed.
#[export] Hint Resolve write_json_attrs read_json_attrs copy2_attrs
  remove_attrs : frame.

Lemma load_from_file_attrs n : preserves attrs_of (_load_from_file n).
Proof. unfold _load_from_file. frame. Qed.
Lemma save_to_file_attrs n d : preserves attrs_of (_save_to_file n d).
Proof. unfold _save_to_file. frame. Qed.
#[export] Hint Resolve load_from_file_attrs save_to_file_attrs : frame.

Lemma save_config_attrs : preserves attrs_of save_config.
Proof. unfold save_config. frame. Qed.
Lemma load_config_attrs : preserves attrs_of load_config.
Proof.
  unfold load_config, get_backward, get_forward, put_backward, put_forward.
  frame.
Qed.
Lemma toggle_debug_mode_attrs : preserves attrs_of toggle_debug_mode.
Proof. unfold toggle_debug_mode. frame. Qed.
Lemma display_help_attrs : preserves attrs_of display_help.
Proof. unfold display_help. apply for_each_attrs. intros; frame. Qed.
#[export] Hint Resolve save_config_attrs load_config_attrs
  toggle_debug_mode_attrs display_help_attrs : frame.

Lemma list_search_engines_attrs : preserves attrs_of list_search_engines.
Proof.
  unfold list_search_engines. frame. apply for_each_attrs. intros; frame.
Qed.

Lemma list_bookmarks_attrs : preserves attrs_of list_bookmarks.
Proof.
  unfold list_bookmarks. frame.
  match goal with |- preserves _ (_ ?i ?l) => generalize i; induction l end;
    intros; frame.
Qed.
#[export] Hint Resolve list_search_engines_attrs list_bookmarks_attrs : frame.

Lemma put_bookmarks_attrs v : preserves attrs_of (put_bookmarks v).
Proof. unfold put_bookmarks. frame. Qed.
#[export] Hint Resolve put_bookmarks_attrs : frame.

Lemma load_bookmarks_attrs : preserves attrs_of load_bookmarks.
Proof. unfold load_bookmarks. frame. Qed.
Lemma load_search_engines_attrs : preserves attrs_of load_search_engines.
Proof. unfold load_search_engines. frame. Qed.
#[export] Hint Resolve load_bookmarks_attrs load_search_engines_attrs : frame.

Lemma save_bookmark_attrs t sl : preserves attrs_of (save_bookmark t sl).
Proof.
  unfold save_bookmark, get_bookmarks. frame.
  match goal with |- preserves _ (_ ?l) => induction l end; frame.
Qed.

Lemma delete_bookmark_attrs i : preserves attrs_of (delete_bookmark i).
Proof. unfold delete_bookmark, get_bookmarks. frame. Qed.

Lemma set_bookmark_key_attrs i k v : preserves attrs_of (set_bookmark_key i k v).
Proof. unfold set_bookmark_key, get_bookmarks. frame. Qed.
#[export] Hint Resolve set_bookmark_key_attrs : frame.

Lemma modify_bookmark_attrs i t sl : preserves attrs_of (modify_bookmark i t sl).
Proof. unfold modify_bookmark, get_bookmarks. frame. Qed.

Lemma print_gopher_menu_attrs es : preserves attrs_of (_print_gopher_menu es).
Proof.
  unfold _print_gopher_menu. frame.
  match goal with |- preserves _ (_ ?i ?l) => generalize i; induction l end;
    intros; frame.
Qed.
Lemma parse_gopher_menu_attrs d : preserves attrs_of (_parse_gopher_menu d).
Proof. unfold _parse_gopher_menu. frame. Qed.
#[export] Hint Resolve print_gopher_menu_attrs parse_gopher_menu_attrs : frame.

Section WithLibraries.

Variable decode : string -> string.
Variable urlparse_str : string -> res (pyval * pyval * pyval).

(** The methods that call back into [navigate] leave the attributes alone
    if [navigate] does. *)
Section WithNavigate.

Variable nav : navigate_t.
Hypothesis nav_attrs : forall s r h p, preserves attrs_of (nav s r h p).

Lemma go_back_client_attrs : preserves attrs_of (_go_back nav).
Proof. unfold _go_back, get_backward. frame. Qed.

Lemma get_user_choice_attrs fuel es :
  preserves attrs_of (_get_user_choice nav fuel es).
Proof.
  induction fuel; cbn [_get_user_choice]; frame.
  apply go_back_client_attrs.
Qed.

Lemma display_gopher_menu_attrs fuel d :
  preserves attrs_of (_display_gopher_menu nav fuel d).
Proof.
  unfold _display_gopher_menu. frame. apply get_user_choice_attrs.
Qed.

Lemma handle_user_choice_loop_attrs fuel :
  preserves attrs_of (_handle_user_choice_loop urlparse_str nav fuel).
Proof. induction fuel; cbn [_handle_user_choice_loop]; frame. Qed.

Lemma handle_user_choice_attrs fuel d :
  preserves attrs_of (_handle_user_choice urlparse_str nav fuel d).
Proof.
  unfold _handle_user_choice. frame. apply handle_user_choice_loop_attrs.
Qed.

Lemma navigate_body_attrs fuel s r h p :
  preserves attrs_of (navigate_body decode urlparse_str nav fuel s r h p).
Proof.
  unfold navigate_body, navigate_dispatch, get_backward. frame;
    first [apply display_gopher_menu_attrs | apply handle_user_choice_attrs].
Qed.

Lemma connect_to_server_attrs : preserves attrs_of (connect_to_server nav).
Proof. unfold connect_to_server. frame. Qed.

Lemma search_attrs q e : preserves attrs_of (search decode nav q e).
Proof.
  unfold search. frame.
  match goal with |- preserves _ (_ ?l) => induction l end; frame.
Qed.

Lemma search_gopherspace_attrs :
  preserves attrs_of (search_gopherspace decode nav).
Proof.
  unfold search_gopherspace. frame.
  - apply collect_attrs. intros; frame.
  - apply search_attrs.
Qed.

Lemma navigate_to_bookmark_attrs :
  preserves attrs_of (navigate_to_bookmark nav).
Proof. unfold navigate_to_bookmark, get_bookmarks. frame. Qed.

Lemma visit_bookmark_attrs i : preserves attrs_of (visit_bookmark nav i).
Proof. unfold visit_bookmark, get_bookmarks. frame. Qed.

End WithNavigate.

Lemma navigate_attrs fuel s r h p :
  preserves attrs_of (navigate decode urlparse_str fuel s r h p).
Proof.
  revert s r h p. induction fuel as [|fuel IH]; intros; cbn [navigate].
  - frame.
  - unfold navigate_prologue, get_backward. frame.
    apply navigate_body_attrs. exact IH.
Qed.

(** Choosing the frame lemma by the head of the operation. *)
Ltac attrs_of_operation :=
  lazymatch goal with
  | |- preserves _ (run _ _ _) => fail
  | |- preserves _ (connect_to_server _) => apply connect_to_server_attrs
  | |- preserves _ (search_gopherspace _ _) => apply search_gopherspace_attrs
  | |- preserves _ (search _ _ _ _) => apply search_attrs
  | |- preserves _ (navigate_to_bookmark _) => apply navigate_to_bookmark_attrs
  | |- preserves _ (navigate _ _ _ _ _ _ _) => apply navigate_attrs
  | |- preserves _ list_search_engines => apply list_search_engines_attrs
  | |- preserves _ list_bookmarks => apply list_bookmarks_attrs
  | |- preserves _ (load_bookmarks ≫= _) =>
      apply preserves_bind; [apply load_bookmarks_attrs | intros; frame]
  | |- preserves _ (load_search_engines ≫= _) =>
      apply preserves_bind; [apply load_search_engines_attrs | intros; frame]
  | |- preserves _ (save_bookmark _ _) => apply save_bookmark_attrs
  | |- preserves _ (delete_bookmark _) => apply delete_bookmark_attrs
  | |- preserves _ (modify_bookmark _ _ _) => apply modify_bookmark_attrs
  | |- preserves _ (visit_bookmark _ _) => apply visit_bookmark_attrs
  | |- preserves _ save_config => apply save_config_attrs
  | |- preserves _ load_config => apply load_config_attrs
  | |- preserves _ quit_client => apply quit_client_attrs
  | |- preserves _ display_help => apply display_help_attrs
  | |- preserves _ toggle_debug_mode => apply toggle_debug_mode_attrs
  | |- preserves _ (connect _ _) => apply connect_attrs
  | |- preserves _ (print _ _) => apply print_attrs
  end;
  try (intros; apply navigate_attrs).

Lemma run_attrs fuel : preserves attrs_of (run decode urlparse_str fuel).
Proof.
  induction fuel as [|fuel IH]; cbn [run]; [frame|].
  apply preserves_bind; [apply print_attrs | intros _].
  apply preserves_bind;
    [apply for_each_attrs; intros; apply print_attrs | intros _].
  apply preserves_bind; [apply input_attrs | intros line].
  apply preserves_bind; [| intros _; exact IH].
  unfold action.
  repeat match goal with
         | |- preserves _ (match (if ?b then _ else _) with _ => _ end) =>
             destruct b
         end; attrs_of_operation.
Qed.

(** [go_forward] starts by reading [self.history_index]: without that
    attribute it raises at once and changes nothing. *)
Lemma go_forward_without_index (nav : navigate_t) (st : State) :
  attrs_of st !! "history_index" = None ->
  go_forward nav st = (Raise AttributeError, st).
Proof.
  unfold attrs_of. intros H.
  unfold go_forward. unfold mbind at 1. unfold M_bind, bind.
  unfold getattr, instance_dict. munfold. cbn.
  rewrite !lookup_insert_ne by discriminate. rewrite H. reflexivity.
Qed.

(** Every operation but [go_forward] leaves the attributes alone, and
    [go_forward] on a client without [history_index] does so too. *)
Lemma perform_attrs (fuel : nat) (op : operation) (st : State) :
  attrs_of st = ∅ ->
  attrs_of (perform decode urlparse_str fuel op st).2 = ∅.
Proof.
  intros Hinv. destruct op; cbn [perform];
    try (apply preserves_inv; [| exact Hinv];
         first [apply run_attrs | attrs_of_operation]).
  rewrite go_forward_without_index; [exact Hinv|].
  rewrite Hinv. reflexivity.
Qed.

Lemma init_attrs h p t d w shared :
  attrs_of (__init__ h p t d w shared).2 = ∅.
Proof.
  unfold __init__.
  match goal with |- attrs_of (?m ?s).2 = _ =>
    assert (Hm : preserves attrs_of m); [| rewrite Hm; reflexivity] end.
  unfold load_bookmarks, load_search_engines. frame.
Qed.

(** No reachable client has any attribute beyond those of [__init__]. *)
Lemma reachable_attrs (st : State) :
  reachable decode urlparse_str st -> attrs_of st = ∅.
Proof.
  induction 1 as [h p t d w shared | fuel op st _ IH | st w _ IH].
  - apply init_attrs.
  - apply perform_attrs. exact IH.
  - exact IH.
Qed.

(** C10.  On every client that is reachable through its operations,
    [go_forward] raises [AttributeError] at its first step, the read of
    [self.history_index], and leaves the state as it found it. *)
Theorem go_forward_always_raises (fuel : nat) (st : State) :
  reachable decode urlparse_str st ->
  perform decode urlparse_str fuel Go_forward st = (Raise AttributeError, st).
Proof.
  intros Hreach. cbn [perform]. apply go_forward_without_index.
  rewrite (reachable_attrs st Hreach). reflexivity.
Qed.

End WithLibraries.

(** A new client, after its debug mode was toggled. *)
Lemma go_forward_always_raises_witness :
  let st := (toggle_debug_mode (client_in (quiet_world [] []))).2 in
  perform decode_ascii urlparse_unused 3 Go_forward st
  = (Raise AttributeError, st).
Proof.
  intros st. apply go_forward_always_raises.
  apply (reachable_perform decode_ascii urlparse_unused 0 Toggle_debug_mode).
  apply (reachable_init decode_ascii urlparse_unused (VStr "1436.ninja")
           (VInt 70) 10 false (quiet_world [] []) (VList [])).
Defined.

End ForwardFacts.

(** ** Running a computation step by step *)

Lemma bind_ret_step {A B : Type} (m : M A) (k : A -> M B) (st s1 : State)
    (a : A) :
  m st = (Ret a, s1) -> (m ≫= k) st = k a s1.
Proof. intros H. unfold mbind, M_bind, bind. rewrite H. reflexivity. Qed.

Lemma bind_raise_step {A B : Type} (m : M A) (k : A -> M B) (st s1 : State)
    (e : exn) :
  m st = (Raise e, s1) -> (m ≫= k) st = (Raise e, s1).
Proof. intros H. unfold mbind, M_bind, bind. rewrite H. reflexivity. Qed.

Lemma bind_ret_inv {A B : Type} (m : M A) (k : A -> M B) (st s2 : State)
    (b : B) :
  (m ≫= k) st = (Ret b, s2) ->
  exists a s1, m st = (Ret a, s1) /\ k a s1 = (Ret b, s2).
Proof.
  unfold mbind, M_bind, bind.
  destruct (m st) as [[a | e |] s1]; try discriminate.
  intros H. exists a, s1. split; [reflexivity | exact H].
Qed.

(** ** More on the history manager *)

Module HistoryLaws.

Import History ClientFrames.

Lemma next_fault_hm : preserves hm_of next_fault.
Proof. unfold next_fault. frame. Qed.
Lemma put_file_hm n r : preserves hm_of (put_file n r).
Proof. unfold put_file. frame. Qed.
#[export] Hint Resolve next_fault_hm put_file_hm : frame.

Lemma write_json_hm n d : preserves hm_of (write_json n d).
Proof. unfold write_json. frame. Qed.
#[export] Hint Resolve write_json_hm : frame.

Lemma debug_history_hm : preserves hm_of _debug_history.
Proof. unfold _debug_history, get_backward, get_forward. frame. Qed.
Lemma save_history_hm : preserves hm_of _save_history.
Proof. unfold _save_history, get_backward, get_forward. frame. Qed.
#[export] Hint Resolve debug_history_hm save_history_hm : frame.

Lemma with_history_self (bw fw : list pyval) (st : State) :
  backward_history (hm_of st) = VList bw ->
  forward_history (hm_of st) = VList fw ->
  with_history bw fw st = st.
Proof.
  destruct st as [c w d]. destruct c as [? ? ? ? ? ? ? [b f mx hf] ? ? ? ?].
  cbn. intros -> ->. reflexivity.
Qed.

(** One call of [add_page] on any state whose lists are known. *)
Lemma add_page_step (bw fw : list pyval) (page : pyval) (st : State) :
  (0 < max_history (hm_of st))%Z ->
  (add_page page (with_history bw fw st)).1 = Ret tt
  /\ hm_of (add_page page (with_history bw fw st)).2
     = mk_hm (VList (pushed (max_history (hm_of st)) bw page))
         (VList (match last bw with
                 | Some top => if py_eqb top page then fw else []
                 | None => []
                 end))
         (max_history (hm_of st)) (history_file (hm_of st)).
Proof.
  intros Hmx. unfold hm_of in *.
  destruct st as [c w]. destruct c as [? ? ? ? ? ? ? [b f mx hf] ? ? ? ?].
  cbn in Hmx.
  unfold add_page, _debug_history, print, emit, get_backward, get_forward,
    put_backward, put_forward, pushed.
  munfold. cbn.
  destruct bw as [|x bw' _] using rev_ind.
  - cbn. destruct (Z.of_nat 0 =? mx)%Z eqn:E;
      [apply Z.eqb_eq in E; cbn in E; lia|].
    cbn. split; reflexivity.
  - rewrite length_app, last_snoc, Nat.add_1_r. cbn.
    destruct (py_eqb x page); cbn; [split; reflexivity|].
    destruct (Z.of_nat (S (length bw')) =? mx)%Z; cbn.
    + destruct bw' as [|y bw'']; cbn; split; reflexivity.
    + split; reflexivity.
Qed.

(** X1.  Pages added with [add_page] never make the backward list longer
    than [max_history]: starting from a list within the limit, any number
    of calls ends normally and leaves a list within the limit. *)
Theorem add_pages_within_limit (pages bw fw : list pyval) (st : State) :
  (0 < max_history (hm_of st))%Z ->
  (Z.of_nat (length bw) <= max_history (hm_of st))%Z ->
  (add_pages pages (with_history bw fw st)).1 = Ret tt
  /\ exists bw',
       backward_history (hm_of (add_pages pages (with_history bw fw st)).2)
       = VList bw'
       /\ (Z.of_nat (length bw') <= max_history (hm_of st))%Z.
Proof.
  intros Hmx. revert bw fw st Hmx.
  induction pages as [|page pages IH]; intros bw fw st Hmx Hlen.
  - split; [reflexivity|]. exists bw. split; [reflexivity | exact Hlen].
  - change (add_pages (page :: pages))
      with (bind (add_page page) (fun _ => add_pages pages)).
    unfold bind.
    destruct (add_page_step bw fw page st Hmx) as [Hr Hh].
    destruct (add_page page (with_history bw fw st)) as [r st1].
    cbn in Hr, Hh. subst r.
    assert (Hmx1 : max_history (hm_of st1) = max_history (hm_of st))
      by (rewrite Hh; reflexivity).
    rewrite <- (with_history_self
                  (pushed (max_history (hm_of st)) bw page)
                  (match last bw with
                   | Some top => if py_eqb top page then fw else []
                   | None => []
                   end) st1) by (rewrite Hh; reflexivity).
    rewrite <- Hmx1.
    apply IH; rewrite Hmx1; [exact Hmx|].
    apply HistoryFacts.pushed_bounded; assumption.
Qed.

Lemma add_pages_within_limit_witness :
  let st := Scenarios.client_in (Scenarios.quiet_world [] []) in
  let pages := map (fun n => Scenarios.address "h" n) [1; 2; 3; 4; 5; 6; 7]%Z in
  (add_pages pages (with_history [] [] st)).1 = Ret tt
  /\ exists bw',
       backward_history (hm_of (add_pages pages (with_history [] [] st)).2)
       = VList bw'
       /\ (Z.of_nat (length bw') <= max_history (hm_of st))%Z.
Proof.
  intros st pages. apply (add_pages_within_limit pages [] [] st).
  - vm_compute. reflexivity.
  - vm_compute. discriminate.
Defined.

(** X2.  [add_page] of the page that is already on top changes neither
    list: the forward history survives. *)
Theorem add_page_same_top (bw fw : list pyval) (top page : pyval) (st : State) :
  py_eqb top page = true ->
  (add_page page (with_history (bw ++ [top]) fw st)).1 = Ret tt
  /\ hm_of (add_page page (with_history (bw ++ [top]) fw st)).2
     = hm_of (with_history (bw ++ [top]) fw st).
Proof.
  intros Heq. unfold hm_of in *.
  destruct st as [c w]. destruct c as [? ? ? ? ? ? ? [b f mx hf] ? ? ? ?].
  unfold add_page, _debug_history, print, emit, get_backward, get_forward,
    put_backward, put_forward.
  munfold. cbn.
  rewrite length_app, last_snoc, Nat.add_1_r. cbn.
  rewrite Heq. cbn. split; reflexivity.
Qed.

Lemma add_page_same_top_witness :
  let st := Scenarios.client_in (Scenarios.quiet_world [] []) in
  let a := Scenarios.address "h" 1%Z in
  let b := Scenarios.address "h" 2%Z in
  (add_page a (with_history [b; a] [b] st)).1 = Ret tt
  /\ hm_of (add_page a (with_history [b; a] [b] st)).2
     = hm_of (with_history [b; a] [b] st).
Proof.
  intros st a b. apply (add_page_same_top [b] [b] a a st).
  vm_compute. reflexivity.
Defined.

(** X3.  [add_page] of a page that differs from the top of the backward
    list, or of any page when that list is empty and [max_history] is not
    0, ends normally, puts the page on top and empties the forward
    history. *)
Theorem add_page_new_page (bw fw : list pyval) (page : pyval) (st : State) :
  (bw = [] -> max_history (hm_of st) <> 0%Z) ->
  (forall top, last bw = Some top -> py_eqb top page = false) ->
  (add_page page (with_history bw fw st)).1 = Ret tt
  /\ forward_history (hm_of (add_page page (with_history bw fw st)).2)
     = VList []
  /\ exists bw',
       backward_history (hm_of (add_page page (with_history bw fw st)).2)
       = VList bw'
       /\ last bw' = Some page.
Proof.
  intros Hmx Hne. unfold hm_of in *.
  destruct st as [c w]. destruct c as [? ? ? ? ? ? ? [b f mx hf] ? ? ? ?].
  cbn in Hmx.
  unfold add_page, _debug_history, print, emit, get_backward, get_forward,
    put_backward, put_forward.
  munfold. cbn.
  destruct bw as [|x bw' _] using rev_ind.
  - cbn. destruct (Z.eqb_spec (Z.of_nat 0) mx) as [E|E];
      [exfalso; apply Hmx; [reflexivity | symmetry; exact E]|].
    cbn. split; [reflexivity|]. split; [reflexivity|].
    exists [page]. split; reflexivity.
  - rewrite length_app, last_snoc, Nat.add_1_r in *. cbn.
    rewrite (Hne x eq_refl). cbn.
    destruct (Z.of_nat (S (length bw')) =? mx)%Z; cbn.
    + destruct bw' as [|y bw'']; cbn;
        (split; [reflexivity|]; split; [reflexivity|];
         eexists; split; [reflexivity|]);
        [reflexivity | apply last_snoc].
    + split; [reflexivity|]. split; [reflexivity|].
      eexists. split; [reflexivity|]. apply last_snoc.
Qed.

Lemma add_page_new_page_witness :
  let st := Scenarios.client_in (Scenarios.quiet_world [] []) in
  let a := Scenarios.address "h" 1%Z in
  let b := Scenarios.address "h" 2%Z in
  (add_page b (with_history [a] [b] st)).1 = Ret tt
  /\ forward_history (hm_of (add_page b (with_history [a] [b] st)).2)
     = VList []
  /\ exists bw',
       backward_history (hm_of (add_page b (with_history [a] [b] st)).2)
       = VList bw'
       /\ last bw' = Some b.
Proof.
  intros st a b. apply (add_page_new_page [a] [b] b st).
  - discriminate.
  - intros top [= <-]. vm_compute. reflexivity.
Defined.

(** X4.  The limit is tested with [==]: a backward list that is already
    longer than [max_history] (as [record] can leave it) only grows under
    [add_page]; nothing is evicted. *)
Theorem add_page_over_limit_grows (bw fw : list pyval) (top page : pyval)
    (st : State) :
  (max_history (hm_of st) < Z.of_nat (length (bw ++ [top])))%Z ->
  py_eqb top page = false ->
  (add_page page (with_history (bw ++ [top]) fw st)).1 = Ret tt
  /\ backward_history (hm_of (add_page page (with_history (bw ++ [top]) fw st)).2)
     = VList (bw ++ [top; page]).
Proof.
  intros Hlen Hne. unfold hm_of in *.
  destruct st as [c w]. destruct c as [? ? ? ? ? ? ? [b f mx hf] ? ? ? ?].
  cbn in Hlen.
  unfold add_page, _debug_history, print, emit, get_backward, get_forward,
    put_backward, put_forward.
  munfold. cbn.
  rewrite length_app in *. rewrite last_snoc, Nat.add_1_r in *. cbn [length] in *.
  cbn. rewrite Hne. cbn.
  destruct (Z.eqb_spec (Z.of_nat (S (length bw))) mx) as [E|E]; [lia|].
  cbn. rewrite <- app_assoc. split; reflexivity.
Qed.

Lemma add_page_over_limit_grows_witness :
  let st := Scenarios.client_in (Scenarios.quiet_world [] []) in
  let p := fun n => Scenarios.address "h" n in
  let six := map p [1; 2; 3; 4; 5]%Z in
  (add_page (p 7%Z) (with_history (six ++ [p 6%Z]) [] st)).1 = Ret tt
  /\ backward_history
       (hm_of (add_page (p 7%Z) (with_history (six ++ [p 6%Z]) [] st)).2)
     = VList (six ++ [p 6%Z; p 7%Z]).
Proof.
  intros st p six. apply (add_page_over_limit_grows six [] (p 6%Z) (p 7%Z) st).
  - vm_compute. reflexivity.
  - vm_compute. reflexivity.
Defined.

(** X5.  After [go_back] has moved the top to the forward list (and
    raised), the manager's [go_forward] moves it back: both lists are as
    before, whether or not saving the history file works. *)
Theorem go_back_go_forward_restores (bw fw : list pyval) (x : pyval)
    (st : State) :
  hm_of (go_forward (go_back (with_history (bw ++ [x]) fw st)).2).2
  = hm_of (with_history (bw ++ [x]) fw st).
Proof.
  rewrite (HistoryFacts.go_back_pops_then_raises bw fw x) by reflexivity.
  cbn [snd].
  set (st1 := with_history (bw ++ [x]) fw st).
  assert (Hpre : forall s, hm_of s = hm_of st1 ->
            hm_of ((_save_history ;; _debug_history ;; ret x) s).2 = hm_of st1).
  { intros s Hs. apply preserves_inv; [frame | exact Hs]. }
  unfold go_forward, get_backward, get_forward, put_backward, put_forward.
  unfold mbind at 1 2 3 4 5 6. unfold M_bind, bind, gets, modify, lift.
  cbn -[_save_history _debug_history mbind].
  rewrite length_app, last_snoc, removelast_last, Nat.add_1_r.
  cbn -[_save_history _debug_history mbind].
  apply Hpre. reflexivity.
Qed.

End HistoryLaws.

(** ** Host names, addresses and menu lines *)

Module TextLaws.

Import Client.

#[local] Arguments append _ _ : simpl nomatch.

Lemma list_ascii_app (s1 s2 : string) :
  list_ascii_of_string (s1 +:+ s2)
  = list_ascii_of_string s1 ++ list_ascii_of_string s2.
Proof. induction s1 as [|c s1 IH]; cbn; [reflexivity | now rewrite IH]. Qed.

Lemma length_list_ascii (s : string) :
  length (list_ascii_of_string s) = String.length s.
Proof. induction s as [|c s IH]; cbn; [reflexivity | now rewrite IH]. Qed.

Lemma string_length_app (s1 s2 : string) :
  String.length (s1 +:+ s2) = String.length s1 + String.length s2.
Proof. induction s1 as [|c s1 IH]; cbn; [reflexivity | now rewrite IH]. Qed.

Lemma alnum_not_dot (c : ascii) :
  isalnum_char c = true -> Ascii.eqb c "." = false /\ Ascii.eqb c "-" = false.
Proof.
  destruct c as [[] [] [] [] [] [] [] []]; vm_compute; intros H;
    first [discriminate H | split; reflexivity].
Qed.

(** The test of one label never fails: the length test comes first, so
    [label[-1]] and [label[0]] are not evaluated on an empty label. *)
Lemma refused_label_spec (label : string) :
  refused_label label
  = Ret (negb ((1 <=? String.length label)%nat
               && (String.length label <=? 63)%nat
               && match label with
                  | String a _ => isalnum_char a
                  | EmptyString => false
                  end
               && match last (list_ascii_of_string label) with
                  | Some b => isalnum_char b
                  | None => false
                  end)).
Proof.
  unfold refused_label.
  destruct label as [|a rest]; [reflexivity|].
  destruct ((1 <=? String.length (String a rest))%nat
            && (String.length (String a rest) <=? 63)%nat); [|reflexivity].
  cbn [negb andb].
  destruct (last (list_ascii_of_string (String a rest))) as [b|] eqn:E.
  - destruct (isalnum_char b) eqn:Hb; cbn [negb andb]; [|now rewrite andb_false_r].
    destruct (isalnum_char a) eqn:Ha; cbn [negb orb andb]; [|reflexivity].
    destruct (alnum_not_dot a Ha) as [_ ->].
    destruct (alnum_not_dot b Hb) as [_ ->]. reflexivity.
  - apply last_None in E. discriminate E.
Qed.

Lemma labels_valid_spec (labels : list string) :
  labels_valid labels
  = Ret (forallb (fun label =>
           (1 <=? String.length label)%nat
           && (String.length label <=? 63)%nat
           && match label with
              | String a _ => isalnum_char a
              | EmptyString => false
              end
           && match last (list_ascii_of_string label) with
              | Some b => isalnum_char b
              | None => false
              end) labels).
Proof.
  induction labels as [|label labels IH]; [reflexivity|].
  cbn [labels_valid forallb]. rewrite refused_label_spec.
  match goal with |- context [negb ?b] => destruct b end; cbn [negb andb].
  - exact IH.
  - reflexivity.
Qed.

(** X6.  [valid_hostname] never raises: it answers [True] or [False] for
    every string, and it answers [True] exactly for the names of 2 to 252
    characters all of whose dot-separated labels have 1 to 63 characters
    and begin and end with an alphanumeric character.  Nothing between the
    first and the last character of a label is examined, and the two tests
    for hyphens never decide anything. *)
Theorem valid_hostname_spec (hostname : string) :
  valid_hostname hostname
  = Ret ((1 <? String.length hostname)%nat
         && (String.length hostname <? 253)%nat
         && forallb (fun label =>
              (1 <=? String.length label)%nat
              && (String.length label <=? 63)%nat
              && match label with
                 | String a _ => isalnum_char a
                 | EmptyString => false
                 end
              && match last (list_ascii_of_string label) with
                 | Some b => isalnum_char b
                 | None => false
                 end) (split "." hostname)).
Proof.
  unfold valid_hostname.
  destruct ((1 <? String.length hostname)%nat
            && (String.length hostname <? 253)%nat); cbn [negb andb].
  - apply labels_valid_spec.
  - reflexivity.
Qed.

Lemma split_no_sep (sep : ascii) (s : string) :
  count sep s = 0 -> split sep s = [s].
Proof.
  induction s as [|c s IH]; cbn; [reflexivity|].
  destruct (Ascii.eqb c sep); [discriminate|]. cbn.
  intros H. rewrite (IH H). reflexivity.
Qed.

(** X7.  A name of one label whose first and last characters are
    alphanumeric is accepted whatever stands between them: spaces, slashes
    and underscores included. *)
Theorem valid_hostname_ignores_interior (a b : ascii) (mid : string) :
  isalnum_char a = true -> isalnum_char b = true ->
  count "." mid = 0 -> String.length mid <= 61 ->
  valid_hostname (String a (mid +:+ String b EmptyString)) = Ret true.
Proof.
  intros Ha Hb Hdot Hlen.
  assert (Hl : String.length (String a (mid +:+ String b EmptyString))
               = S (S (String.length mid))).
  { change (String.length (String a (mid +:+ String b EmptyString)))
      with (S (String.length (mid +:+ String b EmptyString))).
    rewrite string_length_app. cbn. lia. }
  unfold valid_hostname. rewrite Hl.
  destruct (Nat.ltb_spec 1 (S (S (String.length mid)))); [|lia].
  destruct (Nat.ltb_spec (S (S (String.length mid))) 253); [|lia].
  cbn [andb negb].
  rewrite labels_valid_spec, split_no_sep.
  - cbn [forallb]. rewrite Hl, Ha.
    change (list_ascii_of_string (String a (mid +:+ String b EmptyString)))
      with (a :: list_ascii_of_string (mid +:+ String b EmptyString)).
    rewrite list_ascii_app. cbn [list_ascii_of_string].
    rewrite app_comm_cons, last_snoc, Hb.
    repeat match goal with
           | |- context [(?x <? ?y)%nat] =>
               destruct (Nat.ltb_spec x y); [|lia]
           | |- context [(?x <=? ?y)%nat] =>
               destruct (Nat.leb_spec x y); [|lia]
           end.
    reflexivity.
  - cbn. destruct (alnum_not_dot a Ha) as [-> _]. cbn.
    clear -Hdot Hb. induction mid as [|c mid IH]; cbn in *.
    + destruct (alnum_not_dot b Hb) as [-> _]. reflexivity.
    + destruct (Ascii.eqb c "."); [discriminate|]. cbn in *. exact (IH Hdot).
Qed.

Lemma valid_hostname_ignores_interior_witness :
  valid_hostname "a b/_c" = Ret true.
Proof.
  apply (valid_hostname_ignores_interior "a" "c" " b/_");
    [reflexivity | reflexivity | reflexivity | cbn; lia].
Defined.

(** *** Addresses *)

Lemma strip_prefix_app (p s : string) : strip_prefix p (p +:+ s) = Some s.
Proof.
  induction p as [|c p IH]; cbn; [destruct s; reflexivity|].
  rewrite Ascii.eqb_refl. exact IH.
Qed.

Lemma split1_at (sep : ascii) (s t : string) :
  count sep s = 0 ->
  split1 sep (s +:+ String sep t) = (s, Some t).
Proof.
  induction s as [|c s IH]; cbn.
  - rewrite Ascii.eqb_refl. reflexivity.
  - destruct (Ascii.eqb c sep); [discriminate|]. cbn.
    intros H. rewrite (IH H). reflexivity.
Qed.

Lemma split1_none (sep : ascii) (s : string) :
  count sep s = 0 -> split1 sep s = (s, None).
Proof.
  induction s as [|c s IH]; cbn; [reflexivity|].
  destruct (Ascii.eqb c sep); [discriminate|]. cbn.
  intros H. rewrite (IH H). reflexivity.
Qed.

Lemma count_app (c : ascii) (s t : string) :
  count c (s +:+ t) = count c s + count c t.
Proof. induction s as [|a s IH]; cbn; [reflexivity | rewrite IH; lia]. Qed.

(** X8.  [_split_address] takes an address [gopher://server:port/selector]
    apart into its three parts; without a port the port is ["70"], and the
    selector may itself contain slashes and colons. *)
Theorem split_address_parts (server port_ selector : string) :
  count ":" server = 0 -> count "/" server = 0 -> count "/" port_ = 0 ->
  _split_address
    (VStr ("gopher://" +:+ server +:+ ":" +:+ port_ +:+ "/" +:+ selector))
  = Ret (server, port_, selector)
  /\ _split_address (VStr ("gopher://" +:+ server +:+ "/" +:+ selector))
     = Ret (server, "70", selector)
  /\ _split_address (VStr ("gopher://" +:+ server))
     = Ret (server, "70", "").
Proof.
  intros Hc Hs Hp. unfold _split_address. repeat split.
  - rewrite strip_prefix_app.
    change (server +:+ ":" +:+ port_ +:+ "/" +:+ selector)
      with (server +:+ String ":" (port_ +:+ String "/" selector)).
    replace (server +:+ String ":" (port_ +:+ String "/" selector))
      with ((server +:+ String ":" port_) +:+ String "/" selector).
    2:{ clear. induction server as [|c s IH]; cbn; [reflexivity|].
        now rewrite IH. }
    rewrite split1_at by (rewrite count_app; cbn; lia).
    unfold contains. rewrite count_app. cbn.
    rewrite Hc. cbn.
    change (server +:+ String ":" port_) with (server +:+ String ":" port_).
    rewrite split1_at by exact Hc. reflexivity.
  - rewrite strip_prefix_app.
    change (server +:+ "/" +:+ selector) with (server +:+ String "/" selector).
    rewrite split1_at by exact Hs.
    unfold contains. rewrite Hc. reflexivity.
  - rewrite strip_prefix_app. rewrite split1_none by exact Hs.
    unfold contains. rewrite Hc. reflexivity.
Qed.

Lemma split_address_parts_witness :
  _split_address (VStr "gopher://gopher.floodgap.com:7070/1/world:news")
  = Ret ("gopher.floodgap.com", "7070", "1/world:news")
  /\ _split_address (VStr "gopher://gopher.floodgap.com/1/world:news")
     = Ret ("gopher.floodgap.com", "70", "1/world:news")
  /\ _split_address (VStr "gopher://gopher.floodgap.com")
     = Ret ("gopher.floodgap.com", "70", "").
Proof.
  apply (split_address_parts "gopher.floodgap.com" "7070" "1/world:news");
    reflexivity.
Defined.

(** *** Menu lines *)

Lemma split_head_empty (sep : ascii) (s : string) :
  (exists t, split sep s = EmptyString :: t)
  <-> s = EmptyString \/ exists rest, s = String sep rest.
Proof.
  destruct s as [|c s]; cbn.
  - split; [intros _; left; reflexivity | intros _; eexists; reflexivity].
  - destruct (Ascii.eqb_spec c sep) as [->|Hne].
    + split; [intros _; right; eexists; reflexivity
             | intros _; eexists; reflexivity].
    + split.
      * intros [t Ht]. destruct (split sep s); discriminate Ht.
      * intros [H | [rest [= H _]]]; [discriminate H | contradiction].
Qed.

(** X9.  When no line with three tabs or more begins with a tab, the menu
    parser returns, and it returns exactly one entry for each line that the
    heuristic of [_display_gopher_menu] counts as a menu line. *)
Theorem parse_lines_counts (lines : list string) (entries : list entry) :
  Forall (fun line => 3 <= count TAB line ->
                      exists c rest, line = String c rest /\ c <> TAB) lines ->
  exists es, parse_lines lines entries = Ret es
             /\ length es = length entries + menu_line_count lines.
Proof.
  intros H. revert entries.
  induction H as [|line lines Hline _ IH]; intros entries.
  - exists entries. split; [reflexivity|]. cbn. lia.
  - unfold menu_line_count in *. rewrite filter_cons.
    cbn [parse_lines].
    pose proof (MenuFacts.length_split TAB line) as Hlen.
    destruct (decide (3 <= count TAB line)) as [Hge|Hlt].
    + destruct (Nat.leb_spec 4 (length (split TAB line))); [|lia].
      destruct (Hline Hge) as (c & rest & -> & Hc).
      destruct (split TAB (String c rest)) as [|p0 [|p1 [|p2 [|p3 more]]]] eqn:E;
        cbn [length] in *; try lia.
      destruct p0 as [|t label].
      * exfalso.
        destruct (proj1 (split_head_empty TAB (String c rest)))
          as [Hn | [r [= Hr _]]]; [eexists; exact E | discriminate Hn |].
        contradiction.
      * destruct (IH (entries ++ [(String t EmptyString, label, p1, p2, p3)]))
          as (es & Hes & Hl).
        exists es. split; [exact Hes|].
        rewrite Hl, length_app. cbn. lia.
    + destruct (Nat.leb_spec 4 (length (split TAB line))); [lia|].
      exact (IH entries).
Qed.

Lemma parse_lines_counts_witness :
  let lines := ["1A" +:+ String TAB ("/a" +:+ String TAB ("h" +:+ String TAB "70"));
                "plain text"] in
  exists es, parse_lines lines [] = Ret es
             /\ length es = 0 + menu_line_count lines.
Proof.
  intros lines. apply (parse_lines_counts lines []).
  repeat constructor; intros _; do 2 eexists;
    (split; [reflexivity | discriminate]).
Defined.

(** X10.  One line with three tabs or more that begins with a tab makes the
    parser raise [IndexError], wherever it stands in the response: the
    entries of the lines before it are lost with it. *)
Theorem parse_lines_raises (lines : list string) (entries : list entry) :
  Exists (fun line => 3 <= count TAB line
                      /\ exists rest, line = String TAB rest) lines ->
  parse_lines lines entries = Raise IndexError.
Proof.
  intros H. revert entries.
  induction H as [line lines [Hge [rest ->]] | line lines _ IH]; intros entries.
  - cbn [parse_lines].
    pose proof (MenuFacts.length_split TAB (String TAB rest)) as Hlen.
    destruct (Nat.leb_spec 4 (length (split TAB (String TAB rest)))); [|lia].
    cbn [split] in *. rewrite Ascii.eqb_refl in *.
    destruct (split TAB rest) as [|p1 [|p2 [|p3 more]]];
      cbn [length] in *; try lia.
    reflexivity.
  - cbn [parse_lines].
    destruct (4 <=? length (split TAB line))%nat; [|apply IH].
    destruct (split TAB line) as [|p0 [|p1 [|p2 [|p3 more]]]]; try apply IH.
    destruct p0; [reflexivity | apply IH].
Qed.

Lemma parse_lines_raises_witness :
  parse_lines ["plain text"; Scenarios.no_type_line; "more text"] []
  = Raise IndexError.
Proof.
  apply (parse_lines_raises
           ["plain text"; Scenarios.no_type_line; "more text"] []).
  apply Exists_cons_tl, Exists_cons_hd.
  split; [vm_compute; lia | eexists; reflexivity].
Defined.

End TextLaws.

(** ** Loading, saving and the main loop *)

Module ConfigLaws.

Import History Client Scenarios PersistenceFacts.

#[local] Arguments log : simpl never.
#[local] Arguments log_events : simpl never.

(** What [_load_from_file] comes to: a value and a state that differs
    from the one before in the world only. *)
Lemma load_from_file_outcome (filename : string) (st : State) :
  exists r w',
    _load_from_file filename st
    = (Ret r, mk_state (self st) w' (default_value st))
    /\ fs w' = fs (world st)
    /\ stdin w' = stdin (world st)
    /\ (r = Shared
        \/ exists doc, fs (world st) !! filename = Some (JsonDoc doc)
                       /\ r = Own doc).
Proof.
  destruct st as [c [keys peers files faults tr] shared].
  unfold _load_from_file, read_json, path_exists, next_fault, try_except, emit.
  munfold. cbn.
  destruct (files !! filename) as [[doc|raw]|] eqn:E; cbn;
    [| |do 2 eexists; split; [reflexivity|]; repeat split; left; reflexivity];
    destruct faults as [|[|r] faults']; cbn; rewrite ?E; cbn;
    rewrite ?log_eq; cbn;
    (do 2 eexists; split; [reflexivity|]); repeat split;
    first [left; reflexivity | right; exists doc; split; reflexivity].
Qed.

(** X11.  [_load_from_file] always returns, and it changes neither the
    client nor any file.  It returns the document only when the file holds
    one; in every other case (no file, a failing read, text that is not
    JSON) it returns the shared default list. *)
Theorem load_from_file_returns (filename : string) (st : State) :
  self (_load_from_file filename st).2 = self st
  /\ default_value (_load_from_file filename st).2 = default_value st
  /\ fs (world (_load_from_file filename st).2) = fs (world st)
  /\ stdin (world (_load_from_file filename st).2) = stdin (world st)
  /\ ((_load_from_file filename st).1 = Ret Shared
      \/ exists doc, fs (world st) !! filename = Some (JsonDoc doc)
                     /\ (_load_from_file filename st).1 = Ret (Own doc)).
Proof.
  destruct (load_from_file_outcome filename st)
    as (r & w' & -> & Hf & Hi & Hr).
  cbn [fst snd self default_value world]. repeat split; try assumption.
  destruct Hr as [-> | (doc & Hdoc & ->)]; [left; reflexivity|].
  right. exists doc. split; [exact Hdoc | reflexivity].
Qed.

Lemma init_state (h p : pyval) (t : Z) (d : bool) (w : World)
    (shared : pyval) :
  exists b e w',
    __init__ h p t d w shared
    = (Ret tt,
       mk_state
         (mk_client h p t d None b e (History.__init__ (Some HISTORY_FILE))
            false (if d then DEBUG else WARNING) None ∅) w' shared)
    /\ fs w' = fs w /\ stdin w' = stdin w.
Proof.
  unfold __init__, load_bookmarks, load_search_engines.
  set (s0 := mk_state _ w shared).
  destruct (load_from_file_outcome BOOKMARKS_FILE s0)
    as (b & w1 & E1 & Hf1 & Hi1 & _).
  erewrite bind_ret_step by exact E1.
  erewrite bind_ret_step by reflexivity.
  match goal with
  | |- context [(_load_from_file SEARCH_ENGINES_FILE ≫= _) ?s] =>
      destruct (load_from_file_outcome SEARCH_ENGINES_FILE s)
        as (e & w2 & E2 & Hf2 & Hi2 & _)
  end.
  erewrite bind_ret_step by exact E2.
  exists b, e, w2. subst s0. cbn in *. repeat split; congruence.
Qed.

(** X12.  Constructing a client never fails, whatever the two files hold
    and whether or not they can be read: the client starts with the given
    host and port and an empty history bound to the history file, and no
    file is changed. *)
Theorem init_never_fails (h p : pyval) (t : Z) (d : bool) (w : World)
    (shared : pyval) :
  (__init__ h p t d w shared).1 = Ret tt
  /\ hm_of (__init__ h p t d w shared).2 = History.__init__ (Some HISTORY_FILE)
  /\ host (self (__init__ h p t d w shared).2) = h
  /\ port (self (__init__ h p t d w shared).2) = p
  /\ fs (world (__init__ h p t d w shared).2) = fs w.
Proof.
  destruct (init_state h p t d w shared) as (b & e & w' & -> & Hf & _).
  repeat split. exact Hf.
Qed.

(** Without a JSON object to read, [load_config] fails on [config.get]. *)
Lemma load_config_fails (l : list pyval) (st : State) :
  default_value st = VList l ->
  (forall items,
     fs (world st) !! CONFIG_FILE <> Some (JsonDoc (VDict items))) ->
  (load_config st).1 = Raise AttributeError.
Proof.
  intros Hd Hno.
  destruct (load_from_file_outcome CONFIG_FILE st)
    as (r & w' & E & _ & _ & Hr).
  unfold load_config.
  erewrite bind_ret_step by exact E.
  erewrite bind_ret_step by reflexivity.
  erewrite bind_ret_step by reflexivity.
  destruct Hr as [-> | (doc & Hdoc & ->)].
  - erewrite bind_raise_step; [reflexivity|].
    unfold lift, deref. cbn [default_value]. rewrite Hd. reflexivity.
  - destruct doc;
      try (erewrite bind_raise_step; reflexivity).
    exfalso. exact (Hno _ Hdoc).
Qed.

(** X13.  [load_config] needs a configuration file that holds a JSON
    object.  Without one (no file, an unreadable one, text that is not
    JSON, a document of another kind) it gets the shared default, a list,
    and raises [AttributeError] on [config.get]; the client is as it was. *)
Theorem load_config_needs_object (l : list pyval) (st : State) :
  default_value st = VList l ->
  (forall items,
     fs (world st) !! CONFIG_FILE <> Some (JsonDoc (VDict items))) ->
  (load_config st).1 = Raise AttributeError
  /\ self (load_config st).2 = self st.
Proof.
  destruct st as [c [keys peers files faults tr] shared]. cbn.
  intros -> Hno.
  unfold load_config, _load_from_file, read_json, path_exists, next_fault,
    try_except, emit, dict_get.
  munfold. cbn.
  destruct (files !! CONFIG_FILE) as [[doc|raw]|] eqn:E; cbn;
    [| |split; reflexivity];
    destruct faults as [|[|r] faults']; cbn; rewrite ?E; cbn;
    rewrite ?log_eq; cbn; try (split; reflexivity);
    destruct doc; try (split; reflexivity);
    exfalso; eapply Hno; reflexivity.
Qed.

Lemma load_config_needs_object_witness :
  (load_config (client_in (quiet_world [] []))).1 = Raise AttributeError
  /\ self (load_config (client_in (quiet_world [] []))).2
     = self (client_in (quiet_world [] [])).
Proof.
  apply (load_config_needs_object [] (client_in (quiet_world [] []))).
  - reflexivity.
  - intros items. vm_compute. discriminate.
Defined.

(** [_save_to_file] when no file operation fails. *)
Lemma save_to_file_ok (filename : string) (data doc : pyval) (st : State) :
  fs_faults (world st) = [] ->
  to_json data = Some doc ->
  (_save_to_file filename data st).1 = Ret tt
  /\ fs (world (_save_to_file filename data st).2) !! filename
     = Some (JsonDoc doc)
  /\ fs (world (_save_to_file filename data st).2) !! (filename +:+ ".bak")
     = None
  /\ fs_faults (world (_save_to_file filename data st).2) = []
  /\ self (_save_to_file filename data st).2 = self st
  /\ default_value (_save_to_file filename data st).2 = default_value st.
Proof.
  destruct st as [c [keys peers files faults tr] shared]. cbn.
  intros -> Hdoc. run_file_ops. rewrite log_eq. cbn.
  destruct (files !! filename) as [old|] eqn:Hf; cbn.
  - rewrite ?Hdoc. file_steps Hf. file_done.
  - rewrite ?Hdoc. cbn.
    rewrite (lookup_insert_ne _ _ _ _ (bak_ne' _)).
    destruct (files !! (filename +:+ ".bak")) as [b|] eqn:Hb; cbn;
      rewrite ?(lookup_insert_ne _ _ _ _ (bak_ne' _)), ?Hb; cbn;
      repeat split; file_lookups;
      rewrite ?(lookup_delete_ne _ _ _ (bak_ne' _)), ?lookup_insert_eq;
      first [reflexivity | assumption].
Qed.

(** X14.  Without I/O faults and for data that JSON can express,
    [_save_to_file] ends with the document in the file and no backup
    beside it, whether or not the file or a stale backup existed before;
    the client itself is not touched. *)
Theorem save_to_file_succeeds (filename : string) (data doc : pyval)
    (st : State) :
  fs_faults (world st) = [] ->
  to_json data = Some doc ->
  (_save_to_file filename data st).1 = Ret tt
  /\ fs (world (_save_to_file filename data st).2) !! filename
     = Some (JsonDoc doc)
  /\ fs (world (_save_to_file filename data st).2) !! (filename +:+ ".bak")
     = None
  /\ self (_save_to_file filename data st).2 = self st.
Proof.
  intros Hf Hd.
  destruct (save_to_file_ok filename data doc st Hf Hd)
    as (H1 & H2 & H3 & _ & H5 & _).
  repeat split; assumption.
Qed.

Lemma save_to_file_succeeds_witness :
  let st := in_world (mk_world [] [] (<["config.json.bak" := old_config]> ∅) [] [] lp64)
              (client_in (quiet_world [] [])) in
  (_save_to_file "config.json" new_config st).1 = Ret tt
  /\ fs (world (_save_to_file "config.json" new_config st).2) !! "config.json"
     = Some (JsonDoc new_config)
  /\ fs (world (_save_to_file "config.json" new_config st).2)
       !! ("config.json" +:+ ".bak") = None
  /\ self (_save_to_file "config.json" new_config st).2 = self st.
Proof.
  intros st.
  apply (save_to_file_succeeds "config.json" new_config new_config st);
    reflexivity.
Defined.

Lemma to_json_config (h p bh fh h' p' bh' fh' : pyval) :
  to_json h = Some h' -> to_json p = Some p' ->
  to_json bh = Some bh' -> to_json fh = Some fh' ->
  to_json (VDict [("hostname", h); ("port", p);
                  ("backward_history", bh); ("forward_history", fh)])
  = Some (VDict [("hostname", h'); ("port", p');
                 ("backward_history", bh'); ("forward_history", fh')]).
Proof.
  intros H1 H2 H3 H4.
  change (to_json (VDict [("hostname", h); ("port", p);
                          ("backward_history", bh); ("forward_history", fh)]))
    with (option_map VDict
            (match to_json h with
             | Some y =>
                 match (match to_json p with
                        | Some y0 =>
                            match (match to_json bh with
                                   | Some y1 =>
                                       match (match to_json fh with
                                              | Some y2 => Some [("forward_history", y2)]
                                              | None => None
                                              end) with
                                       | Some ys => Some (("backward_history", y1) :: ys)
                                       | None => None
                                       end
                                   | None => None
                                   end) with
                            | Some ys => Some (("port", y0) :: ys)
                            | None => None
                            end
                        | None => None
                        end) with
                 | Some ys => Some (("hostname", y) :: ys)
                 | None => None
                 end
             | None => None
             end)).
  rewrite H1, H2, H3, H4. reflexivity.
Qed.

Lemma save_config_ok (st : State) (h p bh fh : pyval) :
  fs_faults (world st) = [] ->
  to_json (host (self st)) = Some h ->
  to_json (port (self st)) = Some p ->
  to_json (backward_history (hm_of st)) = Some bh ->
  to_json (forward_history (hm_of st)) = Some fh ->
  exists s',
    save_config st = (Ret tt, s')
    /\ fs (world s') !! CONFIG_FILE
       = Some (JsonDoc (VDict [("hostname", h); ("port", p);
                               ("backward_history", bh);
                               ("forward_history", fh)]))
    /\ fs_faults (world s') = []
    /\ self s' = self st.
Proof.
  intros Hflt Hh Hp Hbh Hfh.
  pose proof (to_json_config _ _ _ _ _ _ _ _ Hh Hp Hbh Hfh) as Hdoc.
  destruct (save_to_file_ok CONFIG_FILE _ _ st Hflt Hdoc)
    as (Hr & Hfile & _ & Hflt' & Hself & _).
  unfold save_config.
  unfold mbind at 1. unfold M_bind, bind. cbn [gets].
  unfold mbind at 1. unfold M_bind, bind.
  unfold hm_of in *.
  destruct (_save_to_file CONFIG_FILE _ st) as [r s1]. cbn [fst snd] in *.
  subst r. unfold print, emit, modify.
  eexists. split; [reflexivity|].
  destruct s1 as [c1 [keys peers files faults tr] shared1].
  repeat split; assumption.
Qed.

(** X15.  What [save_config] writes, [load_config] reads back only in
    part, for every client: host and port come back (as JSON renders
    them), but the history of the loading client stays as it was, since the
    lists are saved under keys that [load_config] does not look up. *)
Theorem save_config_then_load (st other : State) (h p bh fh : pyval) :
  fs_faults (world st) = [] ->
  to_json (host (self st)) = Some h ->
  to_json (port (self st)) = Some p ->
  to_json (backward_history (hm_of st)) = Some bh ->
  to_json (forward_history (hm_of st)) = Some fh ->
  (save_config st).1 = Ret tt
  /\ (load_config (in_world (world (save_config st).2) other)).1 = Ret tt
  /\ host (self (load_config (in_world (world (save_config st).2) other)).2) = h
  /\ port (self (load_config (in_world (world (save_config st).2) other)).2) = p
  /\ hm_of (load_config (in_world (world (save_config st).2) other)).2
     = hm_of other.
Proof.
  intros Hflt Hh Hp Hbh Hfh.
  destruct (save_config_ok st h p bh fh Hflt Hh Hp Hbh Hfh)
    as (s1 & -> & Hfile & Hflt' & _).
  cbn [fst snd]. split; [reflexivity|].
  destruct s1 as [c1 [keys peers files faults tr] shared1]. cbn in Hfile, Hflt'.
  subst faults.
  destruct other as [c2 w2 shared2].
  unfold load_config, _load_from_file, read_json, path_exists, next_fault,
    try_except, emit, get_backward, get_forward, put_backward, put_forward,
    dict_get, in_world, hm_of.
  munfold. unfold CONFIG_FILE in *. cbn. rewrite Hfile. cbn. rewrite Hfile. cbn.
  destruct c2 as [? ? ? ? ? ? ? []]. cbn. repeat split.
Qed.

Lemma save_config_then_load_witness :
  let st := saved_state in
  let other := client_in (quiet_world [] []) in
  (save_config st).1 = Ret tt
  /\ (load_config (in_world (world (save_config st).2) other)).1 = Ret tt
  /\ host (self (load_config (in_world (world (save_config st).2) other)).2)
     = VStr "1436.ninja"
  /\ port (self (load_config (in_world (world (save_config st).2) other)).2)
     = VInt 70
  /\ hm_of (load_config (in_world (world (save_config st).2) other)).2
     = hm_of other.
Proof.
  intros st other.
  apply (save_config_then_load st other (VStr "1436.ninja") (VInt 70)
           (VList [VList [VStr "h"; VInt 70]])
           (VList [VList [VStr "g"; VInt 70]])); reflexivity.
Defined.

End ConfigLaws.

(** ** The main loop *)

Module RunLaws.

Import History Client Scenarios PersistenceFacts ConfigLaws.

#[local] Arguments log : simpl never.
#[local] Arguments log_events : simpl never.

Lemma bind_not_ret {A B : Type} (m : M A) (k : A -> M B) (st : State) :
  (forall a s b, (k a s).1 <> Ret b) -> forall b, ((m ≫= k) st).1 <> Ret b.
Proof.
  intros Hk b. unfold mbind, M_bind, bind.
  destruct (m st) as [[a | e |] s1]; [apply Hk | discriminate | discriminate].
Qed.

Section WithLibraries.

Variable decode : string -> string.
Variable urlparse_str : string -> res (pyval * pyval * pyval).

Lemma run_not_ret (fuel : nat) (st : State) (u : unit) :
  (run decode urlparse_str fuel st).1 <> Ret u.
Proof.
  revert st u. induction fuel as [|fuel IH]; intros st u; [discriminate|].
  cbn [run].
  apply bind_not_ret. intros _ s1 b1.
  apply bind_not_ret. intros _ s2 b2.
  apply bind_not_ret. intros line s3 b3.
  apply bind_not_ret. intros _ s4 b4. apply IH.
Qed.

(** X16.  The main loop has no way out: [run], and with it [main], never
    returns.  A session ends with an exception ([SystemExit] from "quit",
    [EOFError] at the end of the input, or an error that nothing
    catches). *)
Theorem main_never_returns (fuel : nat) (cwd : string) (w : World)
    (st : State) :
  (main decode urlparse_str fuel cwd w).1 <> Ret tt
  /\ (run decode urlparse_str fuel st).1 <> Ret tt.
Proof.
  split; [|apply run_not_ret].
  unfold main, new.
  destruct (init_state (VStr "1436.ninja") (VInt 70) 10 false
              (set_trace (trace w ++ [EvPrint "Current working directory: {}"
                                        [VStr cwd]]) w) (VList []))
    as (b & e & w' & -> & _).
  apply bind_not_ret. intros _ s1 b1. apply run_not_ret.
Qed.

(** One round of the loop up to the choice: the options are printed and a
    line is read. *)
Lemma run_reads_choice (fuel : nat) (line : string) (rest : list string)
    (st : State) :
  stdin (world st) = line :: rest ->
  exists s1,
    run decode urlparse_str (S fuel) st
    = (match action decode
               (navigate decode urlparse_str fuel) (strip line) with
       | Some act => act
       | None => print invalid_choice []
       end ;; run decode urlparse_str fuel) s1
    /\ self s1 = self st /\ default_value s1 = default_value st
    /\ fs (world s1) = fs (world st) /\ stdin (world s1) = rest
    /\ fs_faults (world s1) = fs_faults (world st)
    /\ net (world s1) = net (world st).
Proof.
  destruct st as [c [keys peers files faults tr] shared]. cbn.
  intros ->. cbn [run].
  unfold print, input, emit, options. cbn [for_each].
  unfold print, emit. munfold. cbn -[action run navigate strip].
  eexists. split; [reflexivity|]. cbn. repeat split.
Qed.

Lemma run_at_eof (fuel : nat) (st : State) :
  stdin (world st) = [] ->
  (run decode urlparse_str (S fuel) st).1 = Raise EOFError.
Proof.
  destruct st as [c [keys peers files faults tr] shared]. cbn.
  intros ->. cbn [run].
  unfold print, input, emit, options. cbn [for_each].
  unfold print, emit. munfold. cbn -[action run navigate strip].
  reflexivity.
Qed.

(** X17.  Started without any input, the program prints its options once
    and ends with [EOFError]. *)
Theorem main_at_end_of_input (fuel : nat) (cwd : string) (w : World) :
  stdin w = [] ->
  (main decode urlparse_str (S fuel) cwd w).1 = Raise EOFError.
Proof.
  intros Hin. unfold main, new.
  destruct (init_state (VStr "1436.ninja") (VInt 70) 10 false
              (set_trace (trace w ++ [EvPrint "Current working directory: {}"
                                        [VStr cwd]]) w) (VList []))
    as (b & e & w' & -> & _ & Hin').
  unfold mbind at 1. unfold M_bind, bind. rewrite log_eq.
  apply run_at_eof. cbn. rewrite Hin'. destruct w; exact Hin.
Qed.

(** X18.  "Load configuration" chosen when there is no configuration file
    ends the program: [load_config] raises [AttributeError] and nothing in
    the main loop catches it. *)
Theorem main_load_config_without_file (fuel : nat) (cwd line : string)
    (rest : list string) (w : World) :
  stdin w = line :: rest ->
  strip line = "6" ->
  fs w !! CONFIG_FILE = None ->
  (main decode urlparse_str (S fuel) cwd w).1 = Raise AttributeError.
Proof.
  intros Hin Hline Hfile. unfold main, new.
  destruct (init_state (VStr "1436.ninja") (VInt 70) 10 false
              (set_trace (trace w ++ [EvPrint "Current working directory: {}"
                                        [VStr cwd]]) w) (VList []))
    as (b & e & w' & -> & Hfs' & Hin').
  unfold mbind at 1. unfold M_bind, bind. rewrite log_eq.
  match goal with |- (run _ _ _ ?s).1 = _ => set (s0 := s) end.
  destruct (run_reads_choice fuel line rest s0) as (s1 & -> & Hs & Hd & Hf & _).
  { subst s0. cbn. rewrite Hin'. destruct w; exact Hin. }
  rewrite Hline. change (action _ _ "6") with (Some load_config).
  unfold mbind at 1. unfold M_bind, bind.
  assert (Hr : (load_config s1).1 = Raise AttributeError).
  { apply (load_config_fails []).
    - rewrite Hd. reflexivity.
    - intros items. rewrite Hf. subst s0. cbn. rewrite Hfs'.
      destruct w. cbn in *. rewrite Hfile. discriminate. }
  destruct (load_config s1) as [r s2]. cbn in Hr. subst r. reflexivity.
Qed.

End WithLibraries.

Lemma main_at_end_of_input_witness :
  (main decode_ascii urlparse_unused 1 "/home/user" (quiet_world [] [])).1
  = Raise EOFError.
Proof.
  apply (main_at_end_of_input decode_ascii urlparse_unused 0 "/home/user"
           (quiet_world [] [])).
  reflexivity.
Defined.

Lemma main_load_config_without_file_witness :
  (main decode_ascii urlparse_unused 1 "/home/user"
     (quiet_world ["6"; "7"] [])).1
  = Raise AttributeError.
Proof.
  apply (main_load_config_without_file decode_ascii urlparse_unused 0
           "/home/user" "6" ["7"] (quiet_world ["6"; "7"] []));
    reflexivity.
Defined.

End RunLaws.

(** ** Bookmarks *)

Module BookmarkLaws.

Import History Client Scenarios PersistenceFacts ConfigLaws.

#[local] Arguments log : simpl never.
#[local] Arguments log_events : simpl never.

(** The client object and the shared default list: what file operations
    and output leave alone. *)
#[local] Abbreviation objects := (fun st : State => (self st, default_value st)).

Lemma emit_objects e : preserves objects (emit e).
Proof. unfold emit. frame. Qed.
Lemma print_objects t a : preserves objects (print t a).
Proof. unfold print. apply emit_objects. Qed.
Lemma log_objects l t a : preserves objects (log l t a).
Proof. unfold log. repeat frame_step. apply emit_objects. Qed.
Lemma next_fault_objects : preserves objects next_fault.
Proof. unfold next_fault. frame. Qed.
Lemma put_file_objects n r : preserves objects (put_file n r).
Proof. unfold put_file. frame. Qed.
Lemma path_exists_objects n : preserves objects (path_exists n).
Proof. unfold path_exists. frame. Qed.

Ltac objects_leaf :=
  lazymatch goal with
  | |- preserves _ (emit _) => apply emit_objects
  | |- preserves _ (print _ _) => apply print_objects
  | |- preserves _ (log _ _ _) => apply log_objects
  | |- preserves _ next_fault => apply next_fault_objects
  | |- preserves _ (put_file _ _) => apply put_file_objects
  | |- preserves _ (path_exists _) => apply path_exists_objects
  end.

Lemma copy2_objects a b : preserves objects (copy2 a b).
Proof. unfold copy2. repeat frame_step; objects_leaf. Qed.
Lemma write_json_objects n d : preserves objects (write_json n d).
Proof. unfold write_json. repeat frame_step; objects_leaf. Qed.
Lemma remove_objects n : preserves objects (remove n).
Proof. unfold remove. repeat frame_step; objects_leaf. Qed.

Lemma save_to_file_objects n d : preserves objects (_save_to_file n d).
Proof.
  unfold _save_to_file. repeat frame_step;
    lazymatch goal with
    | |- preserves _ (copy2 _ _) => apply copy2_objects
    | |- preserves _ (write_json _ _) => apply write_json_objects
    | |- preserves _ (remove _) => apply remove_objects
    | |- _ => objects_leaf
    end.
Qed.

(** Saving and then reporting: the outcome does not matter for the
    objects. *)
Lemma save_and_print_objects n d t a (st : State) :
  self ((_save_to_file n d ;; print t a) st).2 = self st
  /\ default_value ((_save_to_file n d ;; print t a) st).2 = default_value st.
Proof.
  assert (H : preserves objects (_save_to_file n d ;; print t a)).
  { repeat frame_step; [apply save_to_file_objects | apply print_objects]. }
  specialize (H st). cbn beta in H. injection H as H1 H2. split; assumption.
Qed.

Lemma get_bookmarks_eq (st : State) :
  get_bookmarks st = (Ret (deref (bookmarks (self st)) st), st).
Proof. reflexivity. Qed.

Lemma put_bookmarks_ok (v : pyval) (st : State) :
  put_bookmarks v st = (Ret tt, (put_bookmarks v st).2)
  /\ deref (bookmarks (self (put_bookmarks v st).2)) (put_bookmarks v st).2 = v
  /\ search_engines (self (put_bookmarks v st).2) = search_engines (self st)
  /\ world (put_bookmarks v st).2 = world st.
Proof.
  unfold put_bookmarks. munfold. destruct st as [c w d].
  destruct c as [? ? ? ? ? [|u] ? ? ? ? ? ?]; repeat split.
Qed.

(** Saving a bookmark whose selector no bookmark has yet: the list gets
    the new entry, then it is written. *)
Lemma save_bookmark_fresh (xs : list pyval) (title selector : pyval)
    (st : State) :
  deref (bookmarks (self st)) st = VList xs ->
  Forall (fun b => exists sel, py_getitem b (VStr "selector") = Ret sel
                               /\ py_eqb sel selector = false) xs ->
  let bs' := VList (xs ++ [VDict [("title", title); ("selector", selector)]]) in
  save_bookmark title selector st
  = (_save_to_file BOOKMARKS_FILE bs' ;;
     print "Saved '{}' as a bookmark." [title]) (put_bookmarks bs' st).2.
Proof.
  intros Hbs Hall bs'.
  destruct (put_bookmarks_ok bs' st) as (Hput & Hderef & _).
  unfold save_bookmark.
  erewrite bind_ret_step by (rewrite get_bookmarks_eq, Hbs; reflexivity).
  erewrite bind_ret_step by reflexivity.
  erewrite bind_ret_step.
  2:{ instantiate (1 := st). instantiate (1 := []).
      clear -Hall. induction Hall as [|b xs (sel & H1 & H2) _ IH];
        [reflexivity|].
      cbv beta iota fix.
      erewrite bind_ret_step by (unfold lift; rewrite H1; reflexivity).
      erewrite bind_ret_step by exact IH.
      rewrite H2. reflexivity. }
  cbn [length Nat.eqb negb].
  erewrite bind_ret_step by (rewrite get_bookmarks_eq, Hbs; reflexivity).
  erewrite bind_ret_step by reflexivity.
  fold bs'.
  erewrite bind_ret_step by exact Hput.
  erewrite bind_ret_step by (rewrite get_bookmarks_eq, Hderef; reflexivity).
  reflexivity.
Qed.

(** X19.  On a machine with neither a bookmarks file nor a search-engines
    file, [self.bookmarks] and [self.search_engines] are one and the same
    list, the default of [_load_from_file].  The first bookmark saved is
    therefore also a search engine, and listing the search engines then
    raises [KeyError]: the bookmark has no [name]. *)
Theorem bookmark_becomes_search_engine (w : World) (title selector : pyval) :
  fs w !! BOOKMARKS_FILE = None ->
  fs w !! SEARCH_ENGINES_FILE = None ->
  let st := (new w).2 in
  let st' := (save_bookmark title selector st).2 in
  deref (search_engines (self st)) st = VList []
  /\ deref (bookmarks (self st')) st'
     = VList [VDict [("title", title); ("selector", selector)]]
  /\ deref (search_engines (self st')) st'
     = VList [VDict [("title", title); ("selector", selector)]]
  /\ (list_search_engines st').1 = Raise KeyError.
Proof.
  intros Hb He.
  assert (Hnew : exists w', new w
            = (Ret tt,
               mk_state
                 (mk_client (VStr "1436.ninja") (VInt 70) 10 false None
                    Shared Shared (History.__init__ (Some HISTORY_FILE))
                    false WARNING None ∅) w' (VList []))).
  { destruct w as [keys peers files faults tr]. cbn in Hb, He.
    unfold new, __init__, load_bookmarks, load_search_engines,
      _load_from_file, path_exists.
    munfold. cbn. unfold BOOKMARKS_FILE, SEARCH_ENGINES_FILE in *.
    rewrite Hb. cbn. rewrite He. cbn. eexists. reflexivity. }
  destruct Hnew as (w' & ->). cbn [snd]. cbn zeta.
  split; [reflexivity|].
  set (s0 := mk_state _ w' (VList [])).
  rewrite (save_bookmark_fresh [] title selector s0 eq_refl (List.Forall_nil _)).
  cbn [app].
  match goal with
  | |- context [(_save_to_file ?n ?d ≫= ?k) ?s] =>
      destruct (save_and_print_objects n d "Saved '{}' as a bookmark."
                  [title] s) as [H1 H2];
      destruct ((_save_to_file n d ≫= k) s) as [r st']
  end.
  cbn [snd] in *. destruct st' as [c' w'' d']. cbn in H1, H2. subst c' d'.
  repeat split.
Qed.

Lemma bookmark_becomes_search_engine_witness :
  let st := (new (quiet_world [] [])).2 in
  let st' := (save_bookmark (VStr "Floodgap") (VStr "/") st).2 in
  deref (search_engines (self st)) st = VList []
  /\ deref (bookmarks (self st')) st'
     = VList [VDict [("title", VStr "Floodgap"); ("selector", VStr "/")]]
  /\ deref (search_engines (self st')) st'
     = VList [VDict [("title", VStr "Floodgap"); ("selector", VStr "/")]]
  /\ (list_search_engines st').1 = Raise KeyError.
Proof.
  apply (bookmark_becomes_search_engine (quiet_world [] []) (VStr "Floodgap")
           (VStr "/")); reflexivity.
Defined.

(** X20.  Saving a bookmark whose selector is already bookmarked does
    nothing but say so: the list is not changed and no file is touched,
    whatever the new title is. *)
Theorem save_bookmark_already_there (xs : list pyval) (title selector : pyval)
    (st : State) :
  deref (bookmarks (self st)) st = VList xs ->
  Forall (fun b => exists sel, py_getitem b (VStr "selector") = Ret sel) xs ->
  Exists (fun b => exists sel, py_getitem b (VStr "selector") = Ret sel
                               /\ py_eqb sel selector = true) xs ->
  save_bookmark title selector st
  = print "'{}' is already bookmarked." [title] st.
Proof.
  intros Hbs Hwf Hex.
  unfold save_bookmark.
  erewrite bind_ret_step by (rewrite get_bookmarks_eq, Hbs; reflexivity).
  erewrite bind_ret_step by reflexivity.
  match goal with
  | |- (?each xs ≫= _) st = _ =>
      assert (Hsome : exists y ys, each xs st = (Ret (y :: ys), st))
  end.
  { clear Hbs. induction Hwf as [|b xs [sel Hsel] Hwf IH].
    - inversion Hex.
    - cbv beta iota fix.
      erewrite bind_ret_step by (unfold lift; rewrite Hsel; reflexivity).
      apply Exists_cons in Hex as [(sel' & Hsel' & Heq) | Hex].
      + assert (sel' = sel) as -> by congruence.
        assert (Hany : exists ys, (fix each (bs : list pyval) : M (list pyval) :=
                  match bs with
                  | [] => ret []
                  | bookmark :: bs' =>
                      sel ← lift (py_getitem bookmark (VStr "selector"));
                      rest ← each bs';
                      ret (if py_eqb sel selector then bookmark :: rest
                           else rest)
                  end) xs st = (Ret ys, st)).
        { clear -Hwf. induction Hwf as [|b xs [sel Hsel] _ IH].
          - exists []. reflexivity.
          - destruct IH as [ys IH]. cbv beta iota fix.
            erewrite bind_ret_step
              by (unfold lift; rewrite Hsel; reflexivity).
            erewrite bind_ret_step by exact IH.
            eexists. reflexivity. }
        destruct Hany as [ys Hys].
        erewrite bind_ret_step by exact Hys.
        rewrite Heq. do 2 eexists. reflexivity.
      + destruct (IH Hex) as (y & ys & Hys).
        erewrite bind_ret_step by exact Hys.
        destruct (py_eqb sel selector); do 2 eexists; reflexivity. }
  destruct Hsome as (y & ys & Hys).
  erewrite bind_ret_step by exact Hys. reflexivity.
Qed.

Lemma save_bookmark_already_there_witness :
  let st := upd_self (set_bookmarks
              (Own (VList [VDict [("title", VStr "Floodgap");
                                  ("selector", VStr "/")]])))
              (client_in (quiet_world [] [])) in
  save_bookmark (VStr "Another title") (VStr "/") st
  = print "'{}' is already bookmarked." [VStr "Another title"] st.
Proof.
  intros st.
  apply (save_bookmark_already_there
           [VDict [("title", VStr "Floodgap"); ("selector", VStr "/")]]
           (VStr "Another title") (VStr "/") st).
  - reflexivity.
  - repeat constructor. eexists. reflexivity.
  - constructor. eexists. split; reflexivity.
Defined.

(** X21.  A new bookmark is appended to the list and the whole list is
    written to the bookmarks file; a client started afterwards loads that
    list from the file. *)
Theorem save_bookmark_persists (xs : list pyval) (title selector doc : pyval)
    (st other : State) :
  deref (bookmarks (self st)) st = VList xs ->
  Forall (fun b => exists sel, py_getitem b (VStr "selector") = Ret sel
                               /\ py_eqb sel selector = false) xs ->
  fs_faults (world st) = [] ->
  to_json (VList (xs ++ [VDict [("title", title); ("selector", selector)]]))
  = Some doc ->
  let st' := (save_bookmark title selector st).2 in
  (save_bookmark title selector st).1 = Ret tt
  /\ deref (bookmarks (self st')) st'
     = VList (xs ++ [VDict [("title", title); ("selector", selector)]])
  /\ fs (world st') !! BOOKMARKS_FILE = Some (JsonDoc doc)
  /\ (load_bookmarks (in_world (world st') other)).1 = Ret (Own doc).
Proof.
  intros Hbs Hall Hflt Hdoc.
  rewrite (save_bookmark_fresh xs title selector st Hbs Hall).
  set (bs' := VList (xs ++ [VDict [("title", title); ("selector", selector)]])).
  destruct (put_bookmarks_ok bs' st) as (_ & Hderef & _ & Hw).
  set (s1 := (put_bookmarks bs' st).2) in *.
  assert (Hflt1 : fs_faults (world s1) = []) by (rewrite Hw; exact Hflt).
  destruct (save_to_file_ok BOOKMARKS_FILE bs' doc s1 Hflt1 Hdoc)
    as (Hr & Hfile & _ & Hflt2 & Hself & Hdef).
  cbn zeta. unfold mbind, M_bind, bind.
  destruct (_save_to_file BOOKMARKS_FILE bs' s1) as [r s2].
  cbn [fst snd] in *. subst r. unfold print, emit, modify. cbn [fst snd].
  destruct s2 as [c2 [keys peers files faults tr] d2].
  destruct s1 as [c1 w1 d1]. cbn in *. subst.
  repeat split; try assumption.
  unfold load_bookmarks, _load_from_file, read_json, path_exists, next_fault,
    try_except, emit, in_world.
  munfold. unfold BOOKMARKS_FILE in *. cbn. rewrite Hfile. cbn.
  rewrite Hfile. reflexivity.
Qed.

Lemma save_bookmark_persists_witness :
  let st := client_in (quiet_world [] []) in
  let bm := VDict [("title", VStr "Floodgap"); ("selector", VStr "/")] in
  let st' := (save_bookmark (VStr "Floodgap") (VStr "/") st).2 in
  (save_bookmark (VStr "Floodgap") (VStr "/") st).1 = Ret tt
  /\ deref (bookmarks (self st')) st' = VList ([] ++ [bm])
  /\ fs (world st') !! BOOKMARKS_FILE = Some (JsonDoc (VList [bm]))
  /\ (load_bookmarks (in_world (world st') st)).1 = Ret (Own (VList [bm])).
Proof.
  intros st bm st'.
  apply (save_bookmark_persists [] (VStr "Floodgap") (VStr "/") (VList [bm])
           st st); [reflexivity | constructor | reflexivity | reflexivity].
Defined.

Lemma position_lookup {A : Type} (xs : list A) (i : Z) (j : nat) :
  position (length xs) i = Some j -> is_Some (xs !! j).
Proof.
  unfold position.
  destruct ((0 <=? (if (i <? 0)%Z then (i + Z.of_nat (length xs))%Z else i))%Z
            && ((if (i <? 0)%Z then (i + Z.of_nat (length xs))%Z else i)
                <? Z.of_nat (length xs))%Z) eqn:E; [|discriminate].
  intros [= <-]. apply lookup_lt_is_Some.
  apply andb_true_iff in E as [H1 H2].
  apply Z.leb_le in H1. apply Z.ltb_lt in H2. lia.
Qed.

(** X22.  [delete_bookmark] with an index outside the list (from either
    end) only prints a message: no bookmark is removed and no file is
    touched. *)
Theorem delete_bookmark_invalid_index (xs : list pyval) (index : Z)
    (st : State) :
  deref (bookmarks (self st)) st = VList xs ->
  position (length xs) index = None ->
  delete_bookmark index st = print "Invalid bookmark index." [] st.
Proof.
  intros Hbs Hpos. unfold delete_bookmark, try_except.
  erewrite bind_ret_step by (rewrite get_bookmarks_eq, Hbs; reflexivity).
  erewrite bind_raise_step
    by (unfold lift, list_pop_at; rewrite Hpos; reflexivity).
  reflexivity.
Qed.

Lemma delete_bookmark_invalid_index_witness :
  let st := upd_self (set_bookmarks
              (Own (VList [VDict [("title", VStr "Floodgap");
                                  ("selector", VStr "/")]])))
              (client_in (quiet_world [] [])) in
  delete_bookmark (-2) st = print "Invalid bookmark index." [] st.
Proof.
  intros st.
  apply (delete_bookmark_invalid_index
           [VDict [("title", VStr "Floodgap"); ("selector", VStr "/")]]
           (-2) st); reflexivity.
Defined.

(** X23.  [delete_bookmark] with a valid index, counted from the end when
    negative, removes exactly that bookmark from the list, whether or not
    the list can be saved afterwards. *)
Theorem delete_bookmark_removes (xs : list pyval) (index : Z) (j : nat)
    (st : State) :
  deref (bookmarks (self st)) st = VList xs ->
  position (length xs) index = Some j ->
  let st' := (delete_bookmark index st).2 in
  deref (bookmarks (self st')) st' = VList (delete j xs).
Proof.
  intros Hbs Hpos.
  destruct (position_lookup xs index j Hpos) as [b Hb].
  destruct (put_bookmarks_ok (VList (delete j xs)) st) as (Hput & Hderef & _).
  set (s1 := (put_bookmarks (VList (delete j xs)) st).2) in *.
  assert (Hrest : preserves objects
            (bs ← get_bookmarks;
             _save_to_file BOOKMARKS_FILE bs ;;
             title ← lift (py_getitem b (VStr "title"));
             print "Deleted bookmark '{}'." [title])).
  { unfold get_bookmarks. repeat frame_step;
      first [apply save_to_file_objects | apply print_objects]. }
  specialize (Hrest s1).
  cbn zeta. unfold delete_bookmark, try_except.
  erewrite bind_ret_step by (rewrite get_bookmarks_eq, Hbs; reflexivity).
  erewrite bind_ret_step
    by (unfold lift, list_pop_at; rewrite Hpos, Hb; reflexivity).
  cbv beta iota.
  erewrite bind_ret_step by exact Hput.
  match goal with
  | H : objects (?m s1).2 = _ |- _ => destruct (m s1) as [[u | e |] s2]
  end; cbn [fst snd] in *.
  - injection Hrest as H1 H2. unfold deref in *. rewrite H1, H2. exact Hderef.
  - destruct (catches [IndexError] e); cbn [snd].
    + unfold print, emit, modify. cbn.
      injection Hrest as H1 H2. unfold deref in *.
      destruct s2 as [c2 w2 d2]. cbn in *. rewrite H1, H2. exact Hderef.
    + injection Hrest as H1 H2. unfold deref in *. rewrite H1, H2. exact Hderef.
  - injection Hrest as H1 H2. unfold deref in *. rewrite H1, H2. exact Hderef.
Qed.

Lemma delete_bookmark_removes_witness :
  let a := VDict [("title", VStr "A"); ("selector", VStr "/a")] in
  let b := VDict [("title", VStr "B"); ("selector", VStr "/b")] in
  let st := upd_self (set_bookmarks (Own (VList [a; b])))
              (client_in (quiet_world [] [])) in
  let st' := (delete_bookmark (-1) st).2 in
  deref (bookmarks (self st')) st' = VList (delete 1 [a; b]).
Proof.
  intros a b st.
  apply (delete_bookmark_removes [a; b] (-1) 1 st); reflexivity.
Defined.

End BookmarkLaws.

(** ** Requests *)

Module TransportLaws.

Import History Client Scenarios PersistenceFacts.

#[local] Arguments log : simpl never.
#[local] Arguments log_events : simpl never.
#[local] Arguments append _ _ : simpl nomatch.

Lemma append_empty_r (s : string) : s +:+ "" = s.
Proof. induction s as [|a s IH]; cbn; [reflexivity | now rewrite IH]. Qed.

Lemma append_assoc (s t u : string) : (s +:+ t) +:+ u = s +:+ (t +:+ u).
Proof. induction s as [|a s IH]; cbn; [reflexivity | now rewrite IH]. Qed.

Lemma recv_loop_chunks (pre tl : list string) (fails : bool)
    (response : string) :
  Forall (fun chunk => chunk <> "") pre ->
  (tl = [] /\ fails = false) \/ head tl = Some "" ->
  recv_loop (pre ++ tl) fails response
  = Ret (response +:+ fold_right append "" pre).
Proof.
  intros Hpre Htl. revert response.
  induction Hpre as [|chunk pre Hchunk _ IH]; intros response.
  - cbn [app fold_right]. rewrite append_empty_r.
    destruct Htl as [[-> ->] | Htl]; [reflexivity|].
    destruct tl as [|chunk tl]; [discriminate|].
    injection Htl as ->. reflexivity.
  - cbn [app fold_right recv_loop].
    apply String.eqb_neq in Hchunk. rewrite Hchunk, IH.
    now rewrite append_assoc.
Qed.

Section WithLibraries.

Variable decode : string -> string.

(** X24.  A request to an address that [getaddrinfo] accepts and a peer
    that accepts the connection, takes the request and ends its answer
    properly: the selector is sent followed by CR LF, the answer is the
    concatenation of the chunks received before the first empty one,
    decoded, and the socket is closed afterwards. *)
Theorem send_request_success (sel s : string) (p : Z) (conn : Conn)
    (pre tl : list string) (rest : list (option Conn)) (st : State) :
  net (world st) = Some conn :: rest ->
  String.eqb s "" = false -> (p =? 0)%Z = false ->
  address_error (platform (world st)) (VStr s) (VInt p) = None ->
  send_ok conn = true ->
  chunks conn = pre ++ tl ->
  Forall (fun chunk => chunk <> "") pre ->
  (tl = [] /\ recv_fails conn = false) \/ head tl = Some "" ->
  let r := _send_request decode (VStr sel) (VStr s) (VInt p) st in
  r.1 = Ret (Some (decode (fold_right append "" pre)))
  /\ socket (self r.2) = Some (mk_socket true conn)
  /\ net (world r.2) = rest
  /\ In (EvConnect (VStr s) (VInt p) true) (trace (world r.2))
  /\ In (EvSend (sel +:+ String CR (String LF EmptyString)))
       (trace (world r.2)).
Proof.
  destruct st as [c [keys peers files faults tr pf] shared].
  destruct conn as [err sok cs rf]. cbn.
  intros -> Hs Hp Haddr -> -> Hpre Htl.
  pose proof (recv_loop_chunks pre tl rf "" Hpre Htl) as Htext.
  cbn [append] in Htext.
  unfold _send_request, _debug_print, _establish_connection, create_connection,
    sendall, recv_all, socket_close, try_except, _error_handler, emit,
    request_line, py_or.
  munfold. cbn.
  destruct c as [h0 p0 t0 d0 [sock|] bm se hm nb rl ll oa]; destruct d0;
    repeat (progress (cbn; rewrite ?log_eq, ?Htext, ?Hs, ?Hp, ?Haddr));
    repeat split;
    rewrite ?in_app_iff; cbn; auto 20.
Qed.

(** X25.  When [getaddrinfo] accepts the address and the peer accepts the
    connection but the request cannot be sent, [_send_request] answers
    [None] and leaves the new socket open: only the next connection attempt
    closes it. *)
Theorem send_request_leaves_socket_open (sel s : string) (p : Z) (conn : Conn)
    (rest : list (option Conn)) (st : State) :
  net (world st) = Some conn :: rest ->
  String.eqb s "" = false -> (p =? 0)%Z = false ->
  address_error (platform (world st)) (VStr s) (VInt p) = None ->
  send_ok conn = false ->
  let r := _send_request decode (VStr sel) (VStr s) (VInt p) st in
  r.1 = Ret None
  /\ socket (self r.2) = Some (mk_socket false conn)
  /\ last (trace (world r.2))
     = Some (EvLog ERROR "General Error: Error: {}" [VStr "OSError"]).
Proof.
  destruct st as [c [keys peers files faults tr pf] shared].
  destruct conn as [err sok cs rf]. cbn.
  intros -> Hs Hp Haddr ->.
  unfold _send_request, _debug_print, _establish_connection, create_connection,
    sendall, recv_all, socket_close, try_except, _error_handler, emit,
    request_line, py_or.
  munfold. cbn.
  destruct c as [h0 p0 t0 d0 [sock|] bm se hm nb rl ll oa]; destruct d0;
    repeat (progress (cbn; rewrite ?log_eq, ?Hs, ?Hp, ?Haddr));
    repeat split; rewrite log_events_ERROR; apply last_snoc.
Qed.

End WithLibraries.

(** The peer sends its answer in two chunks and closes the stream. *)
Lemma send_request_success_witness :
  let conn := mk_conn 0 true ["hel"; "lo"; ""; "late"] true in
  let st := client_in (quiet_world [] [Some conn]) in
  let r := _send_request decode_ascii (VStr "/about") (VStr "host") (VInt 70)
             st in
  r.1 = Ret (Some "hello")
  /\ socket (self r.2) = Some (mk_socket true conn)
  /\ net (world r.2) = []
  /\ In (EvConnect (VStr "host") (VInt 70) true) (trace (world r.2))
  /\ In (EvSend ("/about" +:+ String CR (String LF EmptyString)))
       (trace (world r.2)).
Proof.
  intros conn st.
  apply (send_request_success decode_ascii "/about" "host" 70 conn
           ["hel"; "lo"] [""; "late"] [] st); try reflexivity.
  - repeat constructor; discriminate.
  - right. reflexivity.
Defined.

Lemma send_request_leaves_socket_open_witness :
  let conn := mk_conn 0 false [] false in
  let st := client_in (quiet_world [] [Some conn]) in
  let r := _send_request decode_ascii (VStr "/about") (VStr "host") (VInt 70)
             st in
  r.1 = Ret None
  /\ socket (self r.2) = Some (mk_socket false conn)
  /\ last (trace (world r.2))
     = Some (EvLog ERROR "General Error: Error: {}" [VStr "OSError"]).
Proof.
  intros conn st.
  apply (send_request_leaves_socket_open decode_ascii "/about" "host" 70
           conn [] st); reflexivity.
Defined.

End TransportLaws.

(** ** What a navigation can and cannot do *)

Module NavigateLaws.

Import History Client ClientFrames NavigateFacts Scenarios PersistenceFacts.

#[local] Arguments log : simpl never.
#[local] Arguments log_events : simpl never.

(** The codec of the concrete worlds on some names. *)
Example ascii_names_rejected :
  map (ascii_name_rejected 0) ["a..b"; ".a"; "."; "a."; "host"; ""]
  = [true; true; true; false; false; false].
Proof. reflexivity. Qed.

Lemma is_connected_pure (st : State) :
  exists ok, _is_connected st = (Ret ok, st).
Proof.
  unfold _is_connected, getsockopt_so_error, try_except. munfold.
  destruct (socket (self st)) as [[[] conn]|]; cbn; eexists; reflexivity.
Qed.




Section WithLibraries.

Variable decode : string -> string.
Variable urlparse_str : string -> res (pyval * pyval * pyval).


End WithLibraries.


End NavigateLaws.

(** ** Relations between the state before and after *)

Section Relates.

Variable R : State -> State -> Prop.
Hypothesis R_refl : forall st, R st st.
Hypothesis R_trans : forall s1 s2 s3, R s1 s2 -> R s2 s3 -> R s1 s3.

Lemma relates_ret {A : Type} (a : A) : relates R (ret a).
Proof. intros st. apply R_refl. Qed.

Lemma relates_mret {A : Type} (a : A) : relates R (mret a : M A).
Proof. intros st. apply R_refl. Qed.

Lemma relates_raise {A : Type} (e : exn) : relates R (raise e : M A).
Proof. intros st. apply R_refl. Qed.

Lemma relates_out_of_fuel {A : Type} : relates R (out_of_fuel : M A).
Proof. intros st. apply R_refl. Qed.

Lemma relates_lift {A : Type} (r : res A) : relates R (lift r).
Proof. intros st. apply R_refl. Qed.

Lemma relates_gets {A : Type} (g : State -> A) : relates R (gets g).
Proof. intros st. apply R_refl. Qed.

Lemma relates_bind {A B : Type} (m : M A) (k : A -> M B) :
  relates R m -> (forall a, relates R (k a)) -> relates R (m ≫= k).
Proof.
  intros Hm Hk st. unfold mbind, M_bind, bind.
  specialize (Hm st). destruct (m st) as [[a | e |] st']; cbn in *;
    try assumption.
  eapply R_trans; [exact Hm | apply Hk].
Qed.

Lemma relates_try_except {A : Type} (body : M A) (classes : list exn)
    (handler : exn -> M A) :
  relates R body -> (forall e, relates R (handler e)) ->
  relates R (try_except body classes handler).
Proof.
  intros Hb Hh st. unfold try_except.
  specialize (Hb st). destruct (body st) as [[a | e |] st']; cbn in *;
    try assumption.
  destruct (catches classes e); cbn; [|assumption].
  eapply R_trans; [exact Hb | apply Hh].
Qed.

End Relates.

Ltac relates_step :=
  match goal with
  | |- relates _ (mbind _ _) => apply relates_bind; [| | intros ?]
  | |- relates _ (_ ≫= _) => apply relates_bind; [| | intros ?]
  | |- relates _ (try_except _ _ _) =>
      apply relates_try_except; [| | intros ?]
  | |- relates _ (ret _) => apply relates_ret
  | |- relates _ (mret _) => apply relates_mret
  | |- relates _ (raise _) => apply relates_raise
  | |- relates _ out_of_fuel => apply relates_out_of_fuel
  | |- relates _ (lift _) => apply relates_lift
  | |- relates _ (gets _) => apply relates_gets
  | |- relates _ (if ?b then _ else _) => destruct b
  | |- relates _ (match ?x with _ => _ end) => destruct x
  | |- relates _ (let '(_, _) := ?x in _) => destruct x
  end.

(** ** Navigation and the history *)

Module HistoryInvariant.

Import History Client ClientFrames NavigateFacts Scenarios.

(** The backward list afterwards is an initial part of the one before. *)
#[local] Abbreviation shrinks :=
  (fun st st' : State =>
     forall bw, backward_history (hm_of st) = VList bw ->
     exists bw', backward_history (hm_of st') = VList bw' /\ bw' `prefix_of` bw).

Lemma shrinks_refl (st : State) : shrinks st st.
Proof. intros bw H. exists bw. split; [exact H | reflexivity]. Qed.

Lemma shrinks_trans (s1 s2 s3 : State) :
  shrinks s1 s2 -> shrinks s2 s3 -> shrinks s1 s3.
Proof.
  intros H12 H23 bw H1.
  destruct (H12 bw H1) as (bw2 & H2 & Hp2).
  destruct (H23 bw2 H2) as (bw3 & H3 & Hp3).
  exists bw3. split; [exact H3 | etrans; eassumption].
Qed.

Lemma hm_shrinks {A : Type} (m : M A) :
  preserves hm_of m -> relates shrinks m.
Proof. intros H st bw Hbw. exists bw. rewrite H. split; [exact Hbw | reflexivity]. Qed.

Lemma parse_gopher_menu_hm d : preserves hm_of (_parse_gopher_menu d).
Proof. unfold _parse_gopher_menu. repeat frame_step. apply log_hm. Qed.

Lemma print_gopher_menu_hm es : preserves hm_of (_print_gopher_menu es).
Proof.
  unfold _print_gopher_menu. frame.
  match goal with |- preserves _ (_ ?i ?l) => generalize i; induction l end;
    intros; frame.
Qed.

Lemma quit_client_hm : preserves hm_of quit_client.
Proof. unfold quit_client. repeat frame_step. apply socket_close_hm. Qed.

Ltac shrinks_leaf :=
  apply hm_shrinks;
  lazymatch goal with
  | |- preserves _ (print _ _) => apply print_hm
  | |- preserves _ (emit _) => apply emit_hm
  | |- preserves _ (log _ _ _) => apply log_hm
  | |- preserves _ (input _) => apply input_hm
  | |- preserves _ (_error_handler _ _) => apply error_handler_hm
  | |- preserves _ (_send_request _ _ _ _) => apply send_request_hm
  | |- preserves _ (_parse_gopher_menu _) => apply parse_gopher_menu_hm
  | |- preserves _ (_print_gopher_menu _) => apply print_gopher_menu_hm
  | |- preserves _ quit_client => apply quit_client_hm
  | |- preserves _ (navigate_prologue _) => apply navigate_prologue_hm
  | |- preserves _ get_backward => apply preserves_gets
  end.

Ltac shrinks_steps :=
  repeat (relates_step;
          try solve [apply shrinks_refl | exact shrinks_trans]).

(** [go_back] only pops. *)
Lemma go_back_shrinks : relates shrinks go_back.
Proof.
  intros st bw Hbw. unfold hm_of in *.
  destruct bw as [|x bw' _] using rev_ind.
  - unfold go_back, get_backward. munfold. rewrite Hbw. cbn.
    exists []. split; [exact Hbw | reflexivity].
  - destruct st as [c w d]. destruct c as [? ? ? ? ? ? ? [b f mx hf] ? ? ? ?].
    cbn in Hbw. subst b.
    unfold go_back, get_backward, get_forward, put_backward, put_forward,
      History.getattr.
    munfold. cbn.
    rewrite length_app, last_snoc, removelast_last, Nat.add_1_r. cbn.
    destruct (list_append f x) as [f' | e |]; cbn;
      (eexists; split; [reflexivity|]); try reflexivity;
      apply prefix_app_r; reflexivity.
Qed.

Section WithLibraries.

Variable decode : string -> string.
Variable urlparse_str : string -> res (pyval * pyval * pyval).

Section WithNavigate.

Variable nav : navigate_t.
Hypothesis nav_shrinks : forall s h p, relates shrinks (nav s false h p).

Lemma go_back_client_shrinks : relates shrinks (_go_back nav).
Proof.
  unfold _go_back. shrinks_steps;
    first [apply go_back_shrinks | apply nav_shrinks | shrinks_leaf].
Qed.

Lemma get_user_choice_shrinks fuel es :
  relates shrinks (_get_user_choice nav fuel es).
Proof.
  induction fuel as [|fuel IH]; cbn [_get_user_choice]; shrinks_steps;
    first [apply go_back_client_shrinks | exact IH | shrinks_leaf].
Qed.

Lemma display_gopher_menu_shrinks fuel d :
  relates shrinks (_display_gopher_menu nav fuel d).
Proof.
  unfold _display_gopher_menu. shrinks_steps;
    first [apply get_user_choice_shrinks | shrinks_leaf].
Qed.

Lemma handle_user_choice_loop_shrinks fuel :
  relates shrinks (_handle_user_choice_loop urlparse_str nav fuel).
Proof.
  induction fuel as [|fuel IH]; cbn [_handle_user_choice_loop]; shrinks_steps;
    first [apply go_back_shrinks | apply nav_shrinks | exact IH
          | shrinks_leaf].
Qed.

Lemma handle_user_choice_shrinks fuel d :
  relates shrinks (_handle_user_choice urlparse_str nav fuel d).
Proof.
  unfold _handle_user_choice. shrinks_steps;
    first [apply handle_user_choice_loop_shrinks | shrinks_leaf].
Qed.

Lemma navigate_dispatch_shrinks fuel d :
  relates shrinks (navigate_dispatch urlparse_str nav fuel d).
Proof.
  unfold navigate_dispatch. shrinks_steps;
    first [apply display_gopher_menu_shrinks | apply handle_user_choice_shrinks
          | apply nav_shrinks | shrinks_leaf].
Qed.

Lemma navigate_body_shrinks fuel s h p :
  relates shrinks (navigate_body decode urlparse_str nav fuel s false h p).
Proof.
  unfold navigate_body.
  apply relates_bind; [exact shrinks_trans | shrinks_leaf | intros data].
  destruct data as [data|]; [|apply relates_ret; apply shrinks_refl].
  destruct (String.eqb data ""); [apply relates_ret; apply shrinks_refl|].
  apply relates_bind;
    [exact shrinks_trans | apply navigate_dispatch_shrinks | intros falls].
  rewrite andb_false_r. apply relates_ret. apply shrinks_refl.
Qed.

End WithNavigate.

Lemma navigate_false_shrinks fuel s h p :
  relates shrinks (navigate decode urlparse_str fuel s false h p).
Proof.
  revert s h p. induction fuel as [|fuel IH]; intros; cbn [navigate].
  - apply relates_out_of_fuel. apply shrinks_refl.
  - shrinks_steps;
      first [apply navigate_body_shrinks; exact IH | shrinks_leaf].
Qed.

(** X27.  A navigation never adds to the history, whatever the server
    sends and the user types: the backward list afterwards is an initial
    part of the list before.  The history can only shrink, by "back". *)
Theorem navigate_never_adds_history (fuel : nat) (sel : pyval) (rh : bool)
    (server port_ : pyval) (st : State) (bw : list pyval) :
  backward_history (hm_of st) = VList bw ->
  exists bw',
    backward_history
      (hm_of (navigate decode urlparse_str fuel sel rh server port_ st).2)
    = VList bw'
    /\ bw' `prefix_of` bw.
Proof.
  rewrite BackFacts.navigate_ignores_record_history.
  apply navigate_false_shrinks.
Qed.

End WithLibraries.

Lemma navigate_never_adds_history_witness :
  let st := with_history [address "a" 70; address "b" 70] []
              (client_in (quiet_world ["0"; "b"]
                 [answering ""; answering two_dirs; answering "hello"])) in
  exists bw',
    backward_history
      (hm_of (navigate decode_ascii urlparse_unused 5 (VStr "") true
                (VStr "host") (VInt 70) st).2)
    = VList bw'
    /\ bw' `prefix_of` [address "a" 70; address "b" 70].
Proof.
  intros st.
  apply (navigate_never_adds_history decode_ascii urlparse_unused 5 (VStr "")
           true (VStr "host") (VInt 70) st).
  reflexivity.
Defined.

End HistoryInvariant.

(** ** Navigation and the rest of the client *)

Module ClientInvariant.

Import History Client Scenarios PersistenceFacts NavigateLaws.

(** The client without its socket and its history manager, and the shared
    default list. *)
#[local] Abbreviation settings :=
  (fun st : State =>
     (set_socket None (set_history_manager (History.__init__ None) (self st)),
      default_value st)).

Lemma emit_settings e : preserves settings (emit e).
Proof. unfold emit. repeat frame_step. Qed.
Lemma print_settings t a : preserves settings (print t a).
Proof. unfold print. apply emit_settings. Qed.
Lemma log_settings l t a : preserves settings (log l t a).
Proof. unfold log. repeat frame_step. apply emit_settings. Qed.
Lemma input_settings p : preserves settings (input p).
Proof. unfold input. repeat frame_step. apply print_settings. Qed.
Lemma error_handler_settings t a : preserves settings (_error_handler t a).
Proof. unfold _error_handler. apply log_settings. Qed.
Lemma debug_print_settings t a : preserves settings (_debug_print t a).
Proof. unfold _debug_print. repeat frame_step. apply log_settings. Qed.
Lemma socket_close_settings : preserves settings socket_close.
Proof. unfold socket_close. repeat frame_step. Qed.
Lemma create_connection_settings h p :
  preserves settings (create_connection h p).
Proof. unfold create_connection. repeat frame_step; apply emit_settings. Qed.
Lemma sendall_settings d : preserves settings (sendall d).
Proof. unfold sendall. repeat frame_step. apply emit_settings. Qed.
Lemma recv_all_settings : preserves settings recv_all.
Proof. unfold recv_all. repeat frame_step. Qed.
Lemma hm_getattr_settings n : preserves settings (History.getattr n).
Proof. unfold History.getattr. repeat frame_step. Qed.
Lemma call_debug_settings o t a : preserves settings (call_debug o t a).
Proof. unfold call_debug. repeat frame_step. apply log_settings. Qed.

Ltac settings_leaf :=
  lazymatch goal with
  | |- preserves _ (emit _) => apply emit_settings
  | |- preserves _ (print _ _) => apply print_settings
  | |- preserves _ (log _ _ _) => apply log_settings
  | |- preserves _ (input _) => apply input_settings
  | |- preserves _ (_error_handler _ _) => apply error_handler_settings
  | |- preserves _ (_debug_print _ _) => apply debug_print_settings
  | |- preserves _ socket_close => apply socket_close_settings
  | |- preserves _ (create_connection _ _) => apply create_connection_settings
  | |- preserves _ (sendall _) => apply sendall_settings
  | |- preserves _ recv_all => apply recv_all_settings
  | |- preserves _ (History.getattr _) => apply hm_getattr_settings
  | |- preserves _ (call_debug _ _ _) => apply call_debug_settings
  end.

Lemma establish_connection_settings s p :
  preserves settings (_establish_connection s p).
Proof. unfold _establish_connection. repeat frame_step; settings_leaf. Qed.

(** Reconnecting assigns [self.host] and [self.port] to themselves. *)
Lemma ensure_connection_settings : preserves settings _ensure_connection.
Proof.
  assert (H : forall st, exists r s',
              _ensure_connection st = (r, s') /\ settings s' = settings st).
  { intros st. unfold _ensure_connection.
    destruct (is_connected_pure st) as [ok Hok].
    unfold mbind at 1. unfold M_bind at 1. unfold bind at 1. rewrite Hok.
    destruct ok; cbn [negb]; [do 2 eexists; split; reflexivity|].
    unfold mbind at 1. unfold M_bind at 1. unfold bind at 1. rewrite log_eq.
    unfold mbind at 1. unfold M_bind at 1. unfold bind at 1. cbn [gets].
    unfold connect.
    repeat (unfold mbind at 1; unfold M_bind at 1; unfold bind at 1;
            match goal with
            | |- context [(if ?b then _ else _) ?s] =>
                destruct b; cbn [modify ret]
            end).
    all: match goal with
         | |- exists r s', _establish_connection ?a ?b ?s = _ /\ _ =>
             pose proof (establish_connection_settings a b s) as He;
             destruct (_establish_connection a b s) as [r s']
         end;
      exists r, s'; (split; [reflexivity|]);
      cbn [snd] in He; rewrite He; destruct st as [[] w d]; reflexivity. }
  intros st. destruct (H st) as (r & s' & -> & Hs). exact Hs.
Qed.

Lemma send_request_settings decode sel s p :
  preserves settings (_send_request decode sel s p).
Proof.
  unfold _send_request. repeat frame_step;
    first [apply establish_connection_settings | settings_leaf].
Qed.

Lemma parse_gopher_menu_settings d : preserves settings (_parse_gopher_menu d).
Proof. unfold _parse_gopher_menu. repeat frame_step. apply log_settings. Qed.

Lemma print_gopher_menu_settings es :
  preserves settings (_print_gopher_menu es).
Proof.
  unfold _print_gopher_menu. repeat frame_step; try apply print_settings.
  match goal with |- preserves _ (_ ?i ?l) => generalize i; induction l end;
    intros; cbv beta iota fix; repeat frame_step;
    first [apply print_settings | match goal with H : _ |- _ => apply H end].
Qed.

Lemma quit_client_settings : preserves settings quit_client.
Proof. unfold quit_client. repeat frame_step. apply socket_close_settings. Qed.

Lemma go_back_settings : preserves settings go_back.
Proof.
  unfold go_back, get_backward, get_forward, put_backward, put_forward.
  repeat frame_step; settings_leaf.
Qed.

Lemma record_settings a : preserves settings (record a).
Proof.
  unfold record, get_backward, get_forward, put_backward, put_forward.
  repeat frame_step.
Qed.

Lemma navigate_prologue_settings sel : preserves settings (navigate_prologue sel).
Proof.
  unfold navigate_prologue, get_backward.
  repeat frame_step; first [apply ensure_connection_settings | settings_leaf].
Qed.

Ltac settings_leaf' :=
  lazymatch goal with
  | |- preserves _ (_send_request _ _ _ _) => apply send_request_settings
  | |- preserves _ (_parse_gopher_menu _) => apply parse_gopher_menu_settings
  | |- preserves _ (_print_gopher_menu _) => apply print_gopher_menu_settings
  | |- preserves _ quit_client => apply quit_client_settings
  | |- preserves _ go_back => apply go_back_settings
  | |- preserves _ (record _) => apply record_settings
  | |- preserves _ (navigate_prologue _) => apply navigate_prologue_settings
  | |- preserves _ get_backward => apply preserves_gets
  | |- _ => settings_leaf
  end.

Section WithLibraries.

Variable decode : string -> string.
Variable urlparse_str : string -> res (pyval * pyval * pyval).

Section WithNavigate.

Variable nav : navigate_t.
Hypothesis nav_settings : forall s r h p, preserves settings (nav s r h p).

Lemma go_back_client_settings : preserves settings (_go_back nav).
Proof.
  unfold _go_back. repeat frame_step;
    first [apply nav_settings | settings_leaf'].
Qed.

Lemma get_user_choice_settings fuel es :
  preserves settings (_get_user_choice nav fuel es).
Proof.
  induction fuel as [|fuel IH]; cbn [_get_user_choice]; repeat frame_step;
    first [apply go_back_client_settings | exact IH | settings_leaf'].
Qed.

Lemma display_gopher_menu_settings fuel d :
  preserves settings (_display_gopher_menu nav fuel d).
Proof.
  unfold _display_gopher_menu. repeat frame_step;
    first [apply get_user_choice_settings | settings_leaf'].
Qed.

Lemma handle_user_choice_loop_settings fuel :
  preserves settings (_handle_user_choice_loop urlparse_str nav fuel).
Proof.
  induction fuel as [|fuel IH]; cbn [_handle_user_choice_loop];
    repeat frame_step;
    first [apply nav_settings | exact IH | settings_leaf'].
Qed.

Lemma handle_user_choice_settings fuel d :
  preserves settings (_handle_user_choice urlparse_str nav fuel d).
Proof.
  unfold _handle_user_choice. repeat frame_step;
    first [apply handle_user_choice_loop_settings | settings_leaf'].
Qed.

Lemma navigate_body_settings fuel s r h p :
  preserves settings (navigate_body decode urlparse_str nav fuel s r h p).
Proof.
  unfold navigate_body, navigate_dispatch. repeat frame_step;
    first [apply display_gopher_menu_settings
          | apply handle_user_choice_settings
          | apply nav_settings | settings_leaf'].
Qed.

End WithNavigate.

Lemma navigate_settings fuel s r h p :
  preserves settings (navigate decode urlparse_str fuel s r h p).
Proof.
  revert s r h p. induction fuel as [|fuel IH]; intros; cbn [navigate].
  - apply preserves_out_of_fuel.
  - repeat frame_step;
      first [apply navigate_body_settings; exact IH | settings_leaf'].
Qed.

(** X28.  A navigation changes nothing of the client but its socket and
    its history manager: following links to other servers leaves
    [self.host] and [self.port] as they were, and the bookmarks, the search
    engines and the debug settings are not touched either. *)
Theorem navigate_keeps_settings (fuel : nat) (sel : pyval) (rh : bool)
    (server port_ : pyval) (st : State) :
  let st' := (navigate decode urlparse_str fuel sel rh server port_ st).2 in
  host (self st') = host (self st)
  /\ port (self st') = port (self st)
  /\ debug (self st') = debug (self st)
  /\ logger_level (self st') = logger_level (self st)
  /\ bookmarks (self st') = bookmarks (self st)
  /\ search_engines (self st') = search_engines (self st)
  /\ default_value st' = default_value st.
Proof.
  pose proof (navigate_settings fuel sel rh server port_ st) as H.
  cbn beta in H. injection H as H1 H2 H3 H4 H5 H6 H7 H8 H9 H10 H11.
  cbn zeta. repeat split; assumption.
Qed.

End WithLibraries.

End ClientInvariant.

(** ** Choosing from a menu, and searching *)

Module MenuLaws.

Import History Client Scenarios PersistenceFacts ClientInvariant.

#[local] Arguments log : simpl never.
#[local] Arguments log_events : simpl never.

Lemma upd_trace_nil (st : State) :
  upd_world (fun w => set_trace (trace w ++ []) w) st = st.
Proof.
  destruct st as [c [keys peers files faults tr] d].
  unfold upd_world, set_trace. cbn. rewrite app_nil_r. reflexivity.
Qed.

Lemma upd_trace_app (evs1 evs2 : list event) (st : State) :
  upd_world (fun w => set_trace (trace w ++ evs2) w)
    (upd_world (fun w => set_trace (trace w ++ evs1) w) st)
  = upd_world (fun w => set_trace (trace w ++ evs1 ++ evs2) w) st.
Proof.
  destruct st as [c [keys peers files faults tr] d].
  unfold upd_world, set_trace. cbn. rewrite app_assoc. reflexivity.
Qed.

(** Printing the menu adds output and does nothing else. *)
Lemma print_gopher_menu_trace (es : list entry) (st : State) :
  exists evs,
    _print_gopher_menu es st
    = (Ret tt, upd_world (fun w => set_trace (trace w ++ evs) w) st).
Proof.
  unfold _print_gopher_menu.
  match goal with
  | |- exists evs, (?each 0 es ≫= _) st = _ =>
      assert (Hloop : forall i s, exists evs,
                each i es s
                = (Ret tt, upd_world (fun w => set_trace (trace w ++ evs) w) s))
  end.
  { induction es as [|[[[[t d] sl] sv] pt] es IH]; intros i s.
    - exists []. rewrite upd_trace_nil. reflexivity.
    - cbv beta iota fix.
      erewrite bind_ret_step by reflexivity.
      match goal with
      | |- exists evs, _ (S i) es ?s' = _ =>
          destruct (IH (S i) s') as [evs Hevs]
      end.
      rewrite Hevs. rewrite upd_trace_app. eexists. reflexivity. }
  destruct (Hloop 0 st) as [evs Hevs].
  erewrite bind_ret_step by exact Hevs.
  erewrite bind_ret_step by reflexivity.
  unfold print, emit, modify. rewrite !upd_trace_app.
  eexists. reflexivity.
Qed.

Section WithLibraries.

Variable decode : string -> string.
Variable urlparse_str : string -> res (pyval * pyval * pyval).
Variable nav : navigate_t.

Lemma get_user_choice_picks (fuel : nat) (choice : string)
    (rest : list string) (entries : list entry) (n : Z) (e : entry)
    (st : State) :
  stdin (world st) = choice :: rest ->
  isdigit choice = true ->
  int_of_string choice = Some n ->
  (0 <= n)%Z ->
  entries !! Z.to_nat n = Some e ->
  exists s1,
    _get_user_choice nav (S fuel) entries st = (Ret (Chosen e), s1)
    /\ self s1 = self st
    /\ stdin (world s1) = rest
    /\ net (world s1) = net (world st).
Proof.
  intros Hin Hdig Hint Hn Hentry.
  assert (Hlt : (n <? Z.of_nat (length entries))%Z = true).
  { apply Z.ltb_lt. rewrite <- (Z2Nat.id n) by exact Hn.
    apply Nat2Z.inj_lt. exact (lookup_lt_Some _ _ _ Hentry). }
  destruct st as [c [keys peers files faults tr] shared]. cbn in Hin.
  subst keys. cbn [_get_user_choice].
  unfold input, print, emit. munfold. cbn. rewrite !log_eq. cbn.
  rewrite Hdig. cbn. unfold py_int. rewrite Hint. cbn.
  destruct (Z.leb_spec 0 n) as [_|]; [|lia]. rewrite Hlt. cbn.
  rewrite Hentry. eexists. split; [reflexivity|]. repeat split.
Qed.

(** X29.  Choosing an entry of a menu by its number navigates to that
    entry: [navigate] is called with the entry's selector and with
    [record_history] false; with the entry's server, or [self.host] when
    the server field is empty; and with the entry's port read as a number
    (surrounding white space and the carriage return of the line end
    stripped), or [self.port] when the port field is empty or the number
    is 0 (lines 191-192).  Nothing but the output and the consumed input
    line has changed by then. *)
Theorem menu_choice_navigates (fuel : nat) (data choice : string)
    (rest : list string) (entries : list entry) (n p : Z)
    (t d sel server port_ : string) (st : State) :
  contains TAB data = true ->
  classify data = true ->
  parse_lines (split LF data) [] = Ret entries ->
  stdin (world st) = choice :: rest ->
  isdigit choice = true ->
  int_of_string choice = Some n ->
  (0 <= n)%Z ->
  entries !! Z.to_nat n = Some (t, d, sel, server, port_) ->
  (String.eqb port_ "" = false -> int_of_string (strip port_) = Some p) ->
  exists s1,
    navigate_dispatch urlparse_str nav (S fuel) data st
    = (nav (VStr sel) false
         (if String.eqb server "" then host (self st) else VStr server)
         (if String.eqb port_ "" || (p =? 0)%Z then port (self st)
          else VInt p) ;;
       ret false) s1
    /\ self s1 = self st
    /\ stdin (world s1) = rest
    /\ net (world s1) = net (world st).
Proof.
  intros Htab Hmenu Hparse Hin Hdig Hint Hn Hentry Hp.
  set (sa := upd_world
               (fun w => set_trace
                  (trace w ++ log_events (self st) DEBUG
                     "Parsing gopher menu: {}..."
                     [VStr (substring 0 100 data)]) w) st).
  assert (Hparsed : _parse_gopher_menu data st = (Ret entries, sa)).
  { unfold _parse_gopher_menu.
    erewrite bind_ret_step by apply log_eq.
    unfold lift. rewrite Hparse. reflexivity. }
  destruct (print_gopher_menu_trace entries sa) as [evs Hevs].
  set (sb := upd_world (fun w => set_trace (trace w ++ evs) w) sa) in Hevs.
  assert (Hsb : self sb = self st /\ stdin (world sb) = choice :: rest
                 /\ net (world sb) = net (world st)).
  { subst sb sa. destruct st as [c [keys peers files faults tr pf] shared].
    cbn in *. repeat split. exact Hin. }
  destruct Hsb as (Hsb1 & Hsb2 & Hsb3).
  destruct (get_user_choice_picks fuel choice rest entries n
              (t, d, sel, server, port_) sb Hsb2 Hdig Hint Hn Hentry)
    as (sc & Hchoice & Hself & Hrest & Hnet).
  assert (Hmenu' : _display_gopher_menu nav (S fuel) data st
                   = (Ret (Some sel, Some server,
                           if String.eqb port_ "" then VStr port_
                           else VInt p), sc)).
  { unfold _display_gopher_menu. rewrite Hmenu.
    erewrite bind_ret_step by exact Hparsed.
    erewrite bind_ret_step by exact Hevs.
    erewrite bind_ret_step by exact Hchoice.
    cbv beta iota.
    destruct (String.eqb port_ "") eqn:Hport; cbn [negb]; [reflexivity|].
    erewrite bind_ret_step
      by (unfold lift, py_int; rewrite (Hp eq_refl); reflexivity).
    reflexivity. }
  assert (Hsc : self sc = self st) by congruence.
  exists sc. split.
  - unfold navigate_dispatch. rewrite Htab.
    erewrite bind_ret_step by exact Hmenu'.
    cbv beta iota.
    erewrite bind_ret_step by reflexivity.
    rewrite Hsc.
    replace (if truthy (VStr server) then VStr server else host (self st))
      with (if String.eqb server "" then host (self st) else VStr server)
      by (cbn [truthy]; destruct (String.eqb server ""); reflexivity).
    destruct (String.eqb port_ "") eqn:Hport.
    + apply String.eqb_eq in Hport. subst port_. cbn [truthy String.eqb negb orb].
      erewrite bind_ret_step by reflexivity.
      reflexivity.
    + cbn [truthy orb]. destruct (p =? 0)%Z; cbn [negb].
      * erewrite bind_ret_step by reflexivity. reflexivity.
      * erewrite bind_ret_step by reflexivity. reflexivity.
  - repeat split; congruence.
Qed.

(** X30.  A search asks the engine twice.  The engine is the first one in
    [self.search_engines] that has the given name.  Once its answer to the
    first request has arrived, [search] discards it and calls [navigate]
    for the same selector with no server and port 70: the second request
    goes to [self.host], the engine's host, but to port 70 whatever port
    the engine is configured with and [self.port] holds. *)
Theorem search_fetches_again (query engine prefix text : string)
    (e hostname port_ : pyval) (before others : list pyval) (st s1 : State) :
  deref (search_engines (self st)) st = VList (before ++ e :: others) ->
  Forall (fun x => exists name, py_getitem x (VStr "name") = Ret name
                                /\ py_eqb name (VStr engine) = false) before ->
  py_getitem e (VStr "name") = Ret (VStr engine) ->
  py_getitem e (VStr "hostname") = Ret hostname ->
  dict_get e "port" (VInt 70) = Ret port_ ->
  py_getitem e (VStr "selector") = Ret (VStr prefix) ->
  (connect VNone VNone ;;
   _send_request decode (VStr (prefix +:+ query)) VNone VNone)
    (upd_self (set_port port_) (upd_self (set_host hostname) st))
  = (Ret (Some text), s1) ->
  String.eqb text "" = false ->
  search decode nav query engine st
  = nav (VStr (prefix +:+ query)) false VNone (VInt 70) s1
  /\ host (self s1) = hostname
  /\ port (self s1) = port_.
Proof.
  intros Hes Hbefore Hname Hhost Hport Hsel Hreq Htext.
  assert (Htruthy : truthy e = true).
  { destruct e as [| | | | | |items|]; cbn in Hname; try discriminate;
      try (destruct (index_list _ _); discriminate).
    destruct items; [discriminate | reflexivity]. }
  split.
  - unfold search.
    erewrite bind_ret_step by (unfold get_search_engines, gets; rewrite Hes;
                               reflexivity).
    erewrite bind_ret_step by reflexivity.
    match goal with
    | |- (?loop (before ++ e :: others) ≫= _) _ = _ =>
        assert (Hloop : forall s, loop (before ++ e :: others) s = (Ret e, s))
    end.
    { intros s. clear Hes. induction Hbefore as [|x before (name & Hx & Hdiff) _ IH].
      - cbn [app]. cbv beta iota fix.
        erewrite bind_ret_step by (unfold lift; rewrite Hname; reflexivity).
        cbn [py_eqb]. rewrite String.eqb_refl. reflexivity.
      - rewrite <- app_comm_cons. cbv beta iota fix.
        erewrite bind_ret_step by (unfold lift; rewrite Hx; reflexivity).
        rewrite Hdiff. exact IH. }
    erewrite bind_ret_step by apply Hloop.
    rewrite Htruthy. cbn [negb].
    erewrite bind_ret_step by (unfold lift; rewrite Hhost; reflexivity).
    erewrite bind_ret_step by (unfold lift; rewrite Hport; reflexivity).
    erewrite bind_ret_step by (unfold lift; rewrite Hsel; reflexivity).
    erewrite bind_ret_step by reflexivity.
    erewrite bind_ret_step by reflexivity.
    erewrite bind_ret_step by reflexivity.
    destruct (bind_ret_inv _ _ _ _ _ Hreq) as ([] & s0 & Hconn & Hsend).
    erewrite bind_ret_step by exact Hconn.
    erewrite bind_ret_step by exact Hsend.
    cbv beta iota. rewrite Htext. reflexivity.
  - assert (H : preserves (fun st : State =>
                   (set_socket None
                      (set_history_manager (History.__init__ None) (self st)),
                    default_value st))
                  (connect VNone VNone ;;
                   _send_request decode (VStr (prefix +:+ query)) VNone VNone)).
    { unfold connect. cbn [truthy]. repeat frame_step;
        first [apply establish_connection_settings
              | apply send_request_settings]. }
    specialize (H (upd_self (set_port port_) (upd_self (set_host hostname) st))).
    rewrite Hreq in H. cbn [snd] in H.
    injection H as H1 H2 _. split; assumption.
Qed.

End WithLibraries.

(** The second entry of a menu whose entries name a server and port 70. *)
Lemma menu_choice_navigates_witness :
  let st := client_in (quiet_world ["1"; "q"] []) in
  exists s1,
    navigate_dispatch urlparse_unused
      (navigate decode_ascii urlparse_unused 3) 1 two_dirs st
    = (navigate decode_ascii urlparse_unused 3 (VStr "/b") false (VStr "host")
         (VInt 70) ;; ret false) s1
    /\ self s1 = self st
    /\ stdin (world s1) = ["q"]
    /\ net (world s1) = net (world st).
Proof.
  intros st.
  apply (menu_choice_navigates urlparse_unused
           (navigate decode_ascii urlparse_unused 3) 0 two_dirs "1" ["q"]
           [("1", "Dir A", "/a", "host", "70" +:+ String CR EmptyString);
            ("1", "Dir B", "/b", "host", "70" +:+ String CR EmptyString)]
           1 70 "1" "Dir B" "/b" "host" ("70" +:+ String CR EmptyString) st);
    first [lia | intros _; vm_compute; reflexivity | vm_compute; reflexivity].
Defined.

(** The second engine of two is asked. *)
Lemma search_fetches_again_witness :
  let other := VDict [("name", VStr "Contrition");
                      ("hostname", VStr "gopher.example");
                      ("selector", VStr "/c?")] in
  let engine := VDict [("name", VStr "Veronica-2");
                       ("hostname", VStr "gopher.floodgap.com");
                       ("port", VInt 7070);
                       ("selector", VStr "/v2/vs?")] in
  let st := upd_self (fun c =>
              mk_client (host c) (port c) (timeout c) (debug c) (socket c)
                (bookmarks c) (Own (VList [other; engine])) (history_manager c)
                (is_navigating_back c) (root_level c) (logger_level c)
                (other_attrs c))
              (client_in (quiet_world ["q"]
                 [answering ""; answering "iHits"; answering ""])) in
  let nav := navigate decode_ascii urlparse_unused 3 in
  let s1 := ((connect VNone VNone ;;
              _send_request decode_ascii (VStr ("/v2/vs?" +:+ "gopher")) VNone
                VNone)
               (upd_self (set_port (VInt 7070))
                  (upd_self (set_host (VStr "gopher.floodgap.com")) st))).2 in
  search decode_ascii nav "gopher" "Veronica-2" st
  = nav (VStr ("/v2/vs?" +:+ "gopher")) false VNone (VInt 70) s1
  /\ host (self s1) = VStr "gopher.floodgap.com"
  /\ port (self s1) = VInt 7070.
Proof.
  intros other engine st nav s1.
  apply (search_fetches_again decode_ascii nav "gopher" "Veronica-2" "/v2/vs?"
           "iHits" engine (VStr "gopher.floodgap.com") (VInt 7070) [other] []
           st s1);
    first [ vm_compute; reflexivity
          | repeat constructor; exists (VStr "Contrition");
            split; vm_compute; reflexivity ].
Defined.

End MenuLaws.
